(** * urbassist: the scaled geometry and measurement engine of the plan editor

    A shallow embedding of the measurement code of
    [src/app/editor/page.tsx] (the technical drawing editor) and of
    [src/components/editor/CanvasEditor.tsx] (the canvas hook), with the
    properties the specification states about them and further properties
    of the drawing handlers, the annotation sets and the project store.

    JavaScript numbers are IEEE 754 binary64 values.  The editor code is
    written once, over an interface of the number operations it uses
    ([JSNumber]), and is read at two instances:
    - [Q], exact rational arithmetic, where the algebraic laws are proved;
    - [float], Rocq's primitive binary64 numbers, where the code is run
      with the rounding the program really has.
    [Math]'s transcendental functions are an interface of their own
    ([JSMath]): the theorems hold for every implementation of it. *)

From Stdlib Require Import ZArith QArith Qabs Qminmax Qround Lia Lqa.
From Stdlib Require Import String Ascii List DecimalString.
From Stdlib Require Import Floats.
From stdpp Require Import gmap strings.

Local Open Scope string_scope.
Local Open Scope Z_scope.

(** String concatenation, as in a template literal. *)
Infix "+++" := String.append (right associativity, at level 60).

(** ** JavaScript numbers *)

(** The mathematical value of a number: ECMAScript's R(x), with the three
    values that have none. *)
Inductive NumberValue : Type :=
  | NaN
  | Infinity (negative : bool)
  | Finite (q : Q).

(** The operations on numbers used by the editor. *)
Class JSNumber (num : Type) : Type := {
  lit : Z -> num;
  js_add : num -> num -> num;
  js_sub : num -> num -> num;
  js_mul : num -> num -> num;
  js_div : num -> num -> num;
  js_neg : num -> num;
  js_lt : num -> num -> bool;
  truthy : num -> bool;
  Math_abs : num -> num;
  Math_min : num -> num -> num;
  real : num -> NumberValue;
  binary64 : num -> spec_float
}.

Declare Scope js_scope.
Delimit Scope js_scope with js.
Infix "+" := js_add : js_scope.
Infix "-" := js_sub : js_scope.
Infix "*" := js_mul : js_scope.
Infix "/" := js_div : js_scope.
Notation "- x" := (js_neg x) : js_scope.
Notation "x <? y" := (js_lt x y) : js_scope.
Notation "x >? y" := (js_lt y x) : js_scope.

(** [a || b] on numbers: [a] unless it is falsy (0 or NaN). *)
Definition or_else {num} `{JSNumber num} (a b : num) : num :=
  if truthy a then a else b.

(** [Math]'s functions that are not rational. *)
Class JSMath (num : Type) : Type := {
  Math_PI : num;
  Math_sqrt : num -> num;
  Math_pow : num -> num -> num;
  Math_atan2 : num -> num -> num;
  Math_sin : num -> num;
  Math_cos : num -> num
}.

(** *** Exact arithmetic *)

Definition Qltb (x y : Q) : bool := negb (Qle_bool y x).

(** The binary64 value nearest to a positive rational, ties to even:
    a mantissa below 2^53 and an exponent of at least -1074. *)
Definition round_half_even (q : Q) : Z :=
  let f := Qfloor q in
  let r := (q - inject_Z f)%Q in
  match (r ?= 1 # 2)%Q with
  | Lt => f
  | Gt => f + 1
  | Eq => if Z.even f then f else f + 1
  end.

Definition binary64_of_positive (q : Q) : spec_float :=
  let e0 := Z.log2 (Qnum q) - Z.log2 (Zpos (Qden q)) - 53 in
  let scaled (e : Z) := (q * Qpower 2 (- e))%Q in
  let e1 := if Qle_bool (inject_Z (2 ^ 53)) (scaled (e0 + 1)) then e0 + 2
            else if Qle_bool (inject_Z (2 ^ 53)) (scaled e0) then e0 + 1
            else e0 in
  let e := Z.max e1 (-1074) in
  let m := round_half_even (scaled e) in
  let '(m, e) := if m =? 2 ^ 53 then (2 ^ 52, e + 1) else (m, e) in
  if 971 <? e then S754_infinity false
  else match m with
       | Zpos p => S754_finite false p e
       | _ => S754_zero false
       end.

Definition binary64_of_Q (q : Q) : spec_float :=
  match Qnum q with
  | Z0 => S754_zero false
  | Zpos _ => binary64_of_positive q
  | Zneg _ => SFopp (binary64_of_positive (- q)%Q)
  end.

#[export] Instance Q_number : JSNumber Q := {
  lit := inject_Z;
  js_add := Qplus;
  js_sub := Qminus;
  js_mul := Qmult;
  js_div := Qdiv;
  js_neg := Qopp;
  js_lt := Qltb;
  truthy := fun x => negb (Qeq_bool x 0);
  Math_abs := Qabs;
  Math_min := Qmin;
  real := Finite;
  binary64 := binary64_of_Q
}.

(** *** binary64 arithmetic *)

Definition value_of_spec_float (f : spec_float) : NumberValue :=
  match f with
  | S754_zero _ => Finite 0
  | S754_infinity s => Infinity s
  | S754_nan => NaN
  | S754_finite s m e =>
      let v := (inject_Z (Zpos m) * Qpower 2 e)%Q in
      Finite (Qred (if s then - v else v)%Q)
  end.

Definition float_of_Z (z : Z) : float :=
  match z with
  | Z0 => 0%float
  | Zpos _ => of_uint63 (Uint63.of_Z z)
  | Zneg _ => PrimFloat.opp (of_uint63 (Uint63.of_Z (- z)))
  end.

Definition float_min (a b : float) : float :=
  if PrimFloat.is_nan a || PrimFloat.is_nan b then PrimFloat.nan
  else if PrimFloat.ltb a b then a
  else if PrimFloat.ltb b a then b
  else if get_sign a then a else b.

#[export] Instance float_number : JSNumber float := {
  lit := float_of_Z;
  js_add := PrimFloat.add;
  js_sub := PrimFloat.sub;
  js_mul := PrimFloat.mul;
  js_div := PrimFloat.div;
  js_neg := PrimFloat.opp;
  js_lt := PrimFloat.ltb;
  truthy := fun x => negb (PrimFloat.eqb x 0 || PrimFloat.is_nan x);
  Math_abs := PrimFloat.abs;
  Math_min := float_min;
  real := fun x => value_of_spec_float (Prim2SF x);
  binary64 := Prim2SF
}.


(** ** Number to string: [Number::toString] and [Number.prototype.toFixed]

    Both are ECMAScript library routines; they are written here as the
    standard states them, on the exact value of the number. *)

Definition digits_of_N (n : N) : list ascii :=
  list_ascii_of_string (NilZero.string_of_uint (N.to_uint n)).

Definition decimal_of_Z (z : Z) : string :=
  string_of_list_ascii (digits_of_N (Z.to_N z)).

Definition zeros (n : nat) : list ascii := repeat "0"%char n.

(** The integer [n] with [10^(n-1) <= v < 10^n], for [v > 0]. *)
Definition decimal_exponent (v : Q) : Z :=
  let d := Z.log2 (Qnum v) - Z.log2 (Zpos (Qden v)) in
  let n0 := (d * 30103) / 100000 - 1 in
  let below (n : Z) := Qltb v (Qpower 10 n) in
  if below n0 then n0
  else if below (n0 + 1) then n0 + 1
  else if below (n0 + 2) then n0 + 2
  else if below (n0 + 3) then n0 + 3
  else n0 + 4.

(** The reals that round to the positive binary64 value [m * 2^e]. *)
Definition rounds_to (m : positive) (e : Z) (q : Q) : bool :=
  let hi := (inject_Z (2 * Zpos m + 1) * Qpower 2 (e - 1))%Q in
  let lo := if (Zpos m =? 2 ^ 52) && (-1074 <? e)
            then (inject_Z (4 * Zpos m - 1) * Qpower 2 (e - 2))%Q
            else (inject_Z (2 * Zpos m - 1) * Qpower 2 (e - 1))%Q in
  if Z.even (Zpos m) then Qle_bool lo q && Qle_bool q hi
  else Qltb lo q && Qltb q hi.

(** Step 5 of [Number::toString]: the shortest digit string [s] (of [k]
    digits) and the exponent [n] with [s * 10^(n-k)] rounding to the value;
    [k] is tried from 1 upwards. *)
Fixpoint shortest_digits (fuel : nat) (k : Z) (m : positive) (e : Z)
    : Z * Z * Z :=
  let v := (inject_Z (Zpos m) * Qpower 2 e)%Q in
  let n0 := decimal_exponent v in
  let unit := Qpower 10 (n0 - k) in
  let s1 := Qfloor (v / unit)%Q in
  let s2 := s1 + 1 in
  let ok1 := rounds_to m e (inject_Z s1 * unit)%Q in
  let ok2 := rounds_to m e (inject_Z s2 * unit)%Q in
  let d1 := (v - inject_Z s1 * unit)%Q in
  let d2 := (inject_Z s2 * unit - v)%Q in
  let pick1 := ok1 && (negb ok2 || Qltb d1 d2 || (Qeq_bool d1 d2 && Z.even s1)) in
  let found := ok1 || ok2 in
  let s := if pick1 then s1 else s2 in
  match fuel with
  | O => (s1, k, n0)
  | S fuel' =>
      if found then
        if s =? 10 ^ k then (10 ^ (k - 1), k, n0 + 1) else (s, k, n0)
      else shortest_digits fuel' (k + 1) m e
  end.

(** An integer in a template literal. *)
Definition integer_toString (z : Z) : string :=
  if z <? 0 then "-" +++ decimal_of_Z (- z) else decimal_of_Z z.

Definition exponent_suffix (n : Z) : string :=
  ("e" +++ (if n - 1 <? 0 then "-" else "+") +++ decimal_of_Z (Z.abs (n - 1))).

(** Steps 6 to 10 of [Number::toString]. *)
Definition render_digits (s k n : Z) : string :=
  let ds := digits_of_N (Z.to_N s) in
  if (k <=? n) && (n <=? 21) then
    string_of_list_ascii (ds ++ zeros (Z.to_nat (n - k)))%list
  else if (0 <? n) && (n <=? 21) then
    (string_of_list_ascii (firstn (Z.to_nat n) ds) +++ "."
      +++ string_of_list_ascii (skipn (Z.to_nat n) ds))
  else if (-6 <? n) && (n <=? 0) then
    "0." +++ string_of_list_ascii (zeros (Z.to_nat (- n)) ++ ds)%list
  else if k =? 1 then
    (string_of_list_ascii ds +++ exponent_suffix n)
  else
    (string_of_list_ascii (firstn 1 ds) +++ "."
      +++ string_of_list_ascii (skipn 1 ds) +++ exponent_suffix n).

Definition Number_toString (x : spec_float) : string :=
  match x with
  | S754_nan => "NaN"
  | S754_zero _ => "0"
  | S754_infinity s => if s then "-Infinity" else "Infinity"
  | S754_finite s m e =>
      let '(d, k, n) := shortest_digits 17 1 m e in
      ((if s then "-" else "") +++ render_digits d k n)
  end.

(** Step 9 of [toFixed]: the integer [n] with [n / 10^f] nearest to [x],
    the larger one of two. *)
Definition nearest_scaled (x : Q) (f : nat) : Z :=
  Qfloor (x * inject_Z (10 ^ Z.of_nat f) + (1 # 2))%Q.

Definition fixed_digits (n : Z) (f : nat) : string :=
  let m := digits_of_N (Z.to_N n) in
  match f with
  | O => string_of_list_ascii m
  | S _ =>
      let k := length m in
      let m := if (k <=? f)%nat then (zeros (f + 1 - k) ++ m)%list else m in
      let k := length m in
      string_of_list_ascii (firstn (k - f) m) +++ "."
        +++ string_of_list_ascii (skipn (k - f) m)
  end.

Definition toFixed {num} `{JSNumber num} (x : num) (fractionDigits : nat)
    : string :=
  match real x with
  | NaN => "NaN"
  | Infinity s => if s then "-Infinity" else "Infinity"
  | Finite q =>
      let s := if Qltb q 0 then "-" else "" in
      let a := Qabs q in
      if Qle_bool (inject_Z (10 ^ 21)) a
      then (s +++ Number_toString (SFabs (binary64 x)))
      else (s +++ fixed_digits (nearest_scaled a fractionDigits) fractionDigits)
  end.

(** ** The drawing editor page ([src/app/editor/page.tsx]) *)

Module EditorPage.

Inductive Tool : Set :=
  | tool_select | tool_rectangle | tool_circle | tool_line | tool_polygon
  | tool_text | tool_pan | tool_measure | tool_parcel.

Section Model.

Context {num : Type} `{JSNumber num} `{JSMath num}.

Local Open Scope js_scope.

(** Scale configuration: how many pixels represent one meter. *)
Record Scale : Type := {
  label : string;
  value : num;
  pixelsPerMeter : num
}.


(** *** Unit converter *)

(** Convert pixels to meters based on scale. *)
Definition pixelsToMeters (currentScale : Scale) (pixels : num) : num :=
  pixels / pixelsPerMeter currentScale.

(** Convert meters to pixels based on scale. *)
Definition metersToPixels (currentScale : Scale) (meters : num) : num :=
  meters * pixelsPerMeter currentScale.

(** Format measurement for display. *)
Definition formatMeasurement (meters : num) : string :=
  if meters <? lit 1 then toFixed (meters * lit 100) 0 +++ " cm"
  else toFixed meters 2 +++ " m".

(** Calculate distance between two points. *)
Definition calculateDistance (currentScale : Scale) (x1 y1 x2 y2 : num) : num :=
  let pixelDistance :=
    Math_sqrt (Math_pow (x2 - x1) (lit 2) + Math_pow (y2 - y1) (lit 2)) in
  pixelsToMeters currentScale pixelDistance.

(** *** Canvas objects *)

Record Point : Type := { px : num; py : num }.

(** What each [fabric] constructor is given. *)
Inductive Shape : Type :=
  | Line (x1 y1 x2 y2 : num)
  | Rect (left top width height : num)
  | Circle (left top radius : num)
  | Polygon (points : list Point)
  | Text (text : string) (left top angle : num).

(** A transform matrix [a b c d e f], as [calcTransformMatrix] returns it. *)
Record Matrix : Type := { ma : num; mb : num; mc : num; md : num; me : num; mf : num }.

(** A [fabric] object: its identity ([oid], one per [new]), the geometry it
    was built from, and the properties the editor sets or reads.  Font,
    padding, origin and dash options only affect drawing and are left out. *)
Record FabricObject : Type := {
  oid : nat;
  shape : Shape;
  scaleX : num;
  scaleY : num;
  transformMatrix : Matrix;
  stroke : string;
  fill : string;
  backgroundColor : string;
  strokeWidth : num;
  selectable : bool;
  evented : bool;
  id : option string;
  isParcel : bool;
  isMeasurement : bool;
  parentId : option string
}.

(** [obj.type] *)
Definition type (obj : FabricObject) : string :=
  match shape obj with
  | Line _ _ _ _ => "line"
  | Rect _ _ _ _ => "rect"
  | Circle _ _ _ => "circle"
  | Polygon _ => "polygon"
  | Text _ _ _ _ => "text"
  end.

Definition translation (dx dy : num) : Matrix :=
  {| ma := lit 1; mb := lit 0; mc := lit 0; md := lit 1; me := dx; mf := dy |}.

(** [fabric.util.transformPoint] *)
Definition transformPoint (p : Point) (t : Matrix) : Point :=
  {| px := ma t * px p + mc t * py p + me t;
     py := mb t * px p + md t * py p + mf t |}.

(** *** Editor state *)

(** The React state the drawing handlers read and set. *)
Record Drawing : Type := {
  activeTool : Tool;
  activeColor : string;
  strokeWidthSetting : num;
  currentScale : Scale;
  isDrawing : bool;
  drawingStart : option Point;
  tempShape : option FabricObject;
  currentMeasurement : string;
  mousePos : Point;
  polygonPoints : list Point
}.

(** [fabricRef.current] (the objects on the canvas, oldest first; [None]
    while there is no canvas), [measurementLabelsRef.current], the next
    object identity, and the React state. *)
Record Editor : Type := {
  canvas : option (list FabricObject);
  measurementLabels : gmap string (list FabricObject);
  nextOid : nat;
  drawing : Drawing
}.

Definition set_canvas (c : option (list FabricObject)) (st : Editor) : Editor :=
  {| canvas := c; measurementLabels := measurementLabels st;
     nextOid := nextOid st; drawing := drawing st |}.

Definition set_measurementLabels (m : gmap string (list FabricObject))
    (st : Editor) : Editor :=
  {| canvas := canvas st; measurementLabels := m;
     nextOid := nextOid st; drawing := drawing st |}.

Definition set_nextOid (n : nat) (st : Editor) : Editor :=
  {| canvas := canvas st; measurementLabels := measurementLabels st;
     nextOid := n; drawing := drawing st |}.

Definition set_drawing (d : Drawing) (st : Editor) : Editor :=
  {| canvas := canvas st; measurementLabels := measurementLabels st;
     nextOid := nextOid st; drawing := d |}.

(** The handlers run in a state monad over [Editor]. *)
Definition M (A : Type) : Type := Editor -> A * Editor.

Definition ret {A} (a : A) : M A := fun st => (a, st).

Definition bind {A B} (m : M A) (k : A -> M B) : M B :=
  fun st => let '(a, st') := m st in k a st'.

Definition exec {A} (m : M A) (st : Editor) : Editor := snd (m st).

Definition eval {A} (m : M A) (st : Editor) : A := fst (m st).

Definition get : M Editor := fun st => (st, st).

Definition modify (f : Editor -> Editor) : M unit := fun st => (tt, f st).

Local Notation "x <- c ;; k" := (bind c (fun x => k))
  (at level 100, c at next level, right associativity).
Local Notation "c ;;; k" := (bind c (fun _ => k))
  (at level 100, right associativity).

(** [new fabric.X(...)]: a fresh object with the given options; an option
    the source leaves unset is the empty string ([strokeWidth]: 1). *)
Definition new_object (s : Shape) (stroke_ fill_ backgroundColor_ : string)
    (strokeWidth_ : num) (selectable_ evented_ : bool) : M FabricObject :=
  st <- get ;;
  modify (set_nextOid (S (nextOid st))) ;;;
  ret {| oid := nextOid st; shape := s;
         scaleX := lit 1; scaleY := lit 1;
         transformMatrix := translation (lit 0) (lit 0);
         stroke := stroke_; fill := fill_; backgroundColor := backgroundColor_;
         strokeWidth := strokeWidth_;
         selectable := selectable_; evented := evented_;
         id := None; isParcel := false;
         isMeasurement := false; parentId := None |}.

(** [el.isMeasurement = true; el.parentId = parentId] *)
Definition as_measurement (parent : string) (o : FabricObject) : FabricObject :=
  {| oid := oid o; shape := shape o; scaleX := scaleX o; scaleY := scaleY o;
     transformMatrix := transformMatrix o;
     stroke := stroke o; fill := fill o; backgroundColor := backgroundColor o;
     strokeWidth := strokeWidth o;
     selectable := selectable o; evented := evented o;
     id := id o; isParcel := isParcel o;
     isMeasurement := true; parentId := Some parent |}.

(** [(obj as any).id = shapeId] *)
Definition with_id (shapeId : string) (o : FabricObject) : FabricObject :=
  {| oid := oid o; shape := shape o; scaleX := scaleX o; scaleY := scaleY o;
     transformMatrix := transformMatrix o;
     stroke := stroke o; fill := fill o; backgroundColor := backgroundColor o;
     strokeWidth := strokeWidth o;
     selectable := selectable o; evented := evented o;
     id := Some shapeId; isParcel := isParcel o;
     isMeasurement := isMeasurement o; parentId := parentId o |}.

(** A polygon drawn around its centroid: origin at its centre, placed at
    ([left], [top]), possibly a land parcel. *)
Definition placed_polygon (left top : num) (parcel : bool) (o : FabricObject)
    : FabricObject :=
  {| oid := oid o; shape := shape o; scaleX := scaleX o; scaleY := scaleY o;
     transformMatrix := translation left top;
     stroke := stroke o; fill := fill o; backgroundColor := backgroundColor o;
     strokeWidth := strokeWidth o;
     selectable := selectable o; evented := evented o;
     id := id o; isParcel := parcel;
     isMeasurement := isMeasurement o; parentId := parentId o |}.

(** [canvas.add(obj)] *)
Definition canvas_add (o : FabricObject) : M unit :=
  modify (fun st => set_canvas (option_map (fun c => c ++ [o])%list (canvas st)) st).

(** [canvas.remove(obj)]: the object itself, not one that looks like it. *)
Definition canvas_remove (o : FabricObject) : M unit :=
  modify (fun st =>
    set_canvas
      (option_map (List.filter (fun o' => negb (Nat.eqb (oid o') (oid o))))
         (canvas st)) st).

(** [xs.forEach(f)] *)
Fixpoint forEach {A} (xs : list A) (f : A -> M unit) : M unit :=
  match xs with
  | [] => ret tt
  | a :: xs' => f a ;;; forEach xs' f
  end.

(** *** Dimension annotations *)

(** Create dimension line with arrows and text. *)
Definition createDimensionLine (x1 y1 x2 y2 : num) (parent : string)
    (offset : num) (color : string) : M (list FabricObject) :=
  st <- get ;;
  match canvas st with
  | None => ret []
  | Some _ =>
      let distance := calculateDistance (currentScale (drawing st)) x1 y1 x2 y2 in
      let label := formatMeasurement distance in
      (* Calculate angle and midpoint *)
      let angle := Math_atan2 (y2 - y1) (x2 - x1) in
      let midX := (x1 + x2) / lit 2 in
      let midY := (y1 + y2) / lit 2 in
      (* Offset perpendicular to the line *)
      let offsetX := Math_sin angle * offset in
      let offsetY := - Math_cos angle * offset in
      let dimX1 := x1 + offsetX in
      let dimY1 := y1 + offsetY in
      let dimX2 := x2 + offsetX in
      let dimY2 := y2 + offsetY in
      let dimMidX := midX + offsetX in
      let dimMidY := midY + offsetY in
      (* Create dimension line *)
      dimensionLine <- new_object (Line dimX1 dimY1 dimX2 dimY2)
                         color "" "" (lit 1) false false ;;
      let dimensionLine := as_measurement parent dimensionLine in
      (* Create extension lines *)
      ext1 <- new_object (Line x1 y1 dimX1 dimY1)
                color "" "" (lit 1 / lit 2) false false ;;
      let ext1 := as_measurement parent ext1 in
      ext2 <- new_object (Line x2 y2 dimX2 dimY2)
                color "" "" (lit 1 / lit 2) false false ;;
      let ext2 := as_measurement parent ext2 in
      (* Create arrows *)
      let arrowSize := lit 6 in
      let arrow1Points :=
        [ {| px := dimX1; py := dimY1 |};
          {| px := dimX1 + Math_cos (angle - Math_PI / lit 6) * arrowSize;
             py := dimY1 + Math_sin (angle - Math_PI / lit 6) * arrowSize |};
          {| px := dimX1 + Math_cos (angle + Math_PI / lit 6) * arrowSize;
             py := dimY1 + Math_sin (angle + Math_PI / lit 6) * arrowSize |} ] in
      let arrow2Points :=
        [ {| px := dimX2; py := dimY2 |};
          {| px := dimX2 - Math_cos (angle - Math_PI / lit 6) * arrowSize;
             py := dimY2 - Math_sin (angle - Math_PI / lit 6) * arrowSize |};
          {| px := dimX2 - Math_cos (angle + Math_PI / lit 6) * arrowSize;
             py := dimY2 - Math_sin (angle + Math_PI / lit 6) * arrowSize |} ] in
      arrow1 <- new_object (Polygon arrow1Points) "" color "" (lit 1) false false ;;
      let arrow1 := as_measurement parent arrow1 in
      arrow2 <- new_object (Polygon arrow2Points) "" color "" (lit 1) false false ;;
      let arrow2 := as_measurement parent arrow2 in
      (* Create text label with background *)
      let textAngle := (angle * lit 180) / Math_PI in
      let adjustedAngle :=
        if (textAngle >? lit 90) || (textAngle <? lit (-90))
        then textAngle + lit 180 else textAngle in
      text <- new_object (Text label dimMidX (dimMidY - lit 8) adjustedAngle)
                "" "#0f172a" color (lit 1) false false ;;
      let text := as_measurement parent text in
      let elements := [dimensionLine; ext1; ext2; arrow1; arrow2; text] in
      forEach elements canvas_add ;;;
      ret elements
  end.

(** Reading a geometric property off an object; [None] is JavaScript's
    [undefined], for a property the object's kind does not carry. *)
Definition left_of (o : FabricObject) : option num :=
  match shape o with
  | Rect l _ _ _ | Circle l _ _ | Text _ l _ _ => Some l
  | _ => None
  end.

Definition top_of (o : FabricObject) : option num :=
  match shape o with
  | Rect _ t _ _ | Circle _ t _ | Text _ _ t _ => Some t
  | _ => None
  end.

Definition width_of (o : FabricObject) : option num :=
  match shape o with Rect _ _ w _ => Some w | _ => None end.

Definition height_of (o : FabricObject) : option num :=
  match shape o with Rect _ _ _ h => Some h | _ => None end.

Definition radius_of (o : FabricObject) : option num :=
  match shape o with Circle _ _ r => Some r | _ => None end.

Definition points_of (o : FabricObject) : option (list Point) :=
  match shape o with Polygon ps => Some ps | _ => None end.

Definition coords_of (o : FabricObject) : option num * option num * option num * option num :=
  match shape o with
  | Line a b c d => (Some a, Some b, Some c, Some d)
  | _ => (None, None, None, None)
  end.

(** [prop || d] *)
Definition prop_or (prop : option num) (d : num) : num :=
  match prop with
  | Some v => or_else v d
  | None => d
  end.

(** [measurementLabelsRef.current.set(id, measurements)] *)
Definition labels_set (key : string) (measurements : list FabricObject) : M unit :=
  modify (fun st => set_measurementLabels (<[key := measurements]> (measurementLabels st)) st).

(** Add measurements to a rectangle. *)
Definition addRectMeasurements (rect : FabricObject) (key : string) : M unit :=
  let left := prop_or (left_of rect) (lit 0) in
  let top := prop_or (top_of rect) (lit 0) in
  let width := prop_or (width_of rect) (lit 0) * or_else (scaleX rect) (lit 1) in
  let height := prop_or (height_of rect) (lit 0) * or_else (scaleY rect) (lit 1) in
  (* Bottom measurement (width) *)
  bottom <- createDimensionLine left (top + height) (left + width) (top + height)
              key (lit 25) "#fbbf24" ;;
  (* Right measurement (height) *)
  right <- createDimensionLine (left + width) top (left + width) (top + height)
             key (lit 25) "#fbbf24" ;;
  labels_set key (bottom ++ right)%list.

(** The loop of [addPolygonMeasurements]: edge [i] runs from [points[i]] to
    [points[(i + 1) % points.length]]. *)
Fixpoint polygon_edges (points : list Point) (matrix : Matrix) (key : string)
    (indices : list nat) : M (list FabricObject) :=
  match indices with
  | [] => ret []
  | i :: rest =>
      let origin := {| px := lit 0; py := lit 0 |} in
      let p1 := nth i points origin in
      let p2 := nth ((i + 1) mod length points) points origin in
      (* Transform points to canvas coordinates *)
      let transformed1 := transformPoint p1 matrix in
      let transformed2 := transformPoint p2 matrix in
      edge <- createDimensionLine (px transformed1) (py transformed1)
                (px transformed2) (py transformed2) key (lit 25) "#22c55e" ;;
      more <- polygon_edges points matrix key rest ;;
      ret (edge ++ more)%list
  end.

(** Add measurements to a polygon/parcel. *)
Definition addPolygonMeasurements (polygon : FabricObject) (key : string) : M unit :=
  match points_of polygon with
  | None => ret tt
  | Some points =>
      if (length points <? 2)%nat then ret tt
      else
        (* Get the polygon's transformation matrix *)
        let matrix := transformMatrix polygon in
        measurements <- polygon_edges points matrix key (seq 0 (length points)) ;;
        labels_set key measurements
  end.

(** Add measurements to a line. *)
Definition addLineMeasurement (line : FabricObject) (key : string) : M unit :=
  let '(a, b, c, d) := coords_of line in
  let x1 := prop_or a (lit 0) in
  let y1 := prop_or b (lit 0) in
  let x2 := prop_or c (lit 0) in
  let y2 := prop_or d (lit 0) in
  measurements <- createDimensionLine x1 y1 x2 y2 key (lit 20) "#fbbf24" ;;
  labels_set key measurements.

(** The diameter sign as the source file spells it. *)
Definition diameter_sign : string := "√ò ".

(** Add measurements to a circle. *)
Definition addCircleMeasurements (circle : FabricObject) (key : string) : M unit :=
  st <- get ;;
  match canvas st with
  | None => ret tt
  | Some _ =>
      let centerX := prop_or (left_of circle) (lit 0) + prop_or (radius_of circle) (lit 0) in
      let centerY := prop_or (top_of circle) (lit 0) + prop_or (radius_of circle) (lit 0) in
      let radius := prop_or (radius_of circle) (lit 0) * or_else (scaleX circle) (lit 1) in
      let diameter := pixelsToMeters (currentScale (drawing st)) (radius * lit 2) in
      (* Create diameter line *)
      diameterLine <- new_object (Line (centerX - radius) centerY (centerX + radius) centerY)
                        "#fbbf24" "" "" (lit 1) false false ;;
      let diameterLine := as_measurement key diameterLine in
      (* Create diameter label *)
      text <- new_object (Text (diameter_sign +++ formatMeasurement diameter)
                            centerX (centerY - radius - lit 20) (lit 0))
                "" "#0f172a" "#fbbf24" (lit 1) false false ;;
      let text := as_measurement key text in
      let measurements := [diameterLine; text] in
      forEach measurements canvas_add ;;;
      labels_set key measurements
  end.

(** Remove measurements for an object. *)
Definition removeMeasurements (key : string) : M unit :=
  st <- get ;;
  match canvas st with
  | None => ret tt
  | Some _ =>
      match measurementLabels st !! key with
      | Some measurements =>
          forEach measurements canvas_remove ;;;
          modify (fun st => set_measurementLabels (delete key (measurementLabels st)) st)
      | None => ret tt
      end
  end.

(** [!!id] for an identifier: set and not the empty string. *)
Definition truthy_id (i : option string) : option string :=
  match i with
  | Some "" => None
  | other => other
  end.

(** Update measurements when object moves/scales. *)
Definition updateObjectMeasurements (obj : FabricObject) : M unit :=
  match truthy_id (id obj) with
  | None => ret tt
  | Some key =>
      removeMeasurements key ;;;
      if String.eqb (type obj) "rect" then addRectMeasurements obj key
      else if String.eqb (type obj) "polygon" then addPolygonMeasurements obj key
      else if String.eqb (type obj) "line" then addLineMeasurement obj key
      else if String.eqb (type obj) "circle" then addCircleMeasurements obj key
      else ret tt
  end.

(** *** Drawing with the mouse *)

Definition set_isDrawing (b : bool) (d : Drawing) : Drawing :=
  {| activeTool := activeTool d; activeColor := activeColor d;
     strokeWidthSetting := strokeWidthSetting d; currentScale := currentScale d;
     isDrawing := b; drawingStart := drawingStart d; tempShape := tempShape d;
     currentMeasurement := currentMeasurement d; mousePos := mousePos d;
     polygonPoints := polygonPoints d |}.

Definition set_drawingStart (p : option Point) (d : Drawing) : Drawing :=
  {| activeTool := activeTool d; activeColor := activeColor d;
     strokeWidthSetting := strokeWidthSetting d; currentScale := currentScale d;
     isDrawing := isDrawing d; drawingStart := p; tempShape := tempShape d;
     currentMeasurement := currentMeasurement d; mousePos := mousePos d;
     polygonPoints := polygonPoints d |}.

Definition set_tempShape (o : option FabricObject) (d : Drawing) : Drawing :=
  {| activeTool := activeTool d; activeColor := activeColor d;
     strokeWidthSetting := strokeWidthSetting d; currentScale := currentScale d;
     isDrawing := isDrawing d; drawingStart := drawingStart d; tempShape := o;
     currentMeasurement := currentMeasurement d; mousePos := mousePos d;
     polygonPoints := polygonPoints d |}.

Definition set_currentMeasurement (m : string) (d : Drawing) : Drawing :=
  {| activeTool := activeTool d; activeColor := activeColor d;
     strokeWidthSetting := strokeWidthSetting d; currentScale := currentScale d;
     isDrawing := isDrawing d; drawingStart := drawingStart d; tempShape := tempShape d;
     currentMeasurement := m; mousePos := mousePos d;
     polygonPoints := polygonPoints d |}.

Definition set_mousePos (p : Point) (d : Drawing) : Drawing :=
  {| activeTool := activeTool d; activeColor := activeColor d;
     strokeWidthSetting := strokeWidthSetting d; currentScale := currentScale d;
     isDrawing := isDrawing d; drawingStart := drawingStart d; tempShape := tempShape d;
     currentMeasurement := currentMeasurement d; mousePos := p;
     polygonPoints := polygonPoints d |}.

Definition set_polygonPoints (ps : list Point) (d : Drawing) : Drawing :=
  {| activeTool := activeTool d; activeColor := activeColor d;
     strokeWidthSetting := strokeWidthSetting d; currentScale := currentScale d;
     isDrawing := isDrawing d; drawingStart := drawingStart d; tempShape := tempShape d;
     currentMeasurement := currentMeasurement d; mousePos := mousePos d;
     polygonPoints := ps |}.

(** A React state setter. *)
Definition setState (f : Drawing -> Drawing) : M unit :=
  modify (fun st => set_drawing (f (drawing st)) st).

Definition times_sign : string := " √ó ".

(** The handlers below are registered by an effect that returns at once
    when there is no canvas; without one no event reaches them. *)

Definition handleMouseMove (pointer : Point) : M unit :=
  st <- get ;;
  match canvas st with
  | None => ret tt
  | Some _ =>
      let d := drawing st in
      setState (set_mousePos pointer) ;;;
      match isDrawing d, drawingStart d with
      | true, Some start =>
          let distance :=
            calculateDistance (currentScale d) (px start) (py start) (px pointer) (py pointer) in
          (* Update live measurement display based on tool *)
          match activeTool d with
          | tool_line | tool_measure =>
              setState (set_currentMeasurement (formatMeasurement distance))
          | tool_rectangle =>
              let width := pixelsToMeters (currentScale d) (Math_abs (px pointer - px start)) in
              let height := pixelsToMeters (currentScale d) (Math_abs (py pointer - py start)) in
              setState (set_currentMeasurement
                          (formatMeasurement width +++ times_sign +++ formatMeasurement height))
          | tool_circle =>
              setState (set_currentMeasurement
                          (diameter_sign +++ formatMeasurement (distance * lit 2)))
          | _ => ret tt
          end ;;;
          (* Update temporary shape preview *)
          match tempShape d with
          | Some t => canvas_remove t
          | None => ret tt
          end ;;;
          newTempShape <-
            match activeTool d with
            | tool_line =>
                o <- new_object (Line (px start) (py start) (px pointer) (py pointer))
                       (activeColor d) "" "" (strokeWidthSetting d) false false ;;
                ret (Some o)
            | tool_measure =>
                o <- new_object (Line (px start) (py start) (px pointer) (py pointer))
                       "#22c55e" "" "" (lit 2) false false ;;
                ret (Some o)
            | tool_rectangle =>
                let left := Math_min (px start) (px pointer) in
                let top := Math_min (py start) (py pointer) in
                o <- new_object (Rect left top (Math_abs (px pointer - px start))
                                   (Math_abs (py pointer - py start)))
                       (activeColor d) "transparent" "" (strokeWidthSetting d) false false ;;
                ret (Some o)
            | tool_circle =>
                let radiusPx :=
                  Math_sqrt (Math_pow (px pointer - px start) (lit 2)
                             + Math_pow (py pointer - py start) (lit 2)) in
                o <- new_object (Circle (px start - radiusPx) (py start - radiusPx) radiusPx)
                       (activeColor d) "transparent" "" (strokeWidthSetting d) false false ;;
                ret (Some o)
            | _ => ret None
            end ;;
          match newTempShape with
          | Some o => canvas_add o ;;; setState (set_tempShape (Some o))
          | None => ret tt
          end
      | _, _ => ret tt
      end
  end.

Definition handleMouseDown (pointer : Point) : M unit :=
  st <- get ;;
  match canvas st with
  | None => ret tt
  | Some _ =>
      match activeTool (drawing st) with
      | tool_select | tool_pan => ret tt
      | tool_polygon | tool_parcel =>
          (* Polygon/Parcel mode - add points on click *)
          setState (fun d => set_polygonPoints (polygonPoints d ++ [pointer])%list d)
      | _ =>
          setState (set_isDrawing true) ;;;
          setState (set_drawingStart (Some pointer))
      end
  end.

(** [now] is the reading of [Date.now()]. *)
Definition handleMouseUp (pointer : Point) (now : Z) : M unit :=
  st <- get ;;
  match canvas st with
  | None => ret tt
  | Some _ =>
      let d := drawing st in
      match isDrawing d, drawingStart d with
      | true, Some start =>
          (* Remove temp shape *)
          match tempShape d with
          | Some t => canvas_remove t ;;; setState (set_tempShape None)
          | None => ret tt
          end ;;;
          (* Create final shape with unique ID for measurement tracking *)
          let shapeId := "shape-" +++ integer_toString now in
          match activeTool d with
          | tool_line =>
              line <- new_object (Line (px start) (py start) (px pointer) (py pointer))
                        (activeColor d) "" "" (strokeWidthSetting d) true true ;;
              let line := with_id shapeId line in
              canvas_add line ;;;
              addLineMeasurement line shapeId
          | tool_measure =>
              line <- new_object (Line (px start) (py start) (px pointer) (py pointer))
                        "#22c55e" "" "" (lit 2) true true ;;
              let line := with_id shapeId line in
              canvas_add line ;;;
              addLineMeasurement line shapeId
          | tool_rectangle =>
              let left := Math_min (px start) (px pointer) in
              let top := Math_min (py start) (py pointer) in
              let width := Math_abs (px pointer - px start) in
              let height := Math_abs (py pointer - py start) in
              if (width >? lit 5) && (height >? lit 5) then
                rect <- new_object (Rect left top width height)
                          (activeColor d) "transparent" "" (strokeWidthSetting d) true true ;;
                let rect := with_id shapeId rect in
                canvas_add rect ;;;
                addRectMeasurements rect shapeId
              else ret tt
          | tool_circle =>
              let radiusPx :=
                Math_sqrt (Math_pow (px pointer - px start) (lit 2)
                           + Math_pow (py pointer - py start) (lit 2)) in
              if radiusPx >? lit 5 then
                circle <- new_object (Circle (px start - radiusPx) (py start - radiusPx) radiusPx)
                            (activeColor d) "transparent" "" (strokeWidthSetting d) true true ;;
                let circle := with_id shapeId circle in
                canvas_add circle ;;;
                addCircleMeasurements circle shapeId
              else ret tt
          | _ => ret tt
          end ;;;
          setState (set_isDrawing false) ;;;
          setState (set_drawingStart None) ;;;
          setState (set_currentMeasurement "")
      | _, _ => ret tt
      end
  end.

(** [xs.reduce((sum, p) => sum + f(p), 0)] *)
Definition sum_of (f : Point -> num) (ps : list Point) : num :=
  fold_left (fun sum p => sum + f p) ps (lit 0).

(** Handle polygon completion with double-click. *)
Definition handleDoubleClick (now : Z) : M unit :=
  st <- get ;;
  match canvas st with
  | None => ret tt
  | Some _ =>
      let d := drawing st in
      let drawsPolygon :=
        match activeTool d with
        | tool_polygon | tool_parcel => true
        | _ => false
        end in
      let isParcelTool :=
        match activeTool d with tool_parcel => true | _ => false end in
      if drawsPolygon && (3 <=? length (polygonPoints d))%nat then
        let shapeId := "parcel-" +++ integer_toString now in
        (* Calculate centroid to normalize points *)
        let count := lit (Z.of_nat (length (polygonPoints d))) in
        let centroidX := sum_of px (polygonPoints d) / count in
        let centroidY := sum_of py (polygonPoints d) / count in
        let normalizedPoints :=
          map (fun p => {| px := px p - centroidX; py := py p - centroidY |})
            (polygonPoints d) in
        polygon <- new_object (Polygon normalizedPoints)
                     (if isParcelTool then "#22c55e" else activeColor d)
                     (if isParcelTool then "rgba(34, 197, 94, 0.1)" else "transparent")
                     ""
                     (if isParcelTool then lit 3 else strokeWidthSetting d)
                     true true ;;
        let polygon :=
          placed_polygon centroidX centroidY isParcelTool (with_id shapeId polygon) in
        canvas_add polygon ;;;
        (* Add measurements to all sides automatically *)
        addPolygonMeasurements polygon shapeId ;;;
        setState (set_polygonPoints [])
      else ret tt
  end.

(** *** Toolbar and side panel *)

Definition set_activeTool (t : Tool) (d : Drawing) : Drawing :=
  {| activeTool := t; activeColor := activeColor d;
     strokeWidthSetting := strokeWidthSetting d; currentScale := currentScale d;
     isDrawing := isDrawing d; drawingStart := drawingStart d; tempShape := tempShape d;
     currentMeasurement := currentMeasurement d; mousePos := mousePos d;
     polygonPoints := polygonPoints d |}.

(** The three state updates of [handleToolSelect].  With a canvas it also
    sets [canvas.isDrawingMode] and [canvas.selection], two settings of
    [fabric] that none of the handlers reads. *)
Definition handleToolSelect (tool : Tool) : M unit :=
  setState (set_activeTool tool) ;;;
  setState (set_polygonPoints []) ;;;
  setState (set_currentMeasurement "").

(** [Math.max], through [Math.min]: [max (a, b) = - min (- a, - b)], also
    for NaN and for the two zeros. *)
Definition Math_max (a b : num) : num := - Math_min (- a) (- b).

(** The value [handleZoom] gives the state [zoom]; the canvas is then
    zoomed to [newZoom / 100]. *)
Definition handleZoom (zoom delta : num) : num :=
  let newZoom := Math_max (lit 25) (Math_min (lit 400) (zoom + delta)) in
  newZoom.

(** [activeObjects] is the reading of [canvas.getActiveObjects()]. *)
Definition handleDelete (activeObjects : list FabricObject) : M unit :=
  st <- get ;;
  match canvas st with
  | None => ret tt
  | Some _ =>
      forEach activeObjects (fun obj =>
        match truthy_id (id obj) with
        | Some key => removeMeasurements key
        | None => ret tt
        end ;;;
        canvas_remove obj)
  end.

Record Template : Type := {
  template_id : string;
  template_label : string;
  template_color : string;
  template_width : num;
  template_height : num
}.

Definition templates : list Template :=
  [ {| template_id := "house"; template_label := "House"; template_color := "#3b82f6";
       template_width := lit 12; template_height := lit 8 |};
    {| template_id := "garage"; template_label := "Garage"; template_color := "#8b5cf6";
       template_width := lit 6; template_height := lit 5 |};
    {| template_id := "pool"; template_label := "Pool"; template_color := "#06b6d4";
       template_width := lit 10; template_height := lit 5 |};
    {| template_id := "garden"; template_label := "Garden"; template_color := "#22c55e";
       template_width := lit 8; template_height := lit 8 |};
    {| template_id := "terrace"; template_label := "Terrace"; template_color := "#ec4899";
       template_width := lit 6; template_height := lit 4 |} ].

(** [center] is the reading of [canvas.getCenterPoint()], [now] that of
    [Date.now()].  The rectangle's [templateType] and the selection that
    [canvas.setActiveObject] makes are not part of the state. *)
Definition addTemplate (templateId : string) (center : Point) (now : Z) : M unit :=
  st <- get ;;
  match canvas st with
  | None => ret tt
  | Some _ =>
      match List.find (fun t => String.eqb (template_id t) templateId) templates with
      | None => ret tt
      | Some template =>
          let shapeId := templateId +++ "-" +++ integer_toString now in
          let widthPx := metersToPixels (currentScale (drawing st)) (template_width template) in
          let heightPx := metersToPixels (currentScale (drawing st)) (template_height template) in
          rect <- new_object (Rect (px center - widthPx / lit 2)
                                (py center - heightPx / lit 2) widthPx heightPx)
                    (template_color template) (template_color template +++ "20") ""
                    (lit 2) true true ;;
          let rect := with_id shapeId rect in
          canvas_add rect ;;;
          (* Add label *)
          label <- new_object (Text (template_label template) (px center) (py center) (lit 0))
                     "" (template_color template) "" (lit 1) false false ;;
          let label := as_measurement shapeId label in
          canvas_add label ;;;
          addRectMeasurements rect shapeId
      end
  end.

(** An irregular polygon representing a cadastral land parcel. *)
Definition sample_parcel_points : list Point :=
  [ {| px := lit (-125); py := lit (-150) |};
    {| px := lit 100; py := lit (-175) |};
    {| px := lit 150; py := lit (-50) |};
    {| px := lit 125; py := lit 125 |};
    {| px := lit (-50); py := lit 150 |};
    {| px := lit (-150); py := lit 50 |} ].

(** Create sample parcel with automatic measurements. *)
Definition createSampleParcel (center : Point) (now : Z) : M unit :=
  st <- get ;;
  match canvas st with
  | None => ret tt
  | Some _ =>
      let shapeId := "parcel-sample-" +++ integer_toString now in
      polygon <- new_object (Polygon sample_parcel_points)
                   "#22c55e" "rgba(34, 197, 94, 0.15)" "" (lit 3) true true ;;
      let polygon := placed_polygon (px center) (py center) true (with_id shapeId polygon) in
      canvas_add polygon ;;;
      (* Add measurements to all sides automatically *)
      addPolygonMeasurements polygon shapeId ;;;
      (* Add parcel label *)
      label <- new_object (Text "PARCEL A-123" (px center) (py center) (lit 0))
                 "" "#22c55e" "" (lit 1) false false ;;
      let label := as_measurement shapeId label in
      canvas_add label
  end.

(** *** The preview of a polygon in progress *)

(** One turn of the [forEach] over the placed points: the marker of
    [point] and, from the second point on ([prev] is the point before it),
    the segment from the previous point and the label of its length.  The
    objects it returns are those it marks [isPolygonPreview]. *)
Definition preview_point (d : Drawing) (prev : option Point) (point : Point)
    : M (list FabricObject) :=
  let color := match activeTool d with tool_parcel => "#22c55e" | _ => activeColor d end in
  circle <- new_object (Circle (px point - lit 5) (py point - lit 5) (lit 5))
              "" color "" (lit 1) false false ;;
  canvas_add circle ;;;
  (* Draw line to previous point with measurement *)
  match prev with
  | Some prevPoint =>
      line <- new_object (Line (px prevPoint) (py prevPoint) (px point) (py point))
                color "" "" (lit 2) false false ;;
      canvas_add line ;;;
      (* Add measurement label for each segment *)
      let distance :=
        calculateDistance (currentScale d) (px prevPoint) (py prevPoint)
          (px point) (py point) in
      let midX := (px prevPoint + px point) / lit 2 in
      let midY := (py prevPoint + py point) / lit 2 in
      text <- new_object (Text (formatMeasurement distance) midX (midY - lit 15) (lit 0))
                "" "#0f172a" "#fbbf24" (lit 1) false false ;;
      canvas_add text ;;;
      ret [circle; line; text]
  | None => ret [circle]
  end.

Fixpoint preview_points (d : Drawing) (prev : option Point) (points : list Point)
    : M (list FabricObject) :=
  match points with
  | [] => ret []
  | point :: rest =>
      drawn <- preview_point d prev point ;;
      more <- preview_points d (Some point) rest ;;
      ret (drawn ++ more)%list
  end.

(** Draw polygon preview points and segments with live measurements: the
    effect that runs when the placed points, the mouse position or the tool
    change.  The property [isPolygonPreview] of the objects is kept as the
    set of the identities of the objects that have it: the effect is given
    that set and returns it with the objects it marked. *)
Definition polygonPreviewEffect (isPolygonPreview : gset nat) : M (gset nat) :=
  st <- get ;;
  match canvas st with
  | None => ret isPolygonPreview
  | Some c =>
      let d := drawing st in
      (* Remove old preview elements *)
      let oldPreview :=
        List.filter (fun obj => bool_decide (oid obj ∈ isPolygonPreview)) c in
      forEach oldPreview canvas_remove ;;;
      let drawsPolygon :=
        match activeTool d with
        | tool_polygon | tool_parcel => true
        | _ => false
        end in
      if drawsPolygon && (0 <? length (polygonPoints d))%nat then
        (* Draw points *)
        drawn <- preview_points d None (polygonPoints d) ;;
        (* Draw line from last point to current mouse position *)
        match last (polygonPoints d) with
        | Some lastPoint =>
            let color :=
              match activeTool d with tool_parcel => "#22c55e" | _ => activeColor d end in
            line <- new_object (Line (px lastPoint) (py lastPoint)
                                  (px (mousePos d)) (py (mousePos d)))
                      color "" "" (lit 1) false false ;;
            canvas_add line ;;;
            (* Show current segment measurement *)
            let distance :=
              calculateDistance (currentScale d) (px lastPoint) (py lastPoint)
                (px (mousePos d)) (py (mousePos d)) in
            setState (set_currentMeasurement (formatMeasurement distance)) ;;;
            ret (isPolygonPreview ∪ list_to_set (map oid (drawn ++ [line])%list))
        | None => ret (isPolygonPreview ∪ list_to_set (map oid drawn))
        end
      else ret isPolygonPreview
  end.

End Model.

Arguments Scale num : clear implicits.
Arguments Point num : clear implicits.
Arguments Shape num : clear implicits.
Arguments Matrix num : clear implicits.
Arguments FabricObject num : clear implicits.
Arguments Drawing num : clear implicits.
Arguments Editor num : clear implicits.
Arguments Template num : clear implicits.

End EditorPage.

(** ** The project store ([useProjectStore], at the end of
    [src/app/editor/page.tsx]) *)

Module ProjectStore.

Inductive ElementType : Set :=
  | building | boundary | setback | vegetation | road | parking | pool
  | terrace | custom.

Inductive SelectedTool : Set :=
  | select | rectangle | polygon | line | text | measure | pan.

Section Model.

Context {num : Type} `{JSNumber num}.

(** The type of [data: object]. *)
Context {Data : Type}.

Record ElementMeasurements : Type := {
  area : option num;
  perimeter : option num;
  height : option num;
  width : option num
}.

Record ProjectElement : Type := {
  el_id : string;
  el_type : ElementType;
  el_name : string;
  el_data : Data;
  el_measurements : ElementMeasurements
}.

Record PluDocument : Type := {
  doc_name : string;
  doc_content : string;
  doc_analysis : option string
}.

(** Dates are milliseconds since the epoch. *)
Record Project : Type := {
  id : string;
  name : string;
  description : string;
  parcelArea : num;
  maxBuildableArea : num;
  elements : list ProjectElement;
  pluDocument : option PluDocument;
  sitePhotos : list string;
  createdAt : Z;
  updatedAt : Z
}.

Record ProjectState : Type := {
  currentProject : option Project;
  projects : list Project;
  selectedTool : SelectedTool;
  selectedElement : option ProjectElement;
  scale : num;
  gridEnabled : bool;
  snapEnabled : bool
}.

(** [Partial<ProjectElement>]: the keys that are present. *)
Record ElementUpdates : Type := {
  u_el_id : option string;
  u_el_type : option ElementType;
  u_el_name : option string;
  u_el_data : option Data;
  u_el_measurements : option ElementMeasurements
}.

(** [Partial<Project>]: the keys that are present; the optional
    [pluDocument] may be present and [undefined]. *)
Record ProjectUpdates : Type := {
  u_id : option string;
  u_name : option string;
  u_description : option string;
  u_parcelArea : option num;
  u_maxBuildableArea : option num;
  u_elements : option (list ProjectElement);
  u_pluDocument : option (option PluDocument);
  u_sitePhotos : option (list string);
  u_createdAt : option Z;
  u_updatedAt : option Z
}.

(** [{ ...el, ...updates }] *)
Definition spread_element (el : ProjectElement) (updates : ElementUpdates)
    : ProjectElement :=
  {| el_id := default (el_id el) (u_el_id updates);
     el_type := default (el_type el) (u_el_type updates);
     el_name := default (el_name el) (u_el_name updates);
     el_data := default (el_data el) (u_el_data updates);
     el_measurements := default (el_measurements el) (u_el_measurements updates) |}.

(** [{ ...project, ...updates }] *)
Definition spread_project (p : Project) (updates : ProjectUpdates) : Project :=
  {| id := default (id p) (u_id updates);
     name := default (name p) (u_name updates);
     description := default (description p) (u_description updates);
     parcelArea := default (parcelArea p) (u_parcelArea updates);
     maxBuildableArea := default (maxBuildableArea p) (u_maxBuildableArea updates);
     elements := default (elements p) (u_elements updates);
     pluDocument := default (pluDocument p) (u_pluDocument updates);
     sitePhotos := default (sitePhotos p) (u_sitePhotos updates);
     createdAt := default (createdAt p) (u_createdAt updates);
     updatedAt := default (updatedAt p) (u_updatedAt updates) |}.

(** [{ ...project, elements, updatedAt }] *)
Definition with_elements (els : list ProjectElement) (now : Z) (p : Project) : Project :=
  {| id := id p; name := name p; description := description p;
     parcelArea := parcelArea p; maxBuildableArea := maxBuildableArea p;
     elements := els; pluDocument := pluDocument p; sitePhotos := sitePhotos p;
     createdAt := createdAt p; updatedAt := now |}.

(** [{ ...project, updatedAt }] *)
Definition with_updatedAt (now : Z) (p : Project) : Project :=
  {| id := id p; name := name p; description := description p;
     parcelArea := parcelArea p; maxBuildableArea := maxBuildableArea p;
     elements := elements p; pluDocument := pluDocument p; sitePhotos := sitePhotos p;
     createdAt := createdAt p; updatedAt := now |}.

(** [set({ currentProject })]: the other keys of the state stay. *)
Definition with_currentProject (p : option Project) (state : ProjectState)
    : ProjectState :=
  {| currentProject := p; projects := projects state;
     selectedTool := selectedTool state; selectedElement := selectedElement state;
     scale := scale state; gridEnabled := gridEnabled state;
     snapEnabled := snapEnabled state |}.

Definition initialState : ProjectState :=
  {| currentProject := None; projects := [];
     selectedTool := select; selectedElement := None;
     scale := lit 1; gridEnabled := true; snapEnabled := true |}.

(** [uuid] is the reading of [crypto.randomUUID()]; [created] and
    [updated] are those of the two [new Date()]. *)
Definition createProject (name_ description_ : string) (uuid : string)
    (created updated : Z) (state : ProjectState) : ProjectState :=
  let newProject :=
    {| id := uuid; name := name_; description := description_;
       parcelArea := lit 0; maxBuildableArea := lit 0;
       elements := []; pluDocument := None; sitePhotos := [];
       createdAt := created; updatedAt := updated |} in
  {| currentProject := Some newProject;
     projects := (projects state ++ [newProject])%list;
     selectedTool := selectedTool state; selectedElement := selectedElement state;
     scale := scale state; gridEnabled := gridEnabled state;
     snapEnabled := snapEnabled state |}.

Definition setCurrentProject (project : Project) (state : ProjectState)
    : ProjectState :=
  with_currentProject (Some project) state.

(** [now] is the reading of [new Date()], here and below. *)
Definition updateProject (updates : ProjectUpdates) (now : Z) (state : ProjectState)
    : ProjectState :=
  with_currentProject
    (match currentProject state with
     | Some p => Some (with_updatedAt now (spread_project p updates))
     | None => None
     end) state.

Definition addElement (element : ProjectElement) (now : Z) (state : ProjectState)
    : ProjectState :=
  with_currentProject
    (match currentProject state with
     | Some p => Some (with_elements (elements p ++ [element])%list now p)
     | None => None
     end) state.

Definition updateElement (id_ : string) (updates : ElementUpdates) (now : Z)
    (state : ProjectState) : ProjectState :=
  with_currentProject
    (match currentProject state with
     | Some p =>
         Some (with_elements
                 (map (fun el => if String.eqb (el_id el) id_
                                 then spread_element el updates else el)
                    (elements p)) now p)
     | None => None
     end) state.

Definition removeElement (id_ : string) (now : Z) (state : ProjectState)
    : ProjectState :=
  with_currentProject
    (match currentProject state with
     | Some p =>
         Some (with_elements
                 (List.filter (fun el => negb (String.eqb (el_id el) id_)) (elements p))
                 now p)
     | None => None
     end) state.

Definition setSelectedTool (tool : SelectedTool) (state : ProjectState) : ProjectState :=
  {| currentProject := currentProject state; projects := projects state;
     selectedTool := tool; selectedElement := selectedElement state;
     scale := scale state; gridEnabled := gridEnabled state;
     snapEnabled := snapEnabled state |}.

Definition setSelectedElement (element : option ProjectElement) (state : ProjectState)
    : ProjectState :=
  {| currentProject := currentProject state; projects := projects state;
     selectedTool := selectedTool state; selectedElement := element;
     scale := scale state; gridEnabled := gridEnabled state;
     snapEnabled := snapEnabled state |}.

Definition setScale (scale_ : num) (state : ProjectState) : ProjectState :=
  {| currentProject := currentProject state; projects := projects state;
     selectedTool := selectedTool state; selectedElement := selectedElement state;
     scale := scale_; gridEnabled := gridEnabled state;
     snapEnabled := snapEnabled state |}.

Definition toggleGrid (state : ProjectState) : ProjectState :=
  {| currentProject := currentProject state; projects := projects state;
     selectedTool := selectedTool state; selectedElement := selectedElement state;
     scale := scale state; gridEnabled := negb (gridEnabled state);
     snapEnabled := snapEnabled state |}.

Definition toggleSnap (state : ProjectState) : ProjectState :=
  {| currentProject := currentProject state; projects := projects state;
     selectedTool := selectedTool state; selectedElement := selectedElement state;
     scale := scale state; gridEnabled := gridEnabled state;
     snapEnabled := negb (snapEnabled state) |}.

Definition setPluDocument (doc : option PluDocument) (now : Z) (state : ProjectState)
    : ProjectState :=
  with_currentProject
    (match currentProject state with
     | Some p =>
         Some {| id := id p; name := name p; description := description p;
                 parcelArea := parcelArea p; maxBuildableArea := maxBuildableArea p;
                 elements := elements p; pluDocument := doc;
                 sitePhotos := sitePhotos p;
                 createdAt := createdAt p; updatedAt := now |}
     | None => None
     end) state.

Definition addSitePhoto (photo : string) (now : Z) (state : ProjectState)
    : ProjectState :=
  with_currentProject
    (match currentProject state with
     | Some p =>
         Some {| id := id p; name := name p; description := description p;
                 parcelArea := parcelArea p; maxBuildableArea := maxBuildableArea p;
                 elements := elements p; pluDocument := pluDocument p;
                 sitePhotos := (sitePhotos p ++ [photo])%list;
                 createdAt := createdAt p; updatedAt := now |}
     | None => None
     end) state.

End Model.

Arguments ElementMeasurements num : clear implicits.
Arguments ProjectElement num Data : clear implicits.
Arguments Project num Data : clear implicits.
Arguments ProjectState num Data : clear implicits.
Arguments ElementUpdates num Data : clear implicits.
Arguments ProjectUpdates num Data : clear implicits.

End ProjectStore.

(** ** The canvas hook ([src/components/editor/CanvasEditor.tsx]) *)

Module CanvasEditor.

(** Modelled from the spec: the [AlignmentGuide] type of
    [@/lib/drawingTools], which is not among the sources;
    section 3 gives it as [{type: vertical|horizontal, position, relatedId}]. *)
Inductive GuideType : Set := vertical | horizontal.

Section Model.

Context {num : Type} `{JSNumber num}.

Local Open Scope js_scope.

Record AlignmentGuide : Type := {
  guide_type : GuideType;
  position : num;
  relatedId : string
}.

Record Point : Type := { px : num; py : num }.

(** The bounding box handed to [findAlignmentGuides]. *)
Record Bounds : Type := {
  b_left : num;
  b_top : num;
  b_width : num;
  b_height : num;
  b_id : string
}.

(** A [fabric] object as this hook reads it: its identity and the
    properties the handlers use. *)
Record CanvasObject : Type := {
  oid : nat;
  type : string;
  left : num;
  top : num;
  width : num;
  height : num;
  scaleX : num;
  scaleY : num;
  points : option (list Point);
  id : option string;
  selectable : bool
}.

Record GridSettings : Type := {
  snapToGrid_enabled : bool;
  autoAlign : bool;
  size : num;
  alignThreshold : num
}.

Record Measurements : Type := { area : num; perimeter : num }.

(** The hook's state: the objects on the canvas (oldest first) and the
    React state [measurements], [alignmentGuides], [gridSettings]. *)
Record Hook : Type := {
  objects : list CanvasObject;
  measurements : Measurements;
  alignmentGuides : list AlignmentGuide;
  gridSettings : GridSettings
}.

(** The helpers imported from [@/lib/utils] and [@/lib/drawingTools] are
    not among the sources: they are parameters of the model.
    [random_id k] is the k-th reading of [Math.random().toString()]. *)
Variable calculatePolygonArea : list Point -> num.
Variable calculateDistance : Point -> Point -> num.
Variable snapToGrid : num -> num -> num -> num -> Point.
Variable findAlignmentGuides : Bounds -> list Bounds -> num -> list AlignmentGuide.
Variable random_id : nat -> string.

(** The [scale] of the project store. *)
Variable scale : num.

(** Pixels per meter at scale 1:100 *)
Definition BASE_PIXELS_PER_METER : num := lit 10.

(** The perimeter loop of [updateMeasurements]. *)
Fixpoint polygon_perimeter (pts : list Point) (indices : list nat) (perimeter : num) : num :=
  match indices with
  | [] => perimeter
  | i :: rest =>
      let origin := {| px := lit 0; py := lit 0 |} in
      let p1 := nth i pts origin in
      let p2 := nth ((i + 1) mod length pts) pts origin in
      polygon_perimeter pts rest
        (perimeter + calculateDistance p1 p2 / (scale * lit 100))
  end.

Definition updateMeasurements (obj : CanvasObject) : Measurements :=
  if String.eqb (type obj) "rect" then
    let w := or_else (width obj) (lit 0) * or_else (scaleX obj) (lit 1) in
    let h := or_else (height obj) (lit 0) * or_else (scaleY obj) (lit 1) in
    {| area := (w * h) / (scale * scale * lit 10000);      (* Convert to m2 *)
       perimeter := (lit 2 * (w + h)) / (scale * lit 100)  (* Convert to m *) |}
  else if String.eqb (type obj) "polygon" then
    match points obj with
    | Some pts =>
        {| area := calculatePolygonArea pts / (scale * scale * lit 10000);
           perimeter := polygon_perimeter pts (seq 0 (length pts)) (lit 0) |}
    | None => {| area := lit 0; perimeter := lit 0 |}
    end
  else {| area := lit 0; perimeter := lit 0 |}.

(** [target.set({ left, top })] on the object of that identity. *)
Definition set_position (target : nat) (l t : num) (objs : list CanvasObject)
    : list CanvasObject :=
  map (fun o =>
         if Nat.eqb (oid o) target then
           {| oid := oid o; type := type o; left := l; top := t;
              width := width o; height := height o;
              scaleX := scaleX o; scaleY := scaleY o;
              points := points o; id := id o; selectable := selectable o |}
         else o) objs.

Definition id_or (i : option string) (d : string) : string :=
  match i with
  | Some "" | None => d
  | Some s => s
  end.

(** [objects.map(obj => ({ ..., id: obj.id || Math.random().toString() }))] *)
Fixpoint boundsOf (objs : list CanvasObject) (k : nat) : list Bounds :=
  match objs with
  | [] => []
  | obj :: rest =>
      {| b_left := or_else (left obj) (lit 0);
         b_top := or_else (top obj) (lit 0);
         b_width := or_else (width obj) (lit 0) * or_else (scaleX obj) (lit 1);
         b_height := or_else (height obj) (lit 0) * or_else (scaleY obj) (lit 1);
         b_id := id_or (id obj) (random_id k) |} :: boundsOf rest (S k)
  end.

(** Apply snapping to alignment guides: the [forEach] over the guides.
    [l], [t] are the handler's locals [left], [top]; the pair carried along
    is the target's position. *)
Fixpoint applyGuides (threshold l t : num) (guides : list AlignmentGuide)
    (pos : num * num) : num * num :=
  match guides with
  | [] => pos
  | guide :: rest =>
      let pos' :=
        match guide_type guide with
        | vertical =>
            let diff := Math_abs (l - position guide) in
            if diff <? threshold then (position guide, snd pos) else pos
        | horizontal =>
            let diff := Math_abs (t - position guide) in
            if diff <? threshold then (fst pos, position guide) else pos
        end in
      applyGuides threshold l t rest pos'
  end.

Definition set_objects (objs : list CanvasObject) (st : Hook) : Hook :=
  {| objects := objs; measurements := measurements st;
     alignmentGuides := alignmentGuides st; gridSettings := gridSettings st |}.

Definition setAlignmentGuides (g : list AlignmentGuide) (st : Hook) : Hook :=
  {| objects := objects st; measurements := measurements st;
     alignmentGuides := g; gridSettings := gridSettings st |}.


Definition find_object (target : nat) (st : Hook) : option CanvasObject :=
  List.find (fun o => Nat.eqb (oid o) target) (objects st).

(** Smart drawing: object moving with snap and alignment.  [e_target] is
    the identity of [e.target], if any. *)
Definition object_moving (e_target : option nat) (st : Hook) : Hook :=
  match e_target with
  | None => st
  | Some tid =>
      match find_object tid st with
      | None => st
      | Some target =>
          let settings := gridSettings st in
          let left0 := or_else (left target) (lit 0) in
          let top0 := or_else (top target) (lit 0) in
          (* Snap to grid *)
          let '(left1, top1, st1) :=
            if snapToGrid_enabled settings then
              let snapped :=
                snapToGrid left0 top0 (size settings) (scale * BASE_PIXELS_PER_METER) in
              (px snapped, py snapped,
               set_objects (set_position tid (px snapped) (py snapped) (objects st)) st)
            else (left0, top0, st) in
          (* Find alignment guides with other objects *)
          if autoAlign settings then
            let others :=
              List.filter
                (fun obj => negb (Nat.eqb (oid obj) tid) && selectable obj
                            && negb (String.eqb (type obj) "line"))
                (objects st1) in
            let currentBounds :=
              {| b_left := left1; b_top := top1;
                 b_width := or_else (width target) (lit 0) * or_else (scaleX target) (lit 1);
                 b_height := or_else (height target) (lit 0) * or_else (scaleY target) (lit 1);
                 b_id := id_or (id target) "current" |} in
            let otherBounds := boundsOf others 0 in
            let guides :=
              findAlignmentGuides currentBounds otherBounds (alignThreshold settings) in
            let st2 := setAlignmentGuides guides st1 in
            (* Apply snapping to alignment guides *)
            let current :=
              match find_object tid st2 with
              | Some o => (left o, top o)
              | None => (left1, top1)
              end in
            let '(l, t) := applyGuides (alignThreshold settings) left1 top1 guides current in
            set_objects (set_position tid l t (objects st2)) st2
          else st1
      end
  end.




(** *** Adding shapes *)

(** What the hook stores as [data] of a project element: the [fabric]
    object (its identity) and, for a template, the template's id. *)
Record ElementData : Type := {
  fabricId : nat;
  template : option string
}.

(** The [ShapeTemplate] type of [@/lib/drawingTools] is not among the
    sources: it is a parameter, with the fields that [addFromTemplate]
    reads for the geometry and for the project element. *)
Variable ShapeTemplate : Type.
Variable template_id : ShapeTemplate -> string.
Variable template_name : ShapeTemplate -> string.
Variable template_category : ShapeTemplate -> ProjectStore.ElementType.
Variable defaultWidth : ShapeTemplate -> num.
Variable defaultHeight : ShapeTemplate -> num.

(** Add shape from template (smart drawing tool).  [canvasWidth] and
    [canvasHeight] are the component's [width] and [height]; [fresh] is
    the identity of the new rectangle, [uuid] the reading of
    [crypto.randomUUID()] and [now] that of [new Date()] in the store.
    The result is the hook's state and the store's; the dimension labels,
    which it refreshes with [calculateDimensions], are not part of the
    state, and the canvas exists. *)
Definition addFromTemplate (canvasWidth canvasHeight : num) (tpl : ShapeTemplate)
    (fresh : nat) (uuid : string) (now : Z)
    (st : Hook) (state : ProjectStore.ProjectState num ElementData)
    : Hook * ProjectStore.ProjectState num ElementData :=
  let pixelsPerMeter := scale * BASE_PIXELS_PER_METER in
  let widthPx := defaultWidth tpl * pixelsPerMeter in
  let heightPx := defaultHeight tpl * pixelsPerMeter in
  (* Center position with snap to grid *)
  let left0 := (canvasWidth - widthPx) / lit 2 in
  let top0 := (canvasHeight - heightPx) / lit 2 in
  let '(left1, top1) :=
    if snapToGrid_enabled (gridSettings st) then
      let snapped := snapToGrid left0 top0 (size (gridSettings st)) pixelsPerMeter in
      (px snapped, py snapped)
    else (left0, top0) in
  let rect :=
    {| oid := fresh; type := "rect"; left := left1; top := top1;
       width := widthPx; height := heightPx;
       scaleX := lit 1; scaleY := lit 1;
       points := None; id := Some uuid; selectable := true |} in
  (set_objects (objects st ++ [rect])%list st,
   ProjectStore.addElement
     {| ProjectStore.el_id := uuid;
        ProjectStore.el_type := template_category tpl;
        ProjectStore.el_name := template_name tpl;
        ProjectStore.el_data := {| fabricId := fresh; template := Some (template_id tpl) |};
        ProjectStore.el_measurements :=
          {| ProjectStore.width := Some (defaultWidth tpl);
             ProjectStore.height := Some (defaultHeight tpl);
             ProjectStore.area := Some (defaultWidth tpl * defaultHeight tpl);
             ProjectStore.perimeter := None |} |}
     now state).

(** [fresh] is the identity of the new rectangle. *)
Definition addRectangle (fresh : nat) (uuid : string) (now : Z)
    (st : Hook) (state : ProjectStore.ProjectState num ElementData)
    : Hook * ProjectStore.ProjectState num ElementData :=
  let rect :=
    {| oid := fresh; type := "rect"; left := lit 100; top := lit 100;
       width := lit 200; height := lit 150;
       scaleX := lit 1; scaleY := lit 1;
       points := None; id := None; selectable := true |} in
  (set_objects (objects st ++ [rect])%list st,
   ProjectStore.addElement
     {| ProjectStore.el_id := uuid;
        ProjectStore.el_type := ProjectStore.building;
        ProjectStore.el_name := "Building";
        ProjectStore.el_data := {| fabricId := fresh; template := None |};
        ProjectStore.el_measurements :=
          {| ProjectStore.width := None; ProjectStore.height := None;
             ProjectStore.area := None; ProjectStore.perimeter := None |} |}
     now state).

End Model.

Arguments AlignmentGuide num : clear implicits.
Arguments Point num : clear implicits.
Arguments Bounds num : clear implicits.
Arguments CanvasObject num : clear implicits.
Arguments GridSettings num : clear implicits.
Arguments Measurements num : clear implicits.
Arguments Hook num : clear implicits.

End CanvasEditor.

(** ** A rational stand-in for [Math]

    Used to run the exact-arithmetic model on concrete inputs: rational
    approximations of the [Math] functions that are exact on the axes
    ([sin 0], [cos 0], [atan2 0 x] for [x >= 0]) and on squares.  No theorem
    below depends on it; they are stated for every [JSMath]. *)

Definition Q_sqrt (q : Q) : Q :=
  if Qle_bool q 0 then 0%Q
  else Qred (inject_Z (Z.sqrt (Qfloor (q * inject_Z (10 ^ 24)))) / inject_Z (10 ^ 12)).

Definition Q_pow (b e : Q) : Q :=
  match Qden e with
  | xH => Qred (Qpower b (Qnum e))
  | _ => 0%Q
  end.

Definition Q_PI : Q := 3141592653589793 # 1000000000000000.

Definition Q_sin (a : Q) : Q :=
  Qred (a - a ^ 3 / 6 + a ^ 5 / 120 - a ^ 7 / 5040 + a ^ 9 / 362880).

Definition Q_cos (a : Q) : Q :=
  Qred (1 - a ^ 2 / 2 + a ^ 4 / 24 - a ^ 6 / 720 + a ^ 8 / 40320).

Definition Q_atan (z : Q) : Q :=
  Qred (z - z ^ 3 / 3 + z ^ 5 / 5 - z ^ 7 / 7 + z ^ 9 / 9).

Definition Q_atan2 (b a : Q) : Q :=
  if Qeq_bool b 0 then (if Qle_bool 0 a then 0%Q else Q_PI)
  else if Qle_bool (Qabs b) (Qabs a) then
    (if Qle_bool 0 a then Q_atan (b / a)
     else if Qle_bool 0 b then Qred (Q_atan (b / a) + Q_PI)
     else Qred (Q_atan (b / a) - Q_PI))
  else
    (if Qle_bool 0 b then Qred (Q_PI / 2 - Q_atan (a / b))
     else Qred (- (Q_PI / 2) - Q_atan (a / b))).

Definition Q_math : JSMath Q := {|
  Math_PI := Q_PI;
  Math_sqrt := Q_sqrt;
  Math_pow := Q_pow;
  Math_atan2 := Q_atan2;
  Math_sin := Q_sin;
  Math_cos := Q_cos
|}.

(** ** Checking a property on a range of whole numbers *)


(** ** The forms of a formatted measurement *)






(** ** The words of the specification *)

#[local] Set Warnings "-inexact-float".




Section DimensionVocabulary.

Import EditorPage.

Context {num : Type} `{JSNumber num} `{JSMath num}.

Local Open Scope js_scope.

(** The angle of the edge from (x1, y1) to (x2, y2). *)
Definition edgeAngle (x1 y1 x2 y2 : num) : num :=
  Math_atan2 (y2 - y1) (x2 - x1).

(** The perpendicular offset [(sin a, - cos a) * offset]. *)
Definition offsetVector (angle offset : num) : num * num :=
  (Math_sin angle * offset, - Math_cos angle * offset).

(** The display angle of a label whose edge has the raw angle [textAngle]
    (in degrees). *)
Definition adjustAngle (textAngle : num) : num :=
  if (textAngle >? lit 90) || (textAngle <? lit (-90))
  then textAngle + lit 180 else textAngle.

(** An arrow head: the tip and two points at 30 degrees on either side,
    [arrowSize = 6] away, towards ([js_add]) or against ([js_sub]) the edge. *)
Definition arrowHead (tipX tipY angle : num) (op : num -> num -> num) : list (Point num) :=
  [ {| px := tipX; py := tipY |};
    {| px := op tipX (Math_cos (angle - Math_PI / lit 6) * lit 6);
       py := op tipY (Math_sin (angle - Math_PI / lit 6) * lit 6) |};
    {| px := op tipX (Math_cos (angle + Math_PI / lit 6) * lit 6);
       py := op tipY (Math_sin (angle + Math_PI / lit 6) * lit 6) |} ].

(** The geometry of the six primitives of one dimension annotation:
    dimension line, two extension lines, two arrow heads, label. *)
Definition dimension_shapes (scale : Scale num) (x1 y1 x2 y2 offset : num) : list (Shape num) :=
  let angle := edgeAngle x1 y1 x2 y2 in
  let offsetX := fst (offsetVector angle offset) in
  let offsetY := snd (offsetVector angle offset) in
  [ Line (x1 + offsetX) (y1 + offsetY) (x2 + offsetX) (y2 + offsetY);
    Line x1 y1 (x1 + offsetX) (y1 + offsetY);
    Line x2 y2 (x2 + offsetX) (y2 + offsetY);
    Polygon (arrowHead (x1 + offsetX) (y1 + offsetY) angle js_add);
    Polygon (arrowHead (x2 + offsetX) (y2 + offsetY) angle js_sub);
    Text (formatMeasurement (calculateDistance scale x1 y1 x2 y2))
      ((x1 + x2) / lit 2 + offsetX) ((y1 + y2) / lit 2 + offsetY - lit 8)
      (adjustAngle ((angle * lit 180) / Math_PI)) ].

(** An annotation primitive owned by the shape [parent]. *)
Definition annotation_of (parent : string) (o : FabricObject num) : Prop :=
  isMeasurement o = true /\ parentId o = Some parent /\
  selectable o = false /\ evented o = false /\ id o = None.

(** [st'] is [st] after the new objects [els] were created and added to
    the canvas, and nothing else happened. *)
Definition appended (st st' : Editor num) (els : list (FabricObject num)) : Prop :=
  canvas st' = option_map (fun c => c ++ els)%list (canvas st) /\
  measurementLabels st' = measurementLabels st /\
  drawing st' = drawing st /\
  nextOid st' = (nextOid st + length els)%nat /\
  map oid els = seq (nextOid st) (length els).

End DimensionVocabulary.

Section AnnotationVocabulary.

Import EditorPage.

Context {num : Type} `{JSNumber num} `{JSMath num}.

Local Open Scope js_scope.

(** [st'] is [st] after the new objects [els] were created, added to the
    canvas and stored as the annotation set of [key]. *)
Definition measured (st st' : Editor num) (key : string)
    (els : list (FabricObject num)) : Prop :=
  canvas st' = option_map (fun c => c ++ els)%list (canvas st) /\
  measurementLabels st' = <[key := els]> (measurementLabels st) /\
  drawing st' = drawing st /\
  nextOid st' = (nextOid st + length els)%nat /\
  map oid els = seq (nextOid st) (length els).

(** The geometry of the annotation of edge [i] of a polygon. *)
Definition polygon_edge_shapes (scale : Scale num) (points : list (Point num))
    (matrix : Matrix num) (i : nat) : list (Shape num) :=
  let origin := {| px := lit 0; py := lit 0 |} in
  let p1 := transformPoint (nth i points origin) matrix in
  let p2 := transformPoint (nth ((i + 1) mod length points) points origin) matrix in
  dimension_shapes scale (px p1) (py p1) (px p2) (py p2) (lit 25).

(** The geometry of the two primitives that mark a circle's diameter. *)
Definition circle_shapes (scale : Scale num) (circle : FabricObject num) : list (Shape num) :=
  let centerX := prop_or (left_of circle) (lit 0) + prop_or (radius_of circle) (lit 0) in
  let centerY := prop_or (top_of circle) (lit 0) + prop_or (radius_of circle) (lit 0) in
  let radius := prop_or (radius_of circle) (lit 0) * or_else (scaleX circle) (lit 1) in
  [ Line (centerX - radius) centerY (centerX + radius) centerY;
    Text (diameter_sign +++ formatMeasurement (pixelsToMeters scale (radius * lit 2)))
      centerX (centerY - radius - lit 20) (lit 0) ].

(** The geometry of the annotation set of a rectangle: its bottom and its
    right edge. *)
Definition rect_shapes (scale : Scale num) (rect : FabricObject num) : list (Shape num) :=
  let left := prop_or (left_of rect) (lit 0) in
  let top := prop_or (top_of rect) (lit 0) in
  let width := prop_or (width_of rect) (lit 0) * or_else (scaleX rect) (lit 1) in
  let height := prop_or (height_of rect) (lit 0) * or_else (scaleY rect) (lit 1) in
  (dimension_shapes scale left (top + height) (left + width) (top + height) (lit 25)
   ++ dimension_shapes scale (left + width) top (left + width) (top + height) (lit 25))%list.

Definition line_shapes (scale : Scale num) (line : FabricObject num) : list (Shape num) :=
  let '(a, b, c, d) := coords_of line in
  dimension_shapes scale (prop_or a (lit 0)) (prop_or b (lit 0))
    (prop_or c (lit 0)) (prop_or d (lit 0)) (lit 20).

(** The geometry of the annotation set that the current geometry of [obj]
    calls for; [None] when there is none to store. *)
Definition annotation_shapes (scale : Scale num) (obj : FabricObject num) : option (list (Shape num)) :=
  match shape obj with
  | Rect _ _ _ _ => Some (rect_shapes scale obj)
  | Polygon points =>
      if (length points <? 2)%nat then None
      else Some (flat_map (polygon_edge_shapes scale points (transformMatrix obj))
                   (seq 0 (length points)))
  | Line _ _ _ _ => Some (line_shapes scale obj)
  | Circle _ _ _ => Some (circle_shapes scale obj)
  | Text _ _ _ _ => None
  end.


(** The canvas without the objects [gone]. *)
Definition without (gone : list (FabricObject num)) (c : list (FabricObject num))
    : list (FabricObject num) :=
  List.filter (fun o => negb (existsb (fun g => Nat.eqb (oid o) (oid g)) gone)) c.

End AnnotationVocabulary.

Section CanvasVocabulary.

Import CanvasEditor.

Context {num : Type} `{JSNumber num}.

Variable snapToGrid : num -> num -> num -> num -> Point num.
Variable scale : num.

Local Open Scope js_scope.








End CanvasVocabulary.

(** Modelled from the spec: [snapToGrid] of [@/lib/drawingTools], which is
    not among the sources; section 4.2 has each coordinate rounded to the
    nearest multiple of the cell size.  It serves as an example input. *)
Definition snapToGrid_model (left top size pixelsPerMeter : Q) : CanvasEditor.Point Q :=
  let cell := (size * pixelsPerMeter)%Q in
  let snap (v : Q) := (inject_Z (Qfloor (v / cell + (1 # 2))) * cell)%Q in
  {| CanvasEditor.px := Qred (snap left); CanvasEditor.py := Qred (snap top) |}.

(** Modelled from the spec: [findAlignmentGuides] of [@/lib/drawingTools],
    which is not among the sources; of section 4.4 it keeps the comparison
    of left edges and of top edges within the tolerance.  It serves as an
    example input. *)
Definition findAlignmentGuides_model (moving : CanvasEditor.Bounds Q)
    (others : list (CanvasEditor.Bounds Q)) (tolerance : Q)
    : list (CanvasEditor.AlignmentGuide Q) :=
  flat_map
    (fun other =>
       ((if Qltb (Qabs (CanvasEditor.b_left moving - CanvasEditor.b_left other)) tolerance
         then [ {| CanvasEditor.guide_type := CanvasEditor.vertical;
                   CanvasEditor.position := CanvasEditor.b_left other;
                   CanvasEditor.relatedId := CanvasEditor.b_id other |} ]
         else [])
        ++
        (if Qltb (Qabs (CanvasEditor.b_top moving - CanvasEditor.b_top other)) tolerance
         then [ {| CanvasEditor.guide_type := CanvasEditor.horizontal;
                   CanvasEditor.position := CanvasEditor.b_top other;
                   CanvasEditor.relatedId := CanvasEditor.b_id other |} ]
         else []))%list)
    others.

(** A rectangle on the canvas of the hook. *)
Definition canvas_rect (n : nat) (l t w h : Q) : CanvasEditor.CanvasObject Q :=
  {| CanvasEditor.oid := n; CanvasEditor.type := "rect";
     CanvasEditor.left := l; CanvasEditor.top := t;
     CanvasEditor.width := w; CanvasEditor.height := h;
     CanvasEditor.scaleX := 1%Q; CanvasEditor.scaleY := 1%Q;
     CanvasEditor.points := None; CanvasEditor.id := None;
     CanvasEditor.selectable := true |}.

(** The same rectangle in binary64. *)
Definition canvas_rect_float (n : nat) (l t w h : float)
    : CanvasEditor.CanvasObject float :=
  {| CanvasEditor.oid := n; CanvasEditor.type := "rect";
     CanvasEditor.left := l; CanvasEditor.top := t;
     CanvasEditor.width := w; CanvasEditor.height := h;
     CanvasEditor.scaleX := 1%float; CanvasEditor.scaleY := 1%float;
     CanvasEditor.points := None; CanvasEditor.id := None;
     CanvasEditor.selectable := true |}.

(** The hook with two rectangles, snapping to a grid of one meter and
    aligning within 8 pixels; the second rectangle is being moved. *)
Definition two_rectangles : CanvasEditor.Hook Q :=
  {| CanvasEditor.objects :=
       [ canvas_rect 0 100%Q 100%Q 200%Q 150%Q;
         canvas_rect 1 (207 # 2) 338%Q 60%Q 40%Q ];
     CanvasEditor.measurements :=
       {| CanvasEditor.area := 0%Q; CanvasEditor.perimeter := 0%Q |};
     CanvasEditor.alignmentGuides := [];
     CanvasEditor.gridSettings :=
       {| CanvasEditor.snapToGrid_enabled := true; CanvasEditor.autoAlign := true;
          CanvasEditor.size := 1%Q; CanvasEditor.alignThreshold := 8%Q |} |}.

(** The editor as it starts: an empty canvas at scale 1:100. *)
Definition initial_editor : EditorPage.Editor Q :=
  {| EditorPage.canvas := Some [];
     EditorPage.measurementLabels := ∅;
     EditorPage.nextOid := 0;
     EditorPage.drawing :=
       {| EditorPage.activeTool := EditorPage.tool_select;
          EditorPage.activeColor := "#3b82f6";
          EditorPage.strokeWidthSetting := 2%Q;
          EditorPage.currentScale :=
            {| EditorPage.label := "1:100"; EditorPage.value := 1%Q;
               EditorPage.pixelsPerMeter := 10%Q |};
          EditorPage.isDrawing := false;
          EditorPage.drawingStart := None;
          EditorPage.tempShape := None;
          EditorPage.currentMeasurement := "";
          EditorPage.mousePos := {| EditorPage.px := 0%Q; EditorPage.py := 0%Q |};
          EditorPage.polygonPoints := [] |} |}.

(** A rectangle of 200 by 150 pixels at (100, 100), drawn as shape-1. *)
Definition sample_rect : EditorPage.FabricObject Q :=
  {| EditorPage.oid := 0;
     EditorPage.shape := EditorPage.Rect 100%Q 100%Q 200%Q 150%Q;
     EditorPage.scaleX := 1%Q; EditorPage.scaleY := 1%Q;
     EditorPage.transformMatrix := EditorPage.translation 0%Q 0%Q;
     EditorPage.stroke := "#3b82f6"; EditorPage.fill := "transparent";
     EditorPage.backgroundColor := ""; EditorPage.strokeWidth := 2%Q;
     EditorPage.selectable := true; EditorPage.evented := true;
     EditorPage.id := Some "shape-1"; EditorPage.isParcel := false;
     EditorPage.isMeasurement := false; EditorPage.parentId := None |}.

(** The editor while a rectangle is being drawn from (100, 100). *)
Definition drawing_rectangle : EditorPage.Editor Q :=
  EditorPage.set_drawing
    {| EditorPage.activeTool := EditorPage.tool_rectangle;
       EditorPage.activeColor := "#3b82f6";
       EditorPage.strokeWidthSetting := 2%Q;
       EditorPage.currentScale :=
         {| EditorPage.label := "1:100"; EditorPage.value := 1%Q;
            EditorPage.pixelsPerMeter := 10%Q |};
       EditorPage.isDrawing := true;
       EditorPage.drawingStart :=
         Some {| EditorPage.px := 100%Q; EditorPage.py := 100%Q |};
       EditorPage.tempShape := None;
       EditorPage.currentMeasurement := "";
       EditorPage.mousePos := {| EditorPage.px := 0%Q; EditorPage.py := 0%Q |};
       EditorPage.polygonPoints := [] |}
    initial_editor.

(** The editor after [points] were clicked with the polygon tool. *)
Definition placing_polygon (points : list (EditorPage.Point Q)) : EditorPage.Editor Q :=
  EditorPage.set_drawing
    {| EditorPage.activeTool := EditorPage.tool_polygon;
       EditorPage.activeColor := "#3b82f6";
       EditorPage.strokeWidthSetting := 2%Q;
       EditorPage.currentScale :=
         {| EditorPage.label := "1:100"; EditorPage.value := 1%Q;
            EditorPage.pixelsPerMeter := 10%Q |};
       EditorPage.isDrawing := false;
       EditorPage.drawingStart := None;
       EditorPage.tempShape := None;
       EditorPage.currentMeasurement := "";
       EditorPage.mousePos := {| EditorPage.px := 0%Q; EditorPage.py := 0%Q |};
       EditorPage.polygonPoints := points |}
    initial_editor.

(** A polygon object with the two vertices (0, 0) and (10, 0). *)
Definition two_point_polygon : EditorPage.FabricObject Q :=
  {| EditorPage.oid := 0;
     EditorPage.shape :=
       EditorPage.Polygon
         [ {| EditorPage.px := 0%Q; EditorPage.py := 0%Q |};
           {| EditorPage.px := 10%Q; EditorPage.py := 0%Q |} ];
     EditorPage.scaleX := 1%Q; EditorPage.scaleY := 1%Q;
     EditorPage.transformMatrix := EditorPage.translation 0%Q 0%Q;
     EditorPage.stroke := "#3b82f6"; EditorPage.fill := "transparent";
     EditorPage.backgroundColor := ""; EditorPage.strokeWidth := 2%Q;
     EditorPage.selectable := true; EditorPage.evented := true;
     EditorPage.id := Some "parcel-1"; EditorPage.isParcel := false;
     EditorPage.isMeasurement := false; EditorPage.parentId := None |}.

(** The label's position against the middle of the dimension line, in a
    list of primitives as [createDimensionLine] returns it. *)
Definition label_offset_from_midpoint (els : list (EditorPage.FabricObject Q))
    : option (Q * Q) :=
  match map EditorPage.shape els with
  | [EditorPage.Line a b c d; _; _; _; _; EditorPage.Text _ l t _] =>
      Some (Qred (l - (a + c) / 2), Qred (t - (b + d) / 2))
  | _ => None
  end.

(** The text of the label in a list of primitives as
    [createDimensionLine] returns it. *)
Definition label_text (els : list (EditorPage.FabricObject Q))
    : option string :=
  match map EditorPage.shape els with
  | [_; _; _; _; _; EditorPage.Text content _ _ _] => Some content
  | _ => None
  end.

(** The editor before its canvas exists. *)
Definition no_canvas_editor : EditorPage.Editor Q :=
  EditorPage.set_canvas None initial_editor.

(** An editor state with another tool chosen. *)
Definition with_tool (tool : EditorPage.Tool) (st : EditorPage.Editor Q)
    : EditorPage.Editor Q :=
  EditorPage.set_drawing (EditorPage.set_activeTool tool (EditorPage.drawing st)) st.

(** The editor while a line is being drawn from (100, 100). *)
Definition drawing_line : EditorPage.Editor Q :=
  with_tool EditorPage.tool_line drawing_rectangle.

(** A circle of radius 50 around (100, 100), drawn as shape-2. *)
Definition sample_circle : EditorPage.FabricObject Q :=
  {| EditorPage.oid := 0;
     EditorPage.shape := EditorPage.Circle (100 - 50)%Q (100 - 50)%Q 50%Q;
     EditorPage.scaleX := 1%Q; EditorPage.scaleY := 1%Q;
     EditorPage.transformMatrix := EditorPage.translation 0%Q 0%Q;
     EditorPage.stroke := "#3b82f6"; EditorPage.fill := "transparent";
     EditorPage.backgroundColor := ""; EditorPage.strokeWidth := 2%Q;
     EditorPage.selectable := true; EditorPage.evented := true;
     EditorPage.id := Some "shape-2"; EditorPage.isParcel := false;
     EditorPage.isMeasurement := false; EditorPage.parentId := None |}.

(** A project element without measurements. *)
Definition sample_element {Data : Type} (i : string) (data : Data)
    : ProjectStore.ProjectElement Q Data :=
  {| ProjectStore.el_id := i; ProjectStore.el_type := ProjectStore.building;
     ProjectStore.el_name := "Building"; ProjectStore.el_data := data;
     ProjectStore.el_measurements :=
       {| ProjectStore.area := None; ProjectStore.perimeter := None;
          ProjectStore.height := None; ProjectStore.width := None |} |}.

(** The store after a project was created. *)
Definition project_store {Data : Type} : ProjectStore.ProjectState Q Data :=
  ProjectStore.createProject "Plan" "" "p1" 1700000000000 1700000000000
    ProjectStore.initialState.

(** The store after a project was created and the element e1 added. *)
Definition sample_store : ProjectStore.ProjectState Q unit :=
  ProjectStore.addElement (sample_element "e1" tt) 1700000000001 project_store.

(** An update of a project element that changes its name alone. *)
Definition rename_element (new_name : string) : ProjectStore.ElementUpdates Q unit :=
  {| ProjectStore.u_el_id := None; ProjectStore.u_el_type := None;
     ProjectStore.u_el_name := Some new_name; ProjectStore.u_el_data := None;
     ProjectStore.u_el_measurements := None |}.

(** The label of an annotation of shape-1. *)
Definition sample_label : EditorPage.FabricObject Q :=
  {| EditorPage.oid := 1;
     EditorPage.shape := EditorPage.Text "20.00 m" 200%Q 267%Q 0%Q;
     EditorPage.scaleX := 1%Q; EditorPage.scaleY := 1%Q;
     EditorPage.transformMatrix := EditorPage.translation 0%Q 0%Q;
     EditorPage.stroke := ""; EditorPage.fill := "#0f172a";
     EditorPage.backgroundColor := "#fbbf24"; EditorPage.strokeWidth := 1%Q;
     EditorPage.selectable := false; EditorPage.evented := false;
     EditorPage.id := None; EditorPage.isParcel := false;
     EditorPage.isMeasurement := true; EditorPage.parentId := Some "shape-1" |}.

(** The editor with the rectangle shape-1 and that label, stored as the
    annotation set of shape-1. *)
Definition annotated_editor : EditorPage.Editor Q :=
  EditorPage.set_nextOid 2
    (EditorPage.set_measurementLabels {[ "shape-1" := [sample_label] ]}
       (EditorPage.set_canvas (Some [sample_rect; sample_label]) initial_editor)).

(** An update of a project that changes no key. *)
Definition no_project_updates : ProjectStore.ProjectUpdates Q unit :=
  {| ProjectStore.u_id := None; ProjectStore.u_name := None;
     ProjectStore.u_description := None; ProjectStore.u_parcelArea := None;
     ProjectStore.u_maxBuildableArea := None; ProjectStore.u_elements := None;
     ProjectStore.u_pluDocument := None; ProjectStore.u_sitePhotos := None;
     ProjectStore.u_createdAt := None; ProjectStore.u_updatedAt := None |}.

(** ** Words for the editor's states *)

Section EditorVocabulary.

Import EditorPage.

Context {num : Type} `{JSNumber num} `{JSMath num}.

Local Open Scope js_scope.

(** Every object on the canvas was created before now. *)
Definition canvas_allocated (st : Editor num) : Prop :=
  forall c o, canvas st = Some c -> In o c -> (oid o < nextOid st)%nat.

(** The preview that [handleMouseMove] draws while the pointer is at
    [pointer] in a drag that started at [start]; the tools that draw none
    have [None]. *)
Definition preview_shape (tool : Tool) (start pointer : Point num) : option (Shape num) :=
  match tool with
  | tool_line | tool_measure =>
      Some (Line (px start) (py start) (px pointer) (py pointer))
  | tool_rectangle =>
      Some (Rect (Math_min (px start) (px pointer)) (Math_min (py start) (py pointer))
              (Math_abs (px pointer - px start)) (Math_abs (py pointer - py start)))
  | tool_circle =>
      let radiusPx :=
        Math_sqrt (Math_pow (px pointer - px start) (lit 2)
                   + Math_pow (py pointer - py start) (lit 2)) in
      Some (Circle (px start - radiusPx) (py start - radiusPx) radiusPx)
  | _ => None
  end.

(** A drag in progress: the canvas holds the objects [c] from before the
    drag and, after them, the preview if there is one; the preview was
    created at or after [bound]. *)
Definition dragging (c : list (FabricObject num)) (bound : nat) (tool : Tool)
    (start : Point num) (st : Editor num) : Prop :=
  canvas st = Some (c ++ option_list (tempShape (drawing st)))%list /\
  isDrawing (drawing st) = true /\
  drawingStart (drawing st) = Some start /\
  activeTool (drawing st) = tool /\
  (bound <= nextOid st)%nat /\
  (forall t, tempShape (drawing st) = Some t -> (bound <= oid t)%nat).

(** The tools for which the mouse handlers have no branch. *)
Definition idle_tool (tool : Tool) : bool :=
  match tool with
  | tool_select | tool_pan | tool_text => true
  | _ => false
  end.

(** The tools with which a click places a vertex. *)
Definition places_vertices (tool : Tool) : bool :=
  match tool with
  | tool_polygon | tool_parcel => true
  | _ => false
  end.

(** The stored annotation set of an object, if it has an id and a set. *)
Definition stored_set (labels : gmap string (list (FabricObject num)))
    (obj : FabricObject num) : list (FabricObject num) :=
  match truthy_id (id obj) with
  | Some key => default [] (labels !! key)
  | None => []
  end.

End EditorVocabulary.

(** Running the editor's monadic code on a state. *)
Ltac run_editor :=
  cbv delta [EditorPage.eval EditorPage.exec EditorPage.bind EditorPage.get
             EditorPage.ret EditorPage.modify EditorPage.new_object
             EditorPage.forEach EditorPage.canvas_add EditorPage.labels_set
             EditorPage.setState appended EditorPage.set_canvas
             EditorPage.set_nextOid EditorPage.set_measurementLabels
             EditorPage.set_drawing EditorPage.as_measurement
             EditorPage.with_id EditorPage.placed_polygon];
  cbn.

(** The same, in a hypothesis. *)
Ltac run_editor_in H :=
  cbv delta [EditorPage.eval EditorPage.exec EditorPage.bind EditorPage.get
             EditorPage.ret EditorPage.modify EditorPage.new_object
             EditorPage.forEach EditorPage.canvas_add EditorPage.canvas_remove
             EditorPage.labels_set
             EditorPage.setState EditorPage.set_canvas
             EditorPage.set_nextOid EditorPage.set_measurementLabels
             EditorPage.set_drawing EditorPage.as_measurement
             EditorPage.with_id EditorPage.placed_polygon] in H;
  cbn in H.

(** * Properties *)

Section NumberFacts.

Local Open Scope Q_scope.

Lemma Qltb_lt (a b : Q) : Qltb a b = true <-> a < b.
Proof.
  unfold Qltb. rewrite negb_true_iff, <- not_true_iff_false, Qle_bool_iff.
  split; [apply Qnot_le_lt | apply Qlt_not_le].
Qed.

Lemma Qltb_ge (a b : Q) : Qltb a b = false <-> b <= a.
Proof.
  unfold Qltb. rewrite negb_false_iff. apply Qle_bool_iff.
Qed.

Lemma Qle_bool_false (a b : Q) : Qle_bool a b = false <-> b < a.
Proof.
  rewrite <- not_true_iff_false, Qle_bool_iff.
  split; [apply Qnot_le_lt | apply Qlt_not_le].
Qed.




Lemma digits_of_N_nonempty (n : N) : digits_of_N n <> [].
Proof.
  unfold digits_of_N, NilZero.string_of_uint.
  destruct (N.to_uint n); simpl; discriminate.
Qed.






(** [toFixed] on an exact number inside its fixed-notation range. *)
Lemma toFixed_Q_fixed (q : Q) (f : nat) :
  Qabs q < inject_Z (10 ^ 21) ->
  toFixed q f = (if Qltb q 0 then "-" else "")
                  +++ fixed_digits (nearest_scaled (Qabs q) f) f.
Proof.
  intros Hrange. unfold toFixed.
  change (real q) with (Finite q). cbv beta iota zeta.
  apply Qle_bool_false in Hrange. now rewrite Hrange.
Qed.

End NumberFacts.

(** ** Unit converter *)

Section UnitConverter.

Import EditorPage.

Local Open Scope Q_scope.






End UnitConverter.

(** ** Formatting a measurement *)

Section Formatting.

Import EditorPage.

Local Open Scope Q_scope.






End Formatting.

(** ** Dimension annotations *)

Section DimensionLines.

Import EditorPage.

Context {num : Type} `{JSNumber num} `{JSMath num}.

Local Open Scope js_scope.

(** Without a canvas nothing is built. *)
Lemma createDimensionLine_no_canvas (x1 y1 x2 y2 : num) (parent : string)
    (offset : num) (color : string) (st : Editor num) :
  canvas st = None ->
  createDimensionLine x1 y1 x2 y2 parent offset color st = ([], st).
Proof.
  intros Hc. unfold createDimensionLine, bind, get. now rewrite Hc.
Qed.

(** With a canvas, the six primitives are created, in order, and added. *)
Lemma createDimensionLine_run (x1 y1 x2 y2 : num) (parent : string)
    (offset : num) (color : string) (st : Editor num) (c : list (FabricObject num)) :
  canvas st = Some c ->
  let els := eval (createDimensionLine x1 y1 x2 y2 parent offset color) st in
  let st' := exec (createDimensionLine x1 y1 x2 y2 parent offset color) st in
  appended st st' els /\
  map shape els = dimension_shapes (currentScale (drawing st)) x1 y1 x2 y2 offset /\
  Forall (annotation_of parent) els /\
  length els = 6%nat.
Proof.
  intros Hc. unfold eval, exec, createDimensionLine.
  unfold bind at 1. unfold get at 1. rewrite Hc.
  run_editor. rewrite Hc. cbn.
  repeat split.
  - now rewrite <- !app_assoc.
  - lia.
  - repeat constructor.
Qed.

(** C6 (amended): an edge of zero length is not rejected.  With a canvas,
    [createDimensionLine] builds and adds the same six primitives as for
    any other edge, with the angle [atan2 0 0] of the edge (x, y)-(x, y);
    it returns the empty list only when there is no canvas. *)
Theorem zero_length_edge_is_annotated (x y : num) (parent : string)
    (offset : num) (color : string) (st : Editor num) (c : list (FabricObject num)) :
  canvas st = Some c ->
  let els := eval (createDimensionLine x y x y parent offset color) st in
  let st' := exec (createDimensionLine x y x y parent offset color) st in
  length els = 6%nat /\
  map shape els = dimension_shapes (currentScale (drawing st)) x y x y offset /\
  Forall (annotation_of parent) els /\
  canvas st' = Some (c ++ els)%list /\
  measurementLabels st' = measurementLabels st.
Proof.
  intros Hc.
  destruct (createDimensionLine_run x y x y parent offset color st c Hc)
    as ((Hcanvas & Hlabels & _) & Hshapes & Hann & Hlen).
  cbv zeta. rewrite Hcanvas, Hc. auto.
Qed.

End DimensionLines.

(** C6, a witness: a zero-length edge at (5, 5) on the empty canvas. *)
Lemma zero_length_edge_is_annotated_witness :
  let build :=
    EditorPage.createDimensionLine (H0 := Q_math) 5%Q 5%Q 5%Q 5%Q
      "shape-1" 20%Q "#fbbf24" in
  length (EditorPage.eval build initial_editor) = 6%nat /\
  EditorPage.canvas (EditorPage.exec build initial_editor)
  = Some (EditorPage.eval build initial_editor).
Proof.
  pose proof (zero_length_edge_is_annotated (H0 := Q_math) 5%Q 5%Q
                "shape-1" 20%Q "#fbbf24" initial_editor [] eq_refl)
    as (Hlen & _ & _ & Hcanvas & _).
  split; [exact Hlen | exact Hcanvas].
Defined.

(** C6 as stated fails: the zero-length edge (5, 5)-(5, 5) yields six
    primitives on the canvas, with the label ["0 cm"]; nothing is skipped
    or reported. *)
Lemma zero_length_edge_not_rejected :
  let build :=
    EditorPage.createDimensionLine (H0 := Q_math) 5%Q 5%Q 5%Q 5%Q
      "shape-1" 20%Q "#fbbf24" in
  length (EditorPage.eval build initial_editor) = 6%nat /\
  option_map (@length _) (EditorPage.canvas (EditorPage.exec build initial_editor))
  = Some 6%nat /\
  label_text (EditorPage.eval build initial_editor) = Some "0 cm".
Proof. vm_compute. auto. Qed.

Section DimensionLinesExact.

Import EditorPage.

Context `{JSMath Q}.

Local Open Scope Q_scope.

Lemma adjustAngle_inside (t : Q) : -90 <= t <= 90 -> adjustAngle t = t.
Proof.
  intros [Hlo Hhi]. unfold adjustAngle.
  change (js_lt (lit 90) t) with (Qltb 90 t).
  change (js_lt t (lit (-90))) with (Qltb t (-90)).
  apply Qltb_ge in Hlo, Hhi. now rewrite Hlo, Hhi.
Qed.

Lemma adjustAngle_outside (t : Q) : t < -90 \/ 90 < t -> adjustAngle t = t + 180.
Proof.
  intros Hout. unfold adjustAngle.
  change (js_lt (lit 90) t) with (Qltb 90 t).
  change (js_lt t (lit (-90))) with (Qltb t (-90)).
  destruct Hout as [Hlo|Hhi].
  - apply Qltb_lt in Hlo. rewrite Hlo. now rewrite orb_true_r.
  - apply Qltb_lt in Hhi. now rewrite Hhi.
Qed.

(** Whatever the raw angle between -180 and 180 degrees, the label is
    drawn at an angle that is, up to a full turn, within [-90, 90]. *)
Lemma adjustAngle_upright (t : Q) :
  -180 <= t <= 180 ->
  exists turns : Z, -90 <= adjustAngle t - 360 * inject_Z turns <= 90.
Proof.
  intros [Hlo Hhi].
  destruct (Qlt_le_dec t (-90)) as [Hbelow|Hge].
  - exists 0%Z. rewrite adjustAngle_outside by auto.
    change (inject_Z 0) with 0. lra.
  - destruct (Qlt_le_dec 90 t) as [Habove|Hle].
    + exists 1%Z. rewrite adjustAngle_outside by auto.
      change (inject_Z 1) with 1. lra.
    + exists 0%Z. rewrite adjustAngle_inside by auto.
      change (inject_Z 0) with 0. lra.
Qed.

(** C4 (amended): the label of every dimension annotation is drawn at
    [adjustAngle] of the raw edge angle [atan2 (dy, dx)] in degrees: the raw
    angle itself inside [-90, 90], and the raw angle plus 180 outside, which
    up to a full turn lies within [-90, 90]; a raw angle of 170 gives 350
    (the direction of -10). *)
Theorem label_angle_normalized :
  (forall (x1 y1 x2 y2 : Q) (parent : string) (offset : Q) (color : string)
          (st : Editor Q) (c : list (FabricObject Q)),
      canvas st = Some c ->
      exists (l1 l2 l3 a1 a2 label : FabricObject Q) (content : string) (left top : Q),
        eval (createDimensionLine x1 y1 x2 y2 parent offset color) st
        = [l1; l2; l3; a1; a2; label] /\
        shape label
        = Text content left top
            (adjustAngle (edgeAngle x1 y1 x2 y2 * 180 / Math_PI))) /\
  (forall t : Q, -90 <= t <= 90 -> adjustAngle t == t) /\
  (forall t : Q, t < -90 \/ 90 < t -> adjustAngle t == t + 180) /\
  (forall t : Q, -180 <= t <= 180 ->
                 exists turns : Z, -90 <= adjustAngle t - 360 * inject_Z turns <= 90) /\
  adjustAngle 170 == 350.
Proof.
  repeat split.
  - intros x1 y1 x2 y2 parent offset color st c Hc.
    unfold eval, createDimensionLine.
    unfold bind at 1. unfold get at 1. rewrite Hc.
    run_editor. repeat eexists.
  - intros t Ht. now rewrite adjustAngle_inside.
  - intros t Ht. now rewrite adjustAngle_outside.
  - exact adjustAngle_upright.
Qed.

(** C5 (amended): the dimension line is the edge moved by
    [(sin a, - cos a) * offset], each extension line joins an endpoint to
    its moved counterpart, and the label is centred 8 pixels above the
    middle of the dimension line. *)
Theorem dimension_line_geometry (x1 y1 x2 y2 : Q) (parent : string)
    (offset : Q) (color : string) (st : Editor Q) (c : list (FabricObject Q)) :
  canvas st = Some c ->
  let a := Math_atan2 (y2 - y1) (x2 - x1) in
  let offsetX := Math_sin a * offset in
  let offsetY := - Math_cos a * offset in
  exists (dimensionLine ext1 ext2 arrow1 arrow2 label : FabricObject Q)
         (content : string) (left top angle : Q),
    eval (createDimensionLine x1 y1 x2 y2 parent offset color) st
    = [dimensionLine; ext1; ext2; arrow1; arrow2; label] /\
    shape dimensionLine
    = Line (x1 + offsetX) (y1 + offsetY) (x2 + offsetX) (y2 + offsetY) /\
    shape ext1 = Line x1 y1 (x1 + offsetX) (y1 + offsetY) /\
    shape ext2 = Line x2 y2 (x2 + offsetX) (y2 + offsetY) /\
    shape label = Text content left top angle /\
    left == ((x1 + offsetX) + (x2 + offsetX)) / 2 /\
    top == ((y1 + offsetY) + (y2 + offsetY)) / 2 - 8.
Proof.
  intros Hc a offsetX offsetY.
  unfold eval, createDimensionLine.
  unfold bind at 1. unfold get at 1. rewrite Hc.
  run_editor.
  do 10 eexists.
  split; [reflexivity|].
  repeat (split; [reflexivity|]).
  fold a. fold offsetX. fold offsetY.
  split; field.
Qed.

End DimensionLinesExact.

(** C4, a witness: raw angles of 45 and of 170 degrees. *)
Lemma label_angle_normalized_witness :
  adjustAngle (45 : Q) == 45 /\ adjustAngle (170 : Q) == 170 + 180.
Proof.
  split.
  - apply (proj1 (proj2 (label_angle_normalized (H := Q_math)))).
    split; discriminate.
  - apply (proj1 (proj2 (proj2 (label_angle_normalized (H := Q_math))))).
    right. reflexivity.
Defined.

(** C4 as stated fails: for a raw angle of 170 degrees the label angle is
    350, not -10, in exact arithmetic and in binary64. *)
Lemma label_angle_of_170_is_350 :
  adjustAngle (170 : Q) == 350 /\
  ~ adjustAngle (170 : Q) == -10 /\
  adjustAngle 170%float = 350%float.
Proof. vm_compute. repeat split. discriminate. Qed.

(** C5, a witness: the edge from (0, 0) to (10, 0) on the empty canvas. *)
Lemma dimension_line_geometry_witness :
  exists label content left top angle,
    nth_error
      (EditorPage.eval
         (EditorPage.createDimensionLine (H0 := Q_math) 0%Q 0%Q 10%Q 0%Q
            "shape-1" 20%Q "#fbbf24") initial_editor) 5
    = Some label /\
    EditorPage.shape label = EditorPage.Text content left top angle /\
    (top == -28)%Q.
Proof.
  destruct (dimension_line_geometry (H := Q_math) 0%Q 0%Q 10%Q 0%Q "shape-1"
              20%Q "#fbbf24" initial_editor [] eq_refl)
    as (d & e1 & e2 & a1 & a2 & label & content & left & top & angle
        & Hels & _ & _ & _ & Hlabel & _ & Htop).
  exists label, content, left, top, angle.
  rewrite Hels. repeat split; [exact Hlabel|].
  rewrite Htop. vm_compute. reflexivity.
Defined.

(** C5 as stated fails: for the edge from (0, 0) to (10, 0) with offset
    20 the label is not at the middle of the dimension line but 8 pixels
    above it. *)
Lemma dimension_label_above_midpoint :
  label_offset_from_midpoint
    (EditorPage.eval
       (EditorPage.createDimensionLine (H0 := Q_math) 0%Q 0%Q 10%Q 0%Q
          "shape-1" 20%Q "#fbbf24") initial_editor)
  = Some (0, -8)%Q.
Proof. vm_compute. reflexivity. Qed.

(** ** Annotation sets *)

Section Annotations.

Import EditorPage.

Context {num : Type} `{JSNumber num} `{JSMath num}.

Local Open Scope js_scope.

Lemma exec_bind {A B} (m : M A) (k : A -> M B) (st : Editor num) :
  exec (bind m k) st = exec (k (eval m st)) (exec m st).
Proof. unfold exec, eval, bind. now destruct (m st). Qed.

Lemma eval_bind {A B} (m : M A) (k : A -> M B) (st : Editor num) :
  eval (bind m k) st = eval (k (eval m st)) (exec m st).
Proof. unfold exec, eval, bind. now destruct (m st). Qed.

Lemma appended_refl (st : Editor num) : appended st st [].
Proof.
  unfold appended. cbn. rewrite Nat.add_0_r.
  repeat split.
  destruct (canvas st); cbn; [now rewrite app_nil_r | reflexivity].
Qed.

Lemma appended_trans (st st1 st2 : Editor num) (e1 e2 : list (FabricObject num)) :
  appended st st1 e1 -> appended st1 st2 e2 -> appended st st2 (e1 ++ e2)%list.
Proof.
  intros (Hc1 & Hl1 & Hd1 & Hn1 & Ho1) (Hc2 & Hl2 & Hd2 & Hn2 & Ho2).
  unfold appended. repeat split.
  - rewrite Hc2, Hc1. destruct (canvas st); cbn; [now rewrite app_assoc | reflexivity].
  - congruence.
  - congruence.
  - rewrite length_app. lia.
  - rewrite map_app, length_app, seq_app, Ho1, Ho2, Hn1. reflexivity.
Qed.

(** One dimension annotation, whatever the state. *)
Lemma createDimensionLine_appended (x1 y1 x2 y2 : num) (parent : string)
    (offset : num) (color : string) (st : Editor num) :
  let els := eval (createDimensionLine x1 y1 x2 y2 parent offset color) st in
  let st' := exec (createDimensionLine x1 y1 x2 y2 parent offset color) st in
  appended st st' els /\
  Forall (annotation_of parent) els /\
  (canvas st <> None ->
   map shape els = dimension_shapes (currentScale (drawing st)) x1 y1 x2 y2 offset).
Proof.
  destruct (canvas st) as [c|] eqn:Hc.
  - destruct (createDimensionLine_run x1 y1 x2 y2 parent offset color st c Hc)
      as (Happ & Hshapes & Hann & _).
    cbv zeta. auto.
  - cbv zeta. unfold eval, exec.
    rewrite (createDimensionLine_no_canvas _ _ _ _ _ _ _ _ Hc).
    cbn [fst snd].
    split; [apply appended_refl | split; [constructor | congruence]].
Qed.

(** The edges of a polygon, one annotation each. *)
Lemma polygon_edges_run (points : list (Point num)) (matrix : Matrix num)
    (key : string) (indices : list nat) :
  forall st : Editor num,
    let els := eval (polygon_edges points matrix key indices) st in
    let st' := exec (polygon_edges points matrix key indices) st in
    appended st st' els /\
    Forall (annotation_of key) els /\
    (canvas st <> None ->
     map shape els
     = flat_map (polygon_edge_shapes (currentScale (drawing st)) points matrix) indices).
Proof.
  induction indices as [|i rest IH]; intros st; cbv zeta.
  - cbn [polygon_edges eval exec ret fst snd flat_map map].
    split; [apply appended_refl | split; [constructor | reflexivity]].
  - cbn [polygon_edges].
    rewrite !exec_bind, !eval_bind.
    set (edge := createDimensionLine _ _ _ _ key (lit 25) "#22c55e").
    destruct (createDimensionLine_appended
                (px (transformPoint (nth i points {| px := lit 0; py := lit 0 |}) matrix))
                (py (transformPoint (nth i points {| px := lit 0; py := lit 0 |}) matrix))
                (px (transformPoint
                       (nth ((i + 1) mod length points) points
                          {| px := lit 0; py := lit 0 |}) matrix))
                (py (transformPoint
                       (nth ((i + 1) mod length points) points
                          {| px := lit 0; py := lit 0 |}) matrix))
                key (lit 25) "#22c55e" st) as (Happ1 & Hann1 & Hshape1).
    fold edge in Happ1, Hann1, Hshape1.
    destruct (IH (exec edge st)) as (Happ2 & Hann2 & Hshape2).
    cbn [eval exec ret fst snd].
    split; [|split].
    + exact (appended_trans _ _ _ _ _ Happ1 Happ2).
    + apply Forall_app. split; assumption.
    + intros Hc. rewrite map_app, Hshape1 by exact Hc.
      destruct Happ1 as (Hc1 & _ & Hd1 & _).
      rewrite Hshape2.
      * rewrite Hd1. reflexivity.
      * rewrite Hc1. destruct (canvas st); [discriminate | congruence].
Qed.

Lemma measured_of_appended (st st1 : Editor num) (key : string)
    (els : list (FabricObject num)) :
  appended st st1 els -> measured st (exec (labels_set key els) st1) key els.
Proof.
  intros (Hc & Hl & Hd & Hn & Ho).
  unfold measured. cbn. rewrite Hl. auto.
Qed.

Lemma addRectMeasurements_run (rect : FabricObject num) (key : string)
    (st : Editor num) :
  exists els,
    measured st (exec (addRectMeasurements rect key) st) key els /\
    Forall (annotation_of key) els /\
    (canvas st <> None ->
     map shape els = rect_shapes (currentScale (drawing st)) rect).
Proof.
  unfold addRectMeasurements, rect_shapes.
  set (left := prop_or (left_of rect) (lit 0)).
  set (top := prop_or (top_of rect) (lit 0)).
  set (width := prop_or (width_of rect) (lit 0) * or_else (scaleX rect) (lit 1)).
  set (height := prop_or (height_of rect) (lit 0) * or_else (scaleY rect) (lit 1)).
  rewrite !exec_bind.
  set (bottom := createDimensionLine left (top + height) (left + width) (top + height)
                   key (lit 25) "#fbbf24").
  set (right := createDimensionLine (left + width) top (left + width) (top + height)
                  key (lit 25) "#fbbf24").
  destruct (createDimensionLine_appended left (top + height) (left + width)
              (top + height) key (lit 25) "#fbbf24" st) as (Happ1 & Hann1 & Hshape1).
  destruct (createDimensionLine_appended (left + width) top (left + width)
              (top + height) key (lit 25) "#fbbf24" (exec bottom st))
    as (Happ2 & Hann2 & Hshape2).
  fold bottom in Happ1, Hann1, Hshape1. fold right in Happ2, Hann2, Hshape2.
  exists (eval bottom st ++ eval right (exec bottom st))%list.
  split; [|split].
  - apply measured_of_appended. exact (appended_trans _ _ _ _ _ Happ1 Happ2).
  - apply Forall_app. split; assumption.
  - intros Hc. rewrite map_app, Hshape1 by exact Hc.
    destruct Happ1 as (Hc1 & _ & Hd1 & _).
    rewrite Hshape2, Hd1; [reflexivity|].
    rewrite Hc1. destruct (canvas st); [discriminate | congruence].
Qed.

Lemma addLineMeasurement_run (line : FabricObject num) (key : string)
    (st : Editor num) :
  exists els,
    measured st (exec (addLineMeasurement line key) st) key els /\
    Forall (annotation_of key) els /\
    (canvas st <> None ->
     map shape els = line_shapes (currentScale (drawing st)) line).
Proof.
  unfold addLineMeasurement, line_shapes.
  destruct (coords_of line) as [[[a b] c] d].
  rewrite exec_bind.
  destruct (createDimensionLine_appended (prop_or a (lit 0)) (prop_or b (lit 0))
              (prop_or c (lit 0)) (prop_or d (lit 0)) key (lit 20) "#fbbf24" st)
    as (Happ & Hann & Hshape).
  eexists. split; [|split].
  - apply measured_of_appended. exact Happ.
  - exact Hann.
  - exact Hshape.
Qed.

Lemma addPolygonMeasurements_skip (polygon : FabricObject num) (key : string)
    (st : Editor num) :
  (forall points, points_of polygon = Some points -> (length points < 2)%nat) ->
  addPolygonMeasurements polygon key st = (tt, st).
Proof.
  intros Hfew. unfold addPolygonMeasurements.
  destruct (points_of polygon) as [points|]; [|reflexivity].
  specialize (Hfew points eq_refl).
  apply Nat.ltb_lt in Hfew. now rewrite Hfew.
Qed.

Lemma addPolygonMeasurements_run (polygon : FabricObject num) (points : list (Point num))
    (key : string) (st : Editor num) :
  points_of polygon = Some points -> (2 <= length points)%nat ->
  exists els,
    measured st (exec (addPolygonMeasurements polygon key) st) key els /\
    Forall (annotation_of key) els /\
    (canvas st <> None ->
     map shape els
     = flat_map (polygon_edge_shapes (currentScale (drawing st)) points
                   (transformMatrix polygon)) (seq 0 (length points))).
Proof.
  intros Hpoints Hlen. unfold addPolygonMeasurements. rewrite Hpoints.
  apply Nat.ltb_ge in Hlen. rewrite Hlen.
  rewrite exec_bind.
  destruct (polygon_edges_run points (transformMatrix polygon) key
              (seq 0 (length points)) st) as (Happ & Hann & Hshape).
  eexists. split; [|split].
  - apply measured_of_appended. exact Happ.
  - exact Hann.
  - exact Hshape.
Qed.

Lemma addCircleMeasurements_no_canvas (circle : FabricObject num) (key : string)
    (st : Editor num) :
  canvas st = None -> addCircleMeasurements circle key st = (tt, st).
Proof.
  intros Hc. unfold addCircleMeasurements, bind, get. now rewrite Hc.
Qed.

Lemma addCircleMeasurements_run (circle : FabricObject num) (key : string)
    (st : Editor num) (c : list (FabricObject num)) :
  canvas st = Some c ->
  exists els,
    measured st (exec (addCircleMeasurements circle key) st) key els /\
    Forall (annotation_of key) els /\
    map shape els = circle_shapes (currentScale (drawing st)) circle.
Proof.
  intros Hc. unfold exec, addCircleMeasurements.
  unfold bind at 1. unfold get at 1. rewrite Hc.
  run_editor. eexists. unfold measured. cbn. rewrite Hc. cbn.
  split; [|split].
  - repeat split; [now rewrite <- !app_assoc | cbn; lia].
  - repeat constructor.
  - reflexivity.
Qed.

(** *** Discarding an annotation set *)

Lemma without_nil (c : list (FabricObject num)) : without [] c = c.
Proof.
  unfold without. induction c as [|o c IH]; cbn; [reflexivity | f_equal; exact IH].
Qed.

Lemma without_cons (a : FabricObject num) (ms c : list (FabricObject num)) :
  without ms (List.filter (fun o' => negb (Nat.eqb (oid o') (oid a))) c)
  = without (a :: ms) c.
Proof.
  unfold without. induction c as [|o c IH]; cbn; [reflexivity|].
  destruct (Nat.eqb (oid o) (oid a)); cbn; [exact IH|].
  destruct (existsb (fun g => Nat.eqb (oid o) (oid g)) ms); cbn;
    [exact IH | f_equal; exact IH].
Qed.


Lemma forEach_canvas_remove (ms : list (FabricObject num)) :
  forall st : Editor num,
    forEach ms canvas_remove st
    = (tt, set_canvas (option_map (without ms) (canvas st)) st).
Proof.
  induction ms as [|a ms IH]; intros st.
  - cbn. unfold ret. f_equal. destruct st as [cv lbl n d]. unfold set_canvas. cbn.
    f_equal. destruct cv; cbn; [now rewrite without_nil | reflexivity].
  - cbn [forEach]. unfold bind. cbn. rewrite IH. f_equal.
    unfold set_canvas. cbn. f_equal.
    destruct (canvas st); cbn; [now rewrite without_cons | reflexivity].
Qed.

Lemma removeMeasurements_exec (key : string) (st : Editor num)
    (c : list (FabricObject num)) :
  canvas st = Some c ->
  exec (removeMeasurements key) st
  = match measurementLabels st !! key with
    | Some old =>
        set_measurementLabels (delete key (measurementLabels st))
          (set_canvas (Some (without old c)) st)
    | None => st
    end.
Proof.
  intros Hc. unfold exec, removeMeasurements.
  unfold bind at 1. unfold get at 1. rewrite Hc. cbv beta iota.
  destruct (measurementLabels st !! key) as [old|]; [|reflexivity].
  unfold bind. rewrite forEach_canvas_remove. cbn. now rewrite Hc.
Qed.

Lemma removeMeasurements_run (key : string) (st : Editor num)
    (c : list (FabricObject num)) :
  canvas st = Some c ->
  let st' := exec (removeMeasurements key) st in
  canvas st' = Some (without (default [] (measurementLabels st !! key)) c) /\
  measurementLabels st' = delete key (measurementLabels st) /\
  drawing st' = drawing st /\
  nextOid st' = nextOid st.
Proof.
  intros Hc. cbv zeta. rewrite (removeMeasurements_exec key st c Hc).
  destruct (measurementLabels st !! key) as [old|] eqn:Hold; cbn.
  - auto.
  - rewrite without_nil. repeat split; [exact Hc|].
    symmetry. now apply delete_id.
Qed.

(** *** Regenerating it *)

(** The dispatch of [updateObjectMeasurements] on the kind of the object. *)
Lemma regenerate_run (obj : FabricObject num) (key : string) (st : Editor num)
    (c : list (FabricObject num)) :
  canvas st = Some c ->
  let st' :=
    exec (if String.eqb (type obj) "rect" then addRectMeasurements obj key
          else if String.eqb (type obj) "polygon" then addPolygonMeasurements obj key
          else if String.eqb (type obj) "line" then addLineMeasurement obj key
          else if String.eqb (type obj) "circle" then addCircleMeasurements obj key
          else ret tt) st in
  match annotation_shapes (currentScale (drawing st)) obj with
  | Some shapes =>
      exists els, measured st st' key els /\
                  Forall (annotation_of key) els /\ map shape els = shapes
  | None => st' = st
  end.
Proof.
  intros Hc. assert (Hsome : canvas st <> None) by congruence.
  unfold type, annotation_shapes.
  destruct (shape obj) as [x1 y1 x2 y2 | l t w h | l t r | points | content l t a] eqn:Hshape;
    cbn.
  - destruct (addLineMeasurement_run obj key st) as (els & Hm & Hann & Hs).
    exists els. auto.
  - destruct (addRectMeasurements_run obj key st) as (els & Hm & Hann & Hs).
    exists els. auto.
  - destruct (addCircleMeasurements_run obj key st c Hc) as (els & Hm & Hann & Hs).
    exists els. auto.
  - destruct (Nat.leb_spec (length points) 1) as [Hfew|Hmany].
    + assert (Hskip : addPolygonMeasurements obj key st = (tt, st)).
      { apply addPolygonMeasurements_skip.
        unfold points_of. rewrite Hshape. intros ps [= <-]. lia. }
      unfold exec. now rewrite Hskip.
    + destruct (addPolygonMeasurements_run obj points key st) as (els & Hm & Hann & Hs);
        [unfold points_of; now rewrite Hshape | lia |].
      exists els. auto.
  - reflexivity.
Qed.

Lemma fresh_identities (els : list (FabricObject num)) (n : nat) :
  map oid els = seq n (length els) ->
  forall o, In o els -> (n <= oid o)%nat.
Proof.
  intros Hoids o Hin.
  apply (in_map oid) in Hin. rewrite Hoids in Hin.
  apply in_seq in Hin. lia.
Qed.


End Annotations.


(** ** Drawing with the mouse *)

Section PointerUp.

Import EditorPage.

Context {num : Type} `{JSNumber num} `{JSMath num}.

Local Open Scope js_scope.

Lemma without_one (t : FabricObject num) (c : list (FabricObject num)) :
  List.filter (fun o' => negb (Nat.eqb (oid o') (oid t))) c = without [t] c.
Proof. rewrite <- without_cons. now rewrite without_nil. Qed.

(** Removing the preview of the shape being drawn. *)
Lemma remove_preview_run (temp : option (FabricObject num)) (st : Editor num)
    (c : list (FabricObject num)) :
  canvas st = Some c ->
  let st1 :=
    exec (match temp with
          | Some t => bind (canvas_remove t) (fun _ => setState (set_tempShape None))
          | None => ret tt
          end) st in
  canvas st1 = Some (without (option_list temp) c) /\
  measurementLabels st1 = measurementLabels st /\
  nextOid st1 = nextOid st /\
  currentScale (drawing st1) = currentScale (drawing st).
Proof.
  intros Hc. destruct temp as [t|]; cbv zeta.
  - run_editor. unfold canvas_remove. run_editor. rewrite Hc. cbn.
    now rewrite without_one.
  - cbn. now rewrite without_nil.
Qed.

(** The three state resets that end [handleMouseUp]. *)
Lemma finish_drawing_run (st : Editor num) :
  let st' :=
    exec (setState (set_currentMeasurement ""))
      (exec (setState (set_drawingStart None))
         (exec (setState (set_isDrawing false)) st)) in
  canvas st' = canvas st /\
  measurementLabels st' = measurementLabels st /\
  isDrawing (drawing st') = false.
Proof. cbv zeta. run_editor. auto. Qed.

(** Committing a drawn shape: the new object goes on the canvas, then
    its annotations. *)
Lemma commit_run (s : Shape num) (stroke_ fill_ : string) (width_ : num)
    (shapeId : string) (annotate : FabricObject num -> string -> M unit)
    (st : Editor num) (c : list (FabricObject num)) :
  canvas st = Some c ->
  exists obj : FabricObject num,
    shape obj = s /\ id obj = Some shapeId /\ oid obj = nextOid st /\
    scaleX obj = lit 1 /\ scaleY obj = lit 1 /\ selectable obj = true /\
    exec (bind (new_object s stroke_ fill_ "" width_ true true)
            (fun o => bind (canvas_add (with_id shapeId o))
                        (fun _ => annotate (with_id shapeId o) shapeId))) st
    = exec (annotate obj shapeId)
        (set_nextOid (S (nextOid st)) (set_canvas (Some (c ++ [obj])%list) st)).
Proof.
  intros Hc. eexists. repeat split; cycle -1.
  - unfold exec at 1. run_editor. rewrite Hc. cbn. reflexivity.
  - reflexivity.
  - reflexivity.
  - reflexivity.
  - reflexivity.
  - reflexivity.
  - reflexivity.
Qed.

Lemma exec_get {A} (k : Editor num -> M A) (st : Editor num) :
  exec (bind get k) st = exec (k st) st.
Proof. reflexivity. Qed.

(** A rectangle that is not large enough is dropped: pointer-up only takes
    the preview off the canvas. *)
Lemma handleMouseUp_small_rectangle (pointer : Point num) (now : Z)
    (st : Editor num) (c : list (FabricObject num)) (start : Point num) :
  canvas st = Some c ->
  isDrawing (drawing st) = true ->
  drawingStart (drawing st) = Some start ->
  activeTool (drawing st) = tool_rectangle ->
  (Math_abs (px pointer - px start) >? lit 5)
  && (Math_abs (py pointer - py start) >? lit 5) = false ->
  let st' := exec (handleMouseUp pointer now) st in
  canvas st' = Some (without (option_list (tempShape (drawing st))) c) /\
  measurementLabels st' = measurementLabels st.
Proof.
  intros Hc Hdraw Hstart Htool Hsmall st'.
  destruct (remove_preview_run (tempShape (drawing st)) st c Hc)
    as (Hc1 & Hl1 & _).
  assert (Hst' : st' = exec (handleMouseUp pointer now) st) by reflexivity.
  unfold handleMouseUp in Hst'.
  rewrite exec_get, Hc in Hst'. cbv beta iota zeta in Hst'.
  rewrite Hdraw, Hstart in Hst'. rewrite !exec_bind in Hst'.
  set (st1 := exec (match tempShape (drawing st) with
                    | Some t => _
                    | None => _
                    end) st) in *.
  rewrite Htool, Hsmall in Hst'.
  match type of Hst' with
  | _ = exec _ (exec _ (exec _ ?st2)) =>
      destruct (finish_drawing_run st2) as (Hcf & Hlf & _);
      rewrite <- Hst' in Hcf, Hlf
  end.
  rewrite Hcf, Hlf. cbn. auto.
Qed.

(** C10: on pointer-up while drawing, a rectangle is committed (with its
    measurements) exactly when both its width and its height exceed 5
    pixels, and a circle exactly when its radius exceeds 5 pixels;
    otherwise no shape and no measurement entry is created: the canvas is
    what it was, less the preview of the shape being drawn. *)
Theorem pointer_up_commits_above_threshold (pointer : Point num) (now : Z)
    (st : Editor num) (c : list (FabricObject num)) (start : Point num) :
  canvas st = Some c ->
  isDrawing (drawing st) = true ->
  drawingStart (drawing st) = Some start ->
  let st' := exec (handleMouseUp pointer now) st in
  let shapeId := "shape-" +++ integer_toString now in
  let kept := without (option_list (tempShape (drawing st))) c in
  let width := Math_abs (px pointer - px start) in
  let height := Math_abs (py pointer - py start) in
  let radiusPx :=
    Math_sqrt (Math_pow (px pointer - px start) (lit 2)
               + Math_pow (py pointer - py start) (lit 2)) in
  (activeTool (drawing st) = tool_rectangle ->
   if (width >? lit 5) && (height >? lit 5) then
     exists (rect : FabricObject num) (els : list (FabricObject num)),
       shape rect
       = Rect (Math_min (px start) (px pointer)) (Math_min (py start) (py pointer))
           width height /\
       id rect = Some shapeId /\
       canvas st' = Some (kept ++ rect :: els)%list /\
       measurementLabels st' = <[shapeId := els]> (measurementLabels st) /\
       map shape els = rect_shapes (currentScale (drawing st)) rect
   else
     canvas st' = Some kept /\ measurementLabels st' = measurementLabels st) /\
  (activeTool (drawing st) = tool_circle ->
   if radiusPx >? lit 5 then
     exists (circle : FabricObject num) (els : list (FabricObject num)),
       shape circle
       = Circle (px start - radiusPx) (py start - radiusPx) radiusPx /\
       id circle = Some shapeId /\
       canvas st' = Some (kept ++ circle :: els)%list /\
       measurementLabels st' = <[shapeId := els]> (measurementLabels st) /\
       map shape els = circle_shapes (currentScale (drawing st)) circle
   else
     canvas st' = Some kept /\ measurementLabels st' = measurementLabels st) /\
  isDrawing (drawing st') = false.
Proof.
  intros Hc Hdraw Hstart st' shapeId kept width height radiusPx.
  destruct (remove_preview_run (tempShape (drawing st)) st c Hc)
    as (Hc1 & Hl1 & Hn1 & Hs1).
  fold kept in Hc1.
  assert (Hst' : st' = exec (handleMouseUp pointer now) st) by reflexivity.
  unfold handleMouseUp in Hst'.
  rewrite exec_get, Hc in Hst'. cbv beta iota zeta in Hst'.
  rewrite Hdraw, Hstart in Hst'. rewrite !exec_bind in Hst'.
  set (st1 := exec (match tempShape (drawing st) with
                    | Some t => _
                    | None => _
                    end) st) in *.
  fold shapeId width height radiusPx in Hst'.
  match type of Hst' with
  | _ = exec _ (exec _ (exec _ ?st2)) =>
      destruct (finish_drawing_run st2) as (Hcf & Hlf & Hdf);
      rewrite <- Hst' in Hcf, Hlf, Hdf
  end.
  rewrite Hcf, Hlf. clear Hst' Hcf Hlf.
  split; [|split].
  - intros Htool. rewrite Htool.
    destruct ((width >? lit 5) && (height >? lit 5)).
    + destruct (commit_run
                  (Rect (Math_min (px start) (px pointer))
                     (Math_min (py start) (py pointer)) width height)
                  (activeColor (drawing st)) "transparent"
                  (strokeWidthSetting (drawing st)) shapeId addRectMeasurements
                  st1 kept Hc1)
        as (rect & Hshape & Hid & _ & _ & _ & _ & Hexec).
      destruct (addRectMeasurements_run rect shapeId
                  (set_nextOid (S (nextOid st1))
                     (set_canvas (Some (kept ++ [rect])%list) st1)))
        as (els & (Hcm & Hlm & _) & _ & Hshapes).
      exists rect, els.
      rewrite Hexec, Hcm, Hlm. cbn.
      rewrite <- app_assoc, Hl1, Hshapes by discriminate. cbn. rewrite Hs1.
      auto.
    + cbn. auto.
  - intros Htool. rewrite Htool.
    destruct (radiusPx >? lit 5).
    + destruct (commit_run
                  (Circle (px start - radiusPx) (py start - radiusPx) radiusPx)
                  (activeColor (drawing st)) "transparent"
                  (strokeWidthSetting (drawing st)) shapeId addCircleMeasurements
                  st1 kept Hc1)
        as (circle & Hshape & Hid & _ & _ & _ & _ & Hexec).
      destruct (addCircleMeasurements_run circle shapeId
                  (set_nextOid (S (nextOid st1))
                     (set_canvas (Some (kept ++ [circle])%list) st1))
                  (kept ++ [circle])%list eq_refl)
        as (els & (Hcm & Hlm & _) & _ & Hshapes).
      exists circle, els.
      rewrite Hexec, Hcm, Hlm. cbn.
      rewrite <- app_assoc, Hl1, Hshapes. cbn. rewrite Hs1.
      auto.
    + cbn. auto.
  - exact Hdf.
Qed.

End PointerUp.

(** C10, a witness: a drag from (100, 100) to (300, 250) commits the
    rectangle with its twelve annotation primitives. *)
Lemma pointer_up_commits_above_threshold_witness :
  let st' :=
    EditorPage.exec
      (EditorPage.handleMouseUp (H0 := Q_math)
         {| EditorPage.px := 300%Q; EditorPage.py := 250%Q |} 1700000000000)
      drawing_rectangle in
  exists (rect : EditorPage.FabricObject Q) (els : list (EditorPage.FabricObject Q)),
    EditorPage.id rect = Some "shape-1700000000000" /\
    EditorPage.canvas st' = Some (rect :: els) /\
    EditorPage.measurementLabels st' !! "shape-1700000000000" = Some els.
Proof.
  destruct (proj1 (pointer_up_commits_above_threshold (H0 := Q_math)
                     {| EditorPage.px := 300%Q; EditorPage.py := 250%Q |}
                     1700000000000 drawing_rectangle []
                     {| EditorPage.px := 100%Q; EditorPage.py := 100%Q |}
                     eq_refl eq_refl eq_refl) eq_refl)
    as (rect & els & _ & Hid & Hcanvas & Hlabels & _).
  exists rect, els. repeat split.
  - exact Hid.
  - exact Hcanvas.
  - rewrite Hlabels. apply lookup_insert_eq.
Defined.

(** ** A whole drag *)

Section Drag.

Import EditorPage.

Context {num : Type} `{JSNumber num} `{JSMath num}.

Local Open Scope js_scope.

Lemma without_fresh (c : list (FabricObject num)) (o : FabricObject num) :
  (forall o', In o' c -> (oid o' < oid o)%nat) ->
  without [o] (c ++ [o]) = c.
Proof.
  intros Hfresh. unfold without. rewrite List.filter_app. cbn.
  rewrite Nat.eqb_refl. cbn. rewrite app_nil_r.
  induction c as [|o' c IH]; [reflexivity|].
  cbn. assert (Hne : Nat.eqb (oid o') (oid o) = false).
  { apply Nat.eqb_neq. specialize (Hfresh o' (or_introl eq_refl)). lia. }
  rewrite Hne. cbn. f_equal. apply IH. intros o'' Hin. apply Hfresh. now right.
Qed.

(** X25: a rectangle drag that ends within 5 pixels of its start in width
    or in height: pointer down, one move, pointer up.  The preview that the move
    put on the canvas is taken off again and nothing else is added: the
    canvas and the stored annotation sets are what they were. *)
Lemma small_rectangle_drag_leaves_canvas (p q : Point num) (now : Z)
    (st : Editor num) (c : list (FabricObject num)) :
  canvas st = Some c ->
  (forall o, In o c -> (oid o < nextOid st)%nat) ->
  activeTool (drawing st) = tool_rectangle ->
  tempShape (drawing st) = None ->
  (Math_abs (px q - px p) >? lit 5) && (Math_abs (py q - py p) >? lit 5) = false ->
  let st' :=
    exec (handleMouseUp q now) (exec (handleMouseMove q) (exec (handleMouseDown p) st)) in
  canvas st' = Some c /\ measurementLabels st' = measurementLabels st.
Proof.
  intros Hc Hfresh Htool Htemp Hsmall st'.
  set (st1 := exec (handleMouseDown p) st).
  assert (H1 : canvas st1 = Some c /\ measurementLabels st1 = measurementLabels st /\
               nextOid st1 = nextOid st /\ isDrawing (drawing st1) = true /\
               drawingStart (drawing st1) = Some p /\
               tempShape (drawing st1) = None /\
               activeTool (drawing st1) = tool_rectangle).
  { unfold st1, handleMouseDown. rewrite exec_get, Hc. cbv beta iota.
    rewrite Htool. run_editor. repeat split; assumption. }
  destruct H1 as (Hc1 & Hl1 & Hn1 & Hd1 & Hs1 & Ht1 & Htool1).
  set (st2 := exec (handleMouseMove q) st1).
  assert (H2 : exists preview : FabricObject num,
             oid preview = nextOid st /\
             canvas st2 = Some (c ++ [preview])%list /\
             measurementLabels st2 = measurementLabels st /\
             isDrawing (drawing st2) = true /\
             drawingStart (drawing st2) = Some p /\
             tempShape (drawing st2) = Some preview /\
             activeTool (drawing st2) = tool_rectangle).
  { unfold st2, handleMouseMove. rewrite exec_get, Hc1. cbv beta iota zeta.
    rewrite Hd1, Hs1, Htool1, Ht1. run_editor.
    rewrite Hc1, Hl1, Hn1, Htool1. cbn. eexists.
    refine (conj _ (conj eq_refl _)); [reflexivity|].
    repeat split; assumption. }
  destruct H2 as (preview & Hoid & Hc2 & Hl2 & Hd2 & Hs2 & Ht2 & Htool2).
  destruct (handleMouseUp_small_rectangle q now st2 (c ++ [preview])%list p
              Hc2 Hd2 Hs2 Htool2 Hsmall) as [Hcanvas Hlabels].
  rewrite Ht2 in Hcanvas. cbn [option_list] in Hcanvas.
  subst st'. fold st1. fold st2.
  rewrite Hcanvas, Hlabels, Hl2. split; [|reflexivity].
  f_equal. apply without_fresh. intros o Hin. rewrite Hoid. now apply Hfresh.
Qed.

End Drag.

(** ** Polygons *)

Section Polygons.

Import EditorPage.

Context {num : Type} `{JSNumber num} `{JSMath num}.

Local Open Scope js_scope.

(** A double click with fewer than three points placed does nothing. *)
Lemma handleDoubleClick_too_few (now : Z) (st : Editor num) :
  (length (polygonPoints (drawing st)) < 3)%nat ->
  handleDoubleClick now st = (tt, st).
Proof.
  intros Hfew. unfold handleDoubleClick, bind, get.
  destruct (canvas st); [|reflexivity].
  apply Nat.leb_gt in Hfew. cbv beta zeta. rewrite Hfew, andb_false_r.
  reflexivity.
Qed.

(** With three points or more, the polygon is completed and measured. *)
Lemma handleDoubleClick_completes (now : Z) (st : Editor num)
    (c : list (FabricObject num)) :
  canvas st = Some c ->
  activeTool (drawing st) = tool_polygon \/ activeTool (drawing st) = tool_parcel ->
  (3 <= length (polygonPoints (drawing st)))%nat ->
  let st' := exec (handleDoubleClick now) st in
  exists (polygon : FabricObject num) (vertices : list (Point num))
         (els : list (FabricObject num)),
    shape polygon = Polygon vertices /\
    length vertices = length (polygonPoints (drawing st)) /\
    id polygon = Some ("parcel-" +++ integer_toString now) /\
    canvas st' = Some (c ++ polygon :: els)%list /\
    measurementLabels st'
    = <["parcel-" +++ integer_toString now := els]> (measurementLabels st) /\
    map shape els
    = flat_map (polygon_edge_shapes (currentScale (drawing st)) vertices
                  (transformMatrix polygon)) (seq 0 (length vertices)) /\
    polygonPoints (drawing st') = [].
Proof.
  intros Hc Htool Hmany st'.
  assert (Hst' : st' = exec (handleDoubleClick now) st) by reflexivity.
  unfold handleDoubleClick in Hst'. rewrite exec_get, Hc in Hst'.
  cbv beta iota zeta in Hst'.
  assert (Hdraws : match activeTool (drawing st) with
                   | tool_polygon | tool_parcel => true
                   | _ => false
                   end = true) by (destruct Htool as [-> | ->]; reflexivity).
  rewrite Hdraws in Hst'. apply Nat.leb_le in Hmany. rewrite Hmany in Hst'.
  cbn [andb] in Hst'. rewrite !exec_bind in Hst'.
  set (shapeId := "parcel-" +++ integer_toString now) in *.
  set (count := lit (Z.of_nat (length (polygonPoints (drawing st))))) in *.
  set (centroidX := sum_of px (polygonPoints (drawing st)) / count) in *.
  set (centroidY := sum_of py (polygonPoints (drawing st)) / count) in *.
  set (vertices := map (fun p => {| px := px p - centroidX; py := py p - centroidY |})
                     (polygonPoints (drawing st))) in *.
  set (parcel := match activeTool (drawing st) with
                 | tool_parcel => true
                 | _ => false
                 end) in *.
  set (created := new_object (Polygon vertices) _ _ _ _ true true) in *.
  set (polygon := placed_polygon centroidX centroidY parcel
                    (with_id shapeId (eval created st))) in *.
  assert (Hpoints : points_of polygon = Some vertices) by reflexivity.
  assert (Hlen : length vertices = length (polygonPoints (drawing st)))
    by apply length_map.
  set (st1 := exec (canvas_add polygon) (exec created st)) in *.
  assert (Hc1 : canvas st1 = Some (c ++ [polygon])%list).
  { unfold st1, created. run_editor. now rewrite Hc. }
  assert (Hl1 : measurementLabels st1 = measurementLabels st) by reflexivity.
  assert (Hd1 : drawing st1 = drawing st) by reflexivity.
  destruct (addPolygonMeasurements_run polygon vertices shapeId st1 Hpoints)
    as (els & (Hcm & Hlm & Hdm & _) & _ & Hshapes);
    [rewrite Hlen; apply Nat.leb_le in Hmany; lia|].
  exists polygon, vertices, els.
  assert (Hcs : canvas st' = canvas (exec (addPolygonMeasurements polygon shapeId) st1))
    by (rewrite Hst'; reflexivity).
  assert (Hls : measurementLabels st'
                = measurementLabels (exec (addPolygonMeasurements polygon shapeId) st1))
    by (rewrite Hst'; reflexivity).
  assert (Hps : polygonPoints (drawing st') = []) by (rewrite Hst'; reflexivity).
  rewrite Hcs, Hls, Hcm, Hlm, Hc1, Hl1, Hshapes, Hd1 by congruence. cbn.
  rewrite <- app_assoc. repeat split; auto.
Qed.

(** C7 (amended): [addPolygonMeasurements] computes and stores nothing for
    a polygon with fewer than 2 vertices (it returns silently), and a
    double click completes a polygon only once at least 3 points have been
    placed: with fewer it changes nothing, with 3 or more the polygon is
    added with one annotation per edge. *)
Theorem degenerate_polygons_are_skipped :
  (forall (polygon : FabricObject num) (key : string) (st : Editor num),
      (forall points, points_of polygon = Some points -> (length points < 2)%nat) ->
      addPolygonMeasurements polygon key st = (tt, st)) /\
  (forall (now : Z) (st : Editor num),
      (length (polygonPoints (drawing st)) < 3)%nat ->
      handleDoubleClick now st = (tt, st)) /\
  (forall (now : Z) (st : Editor num) (c : list (FabricObject num)),
      canvas st = Some c ->
      activeTool (drawing st) = tool_polygon \/ activeTool (drawing st) = tool_parcel ->
      (3 <= length (polygonPoints (drawing st)))%nat ->
      exists (polygon : FabricObject num) (vertices : list (Point num))
             (els : list (FabricObject num)),
        shape polygon = Polygon vertices /\
        length vertices = length (polygonPoints (drawing st)) /\
        canvas (exec (handleDoubleClick now) st) = Some (c ++ polygon :: els)%list /\
        map shape els
        = flat_map (polygon_edge_shapes (currentScale (drawing st)) vertices
                      (transformMatrix polygon)) (seq 0 (length vertices))).
Proof.
  split; [exact addPolygonMeasurements_skip|].
  split; [exact handleDoubleClick_too_few|].
  intros now st c Hc Htool Hmany.
  destruct (handleDoubleClick_completes now st c Hc Htool Hmany)
    as (polygon & vertices & els & Hshape & Hlen & _ & Hcanvas & _ & Hshapes & _).
  exists polygon, vertices, els. auto.
Qed.

End Polygons.

(** C7, a witness: a double click after two points, and after three. *)
Lemma degenerate_polygons_are_skipped_witness :
  let two := [ {| EditorPage.px := 0%Q; EditorPage.py := 0%Q |};
               {| EditorPage.px := 10%Q; EditorPage.py := 0%Q |} ] in
  let three := (two ++ [ {| EditorPage.px := 10%Q; EditorPage.py := 10%Q |} ])%list in
  EditorPage.handleDoubleClick (H0 := Q_math) 1700000000000 (placing_polygon two)
  = (tt, placing_polygon two) /\
  exists polygon vertices els,
    EditorPage.shape polygon = EditorPage.Polygon vertices /\
    length vertices = 3%nat /\
    EditorPage.canvas
      (EditorPage.exec (EditorPage.handleDoubleClick (H0 := Q_math) 1700000000000)
         (placing_polygon three))
    = Some (polygon :: els).
Proof.
  split.
  - apply (proj1 (proj2 (degenerate_polygons_are_skipped (H0 := Q_math)))).
    cbn. lia.
  - destruct (proj2 (proj2 (degenerate_polygons_are_skipped (H0 := Q_math)))
                1700000000000
                (placing_polygon
                   [ {| EditorPage.px := 0%Q; EditorPage.py := 0%Q |};
                     {| EditorPage.px := 10%Q; EditorPage.py := 0%Q |};
                     {| EditorPage.px := 10%Q; EditorPage.py := 10%Q |} ])
                [] eq_refl (or_introl eq_refl))
      as (polygon & vertices & els & Hshape & Hlen & Hcanvas & _); [cbn; lia|].
    exists polygon, vertices, els. auto.
Defined.

(** C7 as stated fails for two vertices: [addPolygonMeasurements] measures
    the polygon (0, 0)-(10, 0), storing and drawing two annotations of six
    primitives each. *)
Lemma two_point_polygon_is_measured :
  let st' :=
    EditorPage.exec
      (EditorPage.addPolygonMeasurements (H0 := Q_math) two_point_polygon "parcel-1")
      initial_editor in
  option_map (@length _) (EditorPage.measurementLabels st' !! "parcel-1") = Some 12%nat /\
  option_map (@length _) (EditorPage.canvas st') = Some 12%nat.
Proof. vm_compute. auto. Qed.

(** ** The canvas hook *)

Section CanvasHook.

Import CanvasEditor.

Context {num : Type} `{JSNumber num}.

Variable calculatePolygonArea : list (Point num) -> num.
Variable calculateDistance : Point num -> Point num -> num.
Variable snapToGrid : num -> num -> num -> num -> Point num.
Variable findAlignmentGuides : Bounds num -> list (Bounds num) -> num -> list (AlignmentGuide num).
Variable random_id : nat -> string.
Variable scale : num.

Local Open Scope js_scope.


Lemma set_position_twice (tid : nat) (l t l' t' : num) (objs : list (CanvasObject num)) :
  set_position tid l' t' (set_position tid l t objs) = set_position tid l' t' objs.
Proof.
  unfold set_position. rewrite map_map. apply map_ext. intros o.
  destruct (Nat.eqb (oid o) tid) eqn:Ho; cbn; now rewrite Ho.
Qed.



End CanvasHook.


(** ** Area and perimeter of a rectangle *)

Section RectangleMeasurements.

Import CanvasEditor.

Local Open Scope Q_scope.

Lemma or_else_Q (a : Q) : or_else a 0 == a.
Proof.
  unfold or_else. change (truthy a) with (negb (Qeq_bool a 0)).
  destruct (Qeq_bool a 0) eqn:Ha; cbn; [|reflexivity].
  apply Qeq_bool_iff in Ha. now rewrite Ha.
Qed.

Lemma or_else_Q_nonzero (a d : Q) : ~ a == 0 -> or_else a d = a.
Proof.
  intros Ha. unfold or_else. change (truthy a) with (negb (Qeq_bool a 0)).
  destruct (Qeq_bool a 0) eqn:Hz; [|reflexivity].
  apply Qeq_bool_iff in Hz. contradiction.
Qed.

(** What [updateMeasurements] reports for a rectangle, in terms of
    [pixelsPerMeter = scale * BASE_PIXELS_PER_METER]: a hundredth of
    [(w * h) / pixelsPerMeter^2] and a tenth of [2 (w + h) / pixelsPerMeter]. *)
Lemma updateMeasurements_rectangle
    (areaOf : list (Point Q) -> Q) (distance : Point Q -> Point Q -> Q)
    (scale : Q) (obj : CanvasObject Q) :
  type obj = "rect" -> ~ scale == 0 -> ~ scaleX obj == 0 -> ~ scaleY obj == 0 ->
  let report := updateMeasurements areaOf distance scale obj in
  let pixelsPerMeter := scale * BASE_PIXELS_PER_METER in
  let w := width obj * scaleX obj in
  let h := height obj * scaleY obj in
  area report == (w * h) / (pixelsPerMeter * pixelsPerMeter) / 100 /\
  perimeter report == 2 * (w + h) / pixelsPerMeter / 10.
Proof.
  intros Htype Hscale Hsx Hsy. cbv zeta.
  unfold updateMeasurements. rewrite Htype. cbn [String.eqb Ascii.eqb Bool.eqb andb].
  rewrite (or_else_Q_nonzero _ _ Hsx), (or_else_Q_nonzero _ _ Hsy).
  cbn [area perimeter].
  change (lit 0) with 0. change (@BASE_PIXELS_PER_METER Q _) with 10.
  change (lit 2) with 2. change (lit 100) with 100. change (lit 10000) with 10000.
  change (@js_mul Q _) with Qmult. change (@js_div Q _) with Qdiv.
  change (@js_add Q _) with Qplus.
  rewrite !or_else_Q.
  split; field; auto.
Qed.

(** C1, the code at the scenario of the claim: a rectangle of 200 by 150
    pixels at [pixelsPerMeter = 10] (store scale 1) is reported with area 3
    and perimeter 7, in exact arithmetic and in binary64, where the claim
    has 300 and 70; in general the reported area is a hundredth and the
    reported perimeter a tenth of the claimed formulas. *)
Theorem rectangle_measurements_off_by_unit :
  (forall (areaOf : list (Point Q) -> Q) (distance : Point Q -> Point Q -> Q)
          (scale : Q) (obj : CanvasObject Q),
      type obj = "rect" -> ~ scale == 0 -> ~ scaleX obj == 0 -> ~ scaleY obj == 0 ->
      let report := updateMeasurements areaOf distance scale obj in
      let pixelsPerMeter := scale * BASE_PIXELS_PER_METER in
      let w := width obj * scaleX obj in
      let h := height obj * scaleY obj in
      area report == (w * h) / (pixelsPerMeter * pixelsPerMeter) / 100 /\
      perimeter report == 2 * (w + h) / pixelsPerMeter / 10) /\
  (let report :=
     updateMeasurements (fun _ => 0) (fun _ _ => 0) 1 (canvas_rect 0 100 100 200 150) in
   1 * BASE_PIXELS_PER_METER == 10 /\
   area report == 3 /\ perimeter report == 7) /\
  (let report :=
     updateMeasurements (fun _ => 0%float) (fun _ _ => 0%float) 1%float
       (canvas_rect_float 0 100 100 200 150) in
   area report = 3%float /\ perimeter report = 7%float).
Proof.
  split; [exact updateMeasurements_rectangle|].
  split; vm_compute; auto.
Qed.

End RectangleMeasurements.

(** ** The project store *)

Section Store.

Import ProjectStore.

Context {num : Type} `{JSNumber num} {Data : Type}.

Lemma with_currentProject_same (state : ProjectState num Data) :
  with_currentProject (currentProject state) state = state.
Proof. now destruct state. Qed.

(** X1: while no project is open, the actions that edit the current
    project leave the whole store as it is: the update, the element or the
    photo is dropped. *)
Theorem project_actions_need_a_project (state : ProjectState num Data)
    (updates : ProjectUpdates num Data) (element : ProjectElement num Data)
    (id_ : string) (changes : ElementUpdates num Data)
    (doc : option PluDocument) (photo : string) (now : Z) :
  currentProject state = None ->
  updateProject updates now state = state /\
  addElement element now state = state /\
  updateElement id_ changes now state = state /\
  removeElement id_ now state = state /\
  setPluDocument doc now state = state /\
  addSitePhoto photo now state = state.
Proof.
  intros Hnone.
  unfold updateProject, addElement, updateElement, removeElement, setPluDocument,
    addSitePhoto.
  rewrite Hnone, <- Hnone.
  repeat split; apply with_currentProject_same.
Qed.

Lemma filter_other_ids (id_ : string) (els : list (ProjectElement num Data)) :
  (forall el, In el els -> el_id el <> id_) ->
  List.filter (fun el => negb (String.eqb (el_id el) id_)) els = els.
Proof.
  intros Hother. induction els as [|el els IH]; [reflexivity|].
  cbn. assert (Hne : String.eqb (el_id el) id_ = false).
  { apply String.eqb_neq. apply Hother. now left. }
  rewrite Hne. cbn. f_equal. apply IH. intros el' Hin. apply Hother. now right.
Qed.

(** X2: removing an element by its id undoes adding it, provided no
    element of the project had that id before: the list of elements is
    what it was, in the same order; with an id that was in use, the older
    elements of that id are removed as well. *)
Theorem removeElement_undoes_addElement (state : ProjectState num Data)
    (p : Project num Data) (element : ProjectElement num Data) (t1 t2 : Z) :
  currentProject state = Some p ->
  let state' := removeElement (el_id element) t2 (addElement element t1 state) in
  option_map elements (currentProject state')
  = Some (List.filter (fun el => negb (String.eqb (el_id el) (el_id element)))
            (elements p)) /\
  ((forall el, In el (elements p) -> el_id el <> el_id element) ->
   option_map elements (currentProject state') = Some (elements p)) /\
  option_map updatedAt (currentProject state') = Some t2 /\
  projects state' = projects state.
Proof.
  intros Hp. cbv zeta.
  unfold removeElement, addElement. cbn. rewrite Hp. cbn.
  rewrite List.filter_app. cbn. rewrite String.eqb_refl. cbn. rewrite app_nil_r.
  repeat split.
  intros Hfresh. now rewrite filter_other_ids.
Qed.

Lemma map_other_ids (id_ : string) (changes : ElementUpdates num Data)
    (els : list (ProjectElement num Data)) :
  (forall el, In el els -> el_id el <> id_) ->
  map (fun el => if String.eqb (el_id el) id_ then spread_element el changes else el) els
  = els.
Proof.
  intros Hother. induction els as [|el els IH]; [reflexivity|].
  cbn. assert (Hne : String.eqb (el_id el) id_ = false).
  { apply String.eqb_neq. apply Hother. now left. }
  rewrite Hne. f_equal. apply IH. intros el' Hin. apply Hother. now right.
Qed.

(** X3: [updateElement] keeps the number and the order of the elements,
    and every element of another id as it is; with an id that no element
    has, the elements are unchanged and only the project's modification
    date moves. *)
Theorem updateElement_touches_matching_ids (state : ProjectState num Data)
    (p : Project num Data) (id_ : string) (changes : ElementUpdates num Data)
    (now : Z) :
  currentProject state = Some p ->
  exists p' : Project num Data,
    currentProject (updateElement id_ changes now state) = Some p' /\
    length (elements p') = length (elements p) /\
    (forall i el, nth_error (elements p) i = Some el -> el_id el <> id_ ->
                  nth_error (elements p') i = Some el) /\
    (forall i el, nth_error (elements p) i = Some el -> el_id el = id_ ->
                  nth_error (elements p') i = Some (spread_element el changes)) /\
    ((forall el, In el (elements p) -> el_id el <> id_) ->
     elements p' = elements p) /\
    updatedAt p' = now.
Proof.
  intros Hp. unfold updateElement. rewrite Hp. cbn.
  eexists. split; [reflexivity|]. cbn.
  split; [apply length_map|].
  split; [|split; [|split; [|reflexivity]]].
  - intros i el Hnth Hne. rewrite nth_error_map, Hnth. cbn.
    apply String.eqb_neq in Hne. now rewrite Hne.
  - intros i el Hnth Heq. rewrite nth_error_map, Hnth. cbn.
    apply String.eqb_eq in Heq. now rewrite Heq.
  - apply map_other_ids.
Qed.

(** X4: the list [projects] keeps each project as it was created: none
    of the actions that edit the current project changes the list, and the
    actions on the tool, the selection, the scale and the two switches
    change neither the list nor the current project.  So
    after [createProject] and [addElement] the current project has the
    element while its copy in the list has none, and making that copy the
    current project again gives a project without the element. *)
Theorem project_list_keeps_created_copy (state : ProjectState num Data)
    (name_ description_ uuid : string) (created updated now : Z)
    (element : ProjectElement num Data) :
  (forall (updates : ProjectUpdates num Data) (id_ : string)
          (changes : ElementUpdates num Data) (doc : option PluDocument)
          (photo : string),
      projects (updateProject updates now state) = projects state /\
      projects (addElement element now state) = projects state /\
      projects (updateElement id_ changes now state) = projects state /\
      projects (removeElement id_ now state) = projects state /\
      projects (setPluDocument doc now state) = projects state /\
      projects (addSitePhoto photo now state) = projects state) /\
  (forall (tool : SelectedTool) (selected : option (ProjectElement num Data))
          (scale_ : num),
      let unchanged (state' : ProjectState num Data) :=
        projects state' = projects state /\
        currentProject state' = currentProject state in
      unchanged (setSelectedTool tool state) /\
      unchanged (setSelectedElement selected state) /\
      unchanged (setScale scale_ state) /\
      unchanged (toggleGrid state) /\ unchanged (toggleSnap state)) /\
  (let state1 := createProject name_ description_ uuid created updated state in
   let state2 := addElement element now state1 in
   exists listed : Project num Data,
     projects state2 = (projects state ++ [listed])%list /\
     id listed = uuid /\ elements listed = [] /\
     option_map elements (currentProject state2) = Some [element] /\
     option_map elements (currentProject (setCurrentProject listed state2)) = Some []).
Proof.
  split; [repeat split|]. split; [repeat split|].
  cbv zeta. eexists. cbn. repeat split.
Qed.

End Store.

(** ** More on formatting and zooming *)

Section FormattingEdges.

Import EditorPage.

Local Open Scope Q_scope.

Lemma Qfloor_between (z : Z) (x : Q) :
  inject_Z z <= x -> x < inject_Z (z + 1) -> Qfloor x = z.
Proof.
  intros Hlo Hhi.
  pose proof (Qfloor_le x) as Hf1. pose proof (Qlt_floor x) as Hf2.
  assert (H1 : (Qfloor x < z + 1)%Z).
  { rewrite Zlt_Qlt. eapply Qle_lt_trans; eassumption. }
  assert (H2 : (z < Qfloor x + 1)%Z).
  { rewrite Zlt_Qlt. eapply Qle_lt_trans; eassumption. }
  lia.
Qed.

(** X5: a length from 99.5 cm up to one meter is shown as ["100 cm"]: it
    is below the limit for meters and rounds to a hundred centimeters. *)
Theorem formatMeasurement_just_below_one_meter (m : Q) :
  995 # 1000 <= m -> m < 1 -> formatMeasurement m = "100 cm".
Proof.
  intros Hlo Hhi. unfold formatMeasurement.
  change (js_lt m (lit 1)) with (Qltb m 1).
  change (js_mul m (lit 100)) with (m * 100).
  apply Qltb_lt in Hhi. rewrite Hhi. apply Qltb_lt in Hhi.
  assert (Hpos : Qabs (m * 100) == m * 100) by (apply Qabs_pos; lra).
  assert (Hrange : Qabs (m * 100) < inject_Z (10 ^ 21)).
  { rewrite Hpos. change (inject_Z (10 ^ 21)) with (1000000000000000000000 # 1). lra. }
  rewrite (toFixed_Q_fixed _ 0 Hrange).
  assert (Hsign : Qltb (m * 100) 0 = false) by (apply Qltb_ge; lra).
  rewrite Hsign.
  assert (Hn : nearest_scaled (Qabs (m * 100)) 0 = 100%Z).
  { unfold nearest_scaled. change (inject_Z (10 ^ Z.of_nat 0)) with 1.
    apply Qfloor_between.
    - rewrite Hpos. change (inject_Z 100) with 100. lra.
    - rewrite Hpos. change (inject_Z (100 + 1)) with 101. lra. }
  rewrite Hn. reflexivity.
Qed.

(** X6: whatever the zoom and the step, the zoom that [handleZoom] sets
    lies between 25 and 400 percent, and it is the sum when the sum lies
    in that range. *)
Theorem handleZoom_stays_in_range (zoom delta : Q) :
  25 <= handleZoom zoom delta /\ handleZoom zoom delta <= 400 /\
  (25 <= zoom + delta <= 400 -> handleZoom zoom delta == zoom + delta).
Proof.
  unfold handleZoom, Math_max.
  change (@js_neg Q _) with Qopp. change (@Math_min Q _) with Qmin.
  change (@js_add Q _) with Qplus.
  change (lit 25) with 25. change (lit 400) with 400.
  set (sum := zoom + delta).
  destruct (Q.min_spec 400 sum) as [[Hsum Hinner]|[Hsum Hinner]];
    destruct (Q.min_spec (- (25)) (- Qmin 400 sum)) as [[Hcase Houter]|[Hcase Houter]];
    rewrite Houter; rewrite Hinner in *; repeat split; intros; lra.
Qed.

End FormattingEdges.

(** ** More on annotation sets *)

Section AnnotationSets.

Import EditorPage.

Context {num : Type} `{JSNumber num} `{JSMath num}.

Local Open Scope js_scope.

Lemma polygon_edge_shapes_length (scale : Scale num) (points : list (Point num))
    (matrix : Matrix num) (indices : list nat) :
  length (flat_map (polygon_edge_shapes scale points matrix) indices)
  = (6 * length indices)%nat.
Proof.
  induction indices as [|i rest IH]; [reflexivity|].
  cbn [flat_map]. rewrite length_app, IH. cbn [length polygon_edge_shapes dimension_shapes].
  lia.
Qed.

Lemma length_of_shapes (els : list (FabricObject num)) (shapes : list (Shape num)) :
  map shape els = shapes -> length els = length shapes.
Proof. intros <-. now rewrite length_map. Qed.

(** X7: with a canvas, the annotation set that is created, added to the
    canvas and stored under the shape's id has 12 primitives for a
    rectangle (its bottom and its right edge), 6 for a line, 2 for a circle
    and 6 for each edge of a polygon of two or more vertices. *)
Theorem annotation_set_sizes (key : string) (st : Editor num)
    (c : list (FabricObject num)) :
  canvas st = Some c ->
  (forall rect, exists els,
      measured st (exec (addRectMeasurements rect key) st) key els /\
      length els = 12%nat) /\
  (forall line, exists els,
      measured st (exec (addLineMeasurement line key) st) key els /\
      length els = 6%nat) /\
  (forall circle, exists els,
      measured st (exec (addCircleMeasurements circle key) st) key els /\
      length els = 2%nat) /\
  (forall polygon points,
      points_of polygon = Some points -> (2 <= length points)%nat ->
      exists els,
        measured st (exec (addPolygonMeasurements polygon key) st) key els /\
        length els = (6 * length points)%nat).
Proof.
  intros Hc. assert (Hsome : canvas st <> None) by congruence.
  repeat split.
  - intros rect. destruct (addRectMeasurements_run rect key st) as (els & Hm & _ & Hs).
    exists els. split; [exact Hm|].
    rewrite (length_of_shapes els _ (Hs Hsome)). reflexivity.
  - intros line. destruct (addLineMeasurement_run line key st) as (els & Hm & _ & Hs).
    exists els. split; [exact Hm|].
    rewrite (length_of_shapes els _ (Hs Hsome)).
    unfold line_shapes. destruct (coords_of line) as [[[a b] c0] d]. reflexivity.
  - intros circle.
    destruct (addCircleMeasurements_run circle key st c Hc) as (els & Hm & _ & Hs).
    exists els. split; [exact Hm|].
    rewrite (length_of_shapes els _ Hs). reflexivity.
  - intros polygon points Hpoints Hlen.
    destruct (addPolygonMeasurements_run polygon points key st Hpoints Hlen)
      as (els & Hm & _ & Hs).
    exists els. split; [exact Hm|].
    rewrite (length_of_shapes els _ (Hs Hsome)).
    now rewrite polygon_edge_shapes_length, length_seq.
Qed.

(** X8: without a canvas nothing is drawn, yet the annotation functions
    for a rectangle, a line and a polygon of two or more vertices still
    store a set under the id, the empty one, replacing any set stored
    there; only the one for a circle returns before it stores anything. *)
Theorem annotation_sets_without_canvas (key : string) (st : Editor num) :
  canvas st = None ->
  let emptied := set_measurementLabels (<[key := []]> (measurementLabels st)) st in
  (forall rect, exec (addRectMeasurements rect key) st = emptied) /\
  (forall line, exec (addLineMeasurement line key) st = emptied) /\
  (forall polygon points,
      points_of polygon = Some points -> (2 <= length points)%nat ->
      exec (addPolygonMeasurements polygon key) st = emptied) /\
  (forall circle, exec (addCircleMeasurements circle key) st = st).
Proof.
  intros Hc emptied.
  assert (Hdim : forall x1 y1 x2 y2 parent offset color (s : Editor num),
             canvas s = None ->
             createDimensionLine x1 y1 x2 y2 parent offset color s = ([], s)).
  { intros. now apply createDimensionLine_no_canvas. }
  repeat split.
  - intros rect. unfold addRectMeasurements, exec, bind.
    rewrite Hdim by exact Hc. rewrite Hdim by exact Hc. reflexivity.
  - intros line. unfold addLineMeasurement.
    destruct (coords_of line) as [[[a b] c0] d].
    unfold exec, bind. rewrite Hdim by exact Hc. reflexivity.
  - intros polygon points Hpoints Hlen.
    unfold addPolygonMeasurements. rewrite Hpoints.
    apply Nat.ltb_ge in Hlen. rewrite Hlen.
    assert (Hloop : forall indices,
               polygon_edges points (transformMatrix polygon) key indices st = ([], st)).
    { induction indices as [|i rest IH]; [reflexivity|].
      cbn [polygon_edges]. unfold bind. rewrite Hdim by exact Hc. now rewrite IH. }
    unfold exec, bind. rewrite Hloop. reflexivity.
  - intros circle. unfold exec. now rewrite addCircleMeasurements_no_canvas.
Qed.

(** X9: [removeMeasurements] for an id that has no stored set changes
    nothing, and so does a second call for the same id: removing is
    idempotent. *)
Theorem removeMeasurements_idempotent (key : string) (st : Editor num) :
  (measurementLabels st !! key = None -> exec (removeMeasurements key) st = st) /\
  exec (removeMeasurements key) (exec (removeMeasurements key) st)
  = exec (removeMeasurements key) st.
Proof.
  assert (Hnone : forall s : Editor num,
             measurementLabels s !! key = None -> exec (removeMeasurements key) s = s).
  { intros s Hmiss. unfold exec, removeMeasurements, bind, get.
    destruct (canvas s); [|reflexivity]. now rewrite Hmiss. }
  split; [apply Hnone|].
  destruct (canvas st) as [c|] eqn:Hc.
  - apply Hnone.
    destruct (removeMeasurements_run key st c Hc) as (_ & Hl & _).
    rewrite Hl. apply lookup_delete_eq.
  - assert (Hsame : exec (removeMeasurements key) st = st).
    { unfold exec, removeMeasurements, bind, get. now rewrite Hc. }
    now rewrite !Hsame.
Qed.

End AnnotationSets.

(** ** Updating twice *)

Section Regeneration.

Import EditorPage.

Context {num : Type} `{JSNumber num} `{JSMath num}.

Local Open Scope js_scope.

Lemma without_app (gone c1 c2 : list (FabricObject num)) :
  without gone (c1 ++ c2) = (without gone c1 ++ without gone c2)%list.
Proof. unfold without. apply List.filter_app. Qed.

Lemma without_covered (gone part : list (FabricObject num)) :
  (forall o, In o part -> In o gone) -> without gone part = [].
Proof.
  unfold without. induction part as [|o part IH]; intros Hsub; [reflexivity|].
  cbn. assert (Hex : existsb (fun g => Nat.eqb (oid o) (oid g)) gone = true).
  { apply existsb_exists. exists o. split; [apply Hsub; now left | apply Nat.eqb_refl]. }
  rewrite Hex. cbn. apply IH. intros o' Hin. apply Hsub. now right.
Qed.

Lemma without_self (gone : list (FabricObject num)) : without gone gone = [].
Proof. apply without_covered. auto. Qed.

Lemma without_disjoint (gone c : list (FabricObject num)) :
  (forall o g, In o c -> In g gone -> oid o <> oid g) -> without gone c = c.
Proof.
  intros Hdis. unfold without. induction c as [|o c IH]; [reflexivity|].
  cbn. assert (Hex : existsb (fun g => Nat.eqb (oid o) (oid g)) gone = false).
  { apply not_true_is_false. intros Hex. apply existsb_exists in Hex as (g & Hg & Heq).
    apply Nat.eqb_eq in Heq. exact (Hdis o g (or_introl eq_refl) Hg Heq). }
  rewrite Hex. cbn. f_equal. apply IH. intros o' g Hin. apply Hdis. now right.
Qed.

Lemma without_subset (gone c : list (FabricObject num)) (o : FabricObject num) :
  In o (without gone c) -> In o c.
Proof. unfold without. intros Hin. now apply filter_In in Hin. Qed.

(** What one update leaves: the canvas without the old set, then the new
    set; the new set under the key; with identities from [nextOid] on. *)
Lemma updateObjectMeasurements_run (obj : FabricObject num) (key : string)
    (st : Editor num) (c : list (FabricObject num)) :
  canvas st = Some c ->
  truthy_id (id obj) = Some key ->
  let st' := exec (updateObjectMeasurements obj) st in
  let old := default [] (measurementLabels st !! key) in
  exists new : list (FabricObject num),
    canvas st' = Some (without old c ++ new)%list /\
    measurementLabels st' !! key
    = option_map (fun _ => new) (annotation_shapes (currentScale (drawing st)) obj) /\
    default [] (measurementLabels st' !! key) = new /\
    option_map (map shape) (measurementLabels st' !! key)
    = annotation_shapes (currentScale (drawing st)) obj /\
    (forall key', key' <> key ->
                  measurementLabels st' !! key' = measurementLabels st !! key') /\
    drawing st' = drawing st /\
    nextOid st' = (nextOid st + length new)%nat /\
    map oid new = seq (nextOid st) (length new).
Proof.
  intros Hc Hid. cbv zeta.
  unfold updateObjectMeasurements. rewrite Hid, exec_bind.
  destruct (removeMeasurements_run key st c Hc) as (Hcr & Hlr & Hdr & Hnr).
  set (st_r := exec (removeMeasurements key) st) in *.
  set (old := default [] (measurementLabels st !! key)) in *.
  pose proof (regenerate_run obj key st_r (without old c) Hcr) as Hrun.
  cbv zeta in Hrun. rewrite Hdr in Hrun.
  set (st' := exec _ st_r) in *.
  destruct (annotation_shapes (currentScale (drawing st)) obj) as [shapes|].
  - destruct Hrun as (els & (Hc' & Hl' & Hd' & Hn' & Hoids) & _ & Hshapes).
    rewrite Hcr in Hc'. cbn in Hc'.
    exists els. rewrite Hl', lookup_insert_eq. cbn.
    repeat split; auto.
    + now rewrite Hshapes.
    + intros key' Hne. rewrite lookup_insert_ne, Hlr, lookup_delete_ne; auto.
    + congruence.
    + congruence.
    + congruence.
  - rewrite Hrun. exists []. rewrite Hlr, lookup_delete_eq, app_nil_r. cbn.
    repeat split; auto.
    + intros key' Hne. rewrite lookup_delete_ne; auto.
    + lia.
Qed.

(** X10: updating the annotations of a shape twice in a row shows what
    updating once shows: the second update takes every primitive of the
    first off the canvas and draws the same shapes again, so nothing piles
    up over the ticks of a movement. *)
Theorem annotations_do_not_accumulate (obj : FabricObject num) (key : string)
    (st : Editor num) (c : list (FabricObject num)) :
  canvas st = Some c ->
  truthy_id (id obj) = Some key ->
  canvas_allocated st ->
  let st1 := exec (updateObjectMeasurements obj) st in
  let st2 := exec (updateObjectMeasurements obj) st1 in
  option_map (map shape) (canvas st2) = option_map (map shape) (canvas st1) /\
  option_map (map shape) (measurementLabels st2 !! key)
  = option_map (map shape) (measurementLabels st1 !! key) /\
  (forall o, In o (default [] (measurementLabels st1 !! key)) ->
             ~ In (oid o) (map oid (default [] (canvas st2)))) /\
  (forall key', key' <> key ->
                measurementLabels st2 !! key' = measurementLabels st !! key').
Proof.
  intros Hc Hid Halloc. cbv zeta.
  destruct (updateObjectMeasurements_run obj key st c Hc Hid)
    as (new1 & Hc1 & _ & Hnew1 & Hs1 & Hf1 & Hd1 & Hn1 & Ho1).
  set (st1 := exec (updateObjectMeasurements obj) st) in *.
  set (old := default [] (measurementLabels st !! key)) in *.
  destruct (updateObjectMeasurements_run obj key st1 _ Hc1 Hid)
    as (new2 & Hc2 & _ & Hnew2 & Hs2 & Hf2 & Hd2 & Hn2 & Ho2).
  set (st2 := exec (updateObjectMeasurements obj) st1) in *.
  rewrite Hnew1 in Hc2. rewrite Hd1 in Hs2.
  assert (Hkept : without new1 (without old c ++ new1) = without old c).
  { rewrite without_app, without_self, app_nil_r.
    apply without_disjoint. intros o g Hin Hg Heq.
    apply without_subset in Hin.
    pose proof (Halloc c o Hc Hin) as Hlt.
    pose proof (fresh_identities new1 _ Ho1 g Hg) as Hge. lia. }
  rewrite Hkept in Hc2.
  assert (Hshapes : map shape new2 = map shape new1).
  { rewrite <- Hnew1, <- Hnew2.
    destruct (measurementLabels st1 !! key) as [e1|], (measurementLabels st2 !! key) as [e2|];
      cbn in *; congruence. }
  repeat split.
  - rewrite Hc2, Hc1. cbn. now rewrite !map_app, Hshapes.
  - congruence.
  - intros o Hin Hon. rewrite Hnew1 in Hin. rewrite Hc2 in Hon. cbn in Hon.
    rewrite map_app, in_app_iff in Hon. destruct Hon as [Hon|Hon].
    + apply in_map_iff in Hon as (o' & Heq & Hin').
      apply without_subset in Hin'.
      pose proof (Halloc c o' Hc Hin') as Hlt.
      pose proof (fresh_identities new1 _ Ho1 o Hin) as Hge. lia.
    + rewrite Ho2 in Hon. apply in_seq in Hon.
      apply (in_map oid) in Hin. rewrite Ho1 in Hin. apply in_seq in Hin. lia.
  - intros key' Hne. rewrite Hf2, Hf1; auto.
Qed.

End Regeneration.

(** ** More on drawing with the mouse *)

Section Gestures.

Import EditorPage.

Context {num : Type} `{JSNumber num} `{JSMath num}.

Local Open Scope js_scope.

Lemma filter_preview (c : list (FabricObject num)) (t : FabricObject num) (bound : nat) :
  (forall o, In o c -> (oid o < bound)%nat) -> (bound <= oid t)%nat ->
  List.filter (fun o' => negb (Nat.eqb (oid o') (oid t))) (c ++ [t]) = c.
Proof.
  intros Hold Hnew. rewrite List.filter_app. cbn. rewrite Nat.eqb_refl. cbn.
  rewrite app_nil_r. induction c as [|o c IH]; [reflexivity|].
  cbn. assert (Hne : Nat.eqb (oid o) (oid t) = false).
  { apply Nat.eqb_neq. specialize (Hold o (or_introl eq_refl)). lia. }
  rewrite Hne. cbn. f_equal. apply IH. intros o' Hin. apply Hold. now right.
Qed.

Lemma preview_shape_tool (tool : Tool) (start p q : Point num) (s : Shape num) :
  preview_shape tool start p = Some s -> exists s', preview_shape tool start q = Some s'.
Proof. destruct tool; cbn; intros Hs; try discriminate; eexists; reflexivity. Qed.

(** One move of the pointer during a drag. *)
Lemma handleMouseMove_step (c : list (FabricObject num)) (bound : nat) (tool : Tool)
    (start pointer : Point num) (s : Shape num) (st : Editor num) :
  dragging c bound tool start st ->
  (forall o, In o c -> (oid o < bound)%nat) ->
  preview_shape tool start pointer = Some s ->
  let st' := exec (handleMouseMove pointer) st in
  dragging c bound tool start st' /\
  (exists preview, tempShape (drawing st') = Some preview /\ shape preview = s /\
                   selectable preview = false /\ id preview = None) /\
  measurementLabels st' = measurementLabels st /\
  mousePos (drawing st') = pointer.
Proof.
  intros (Hc & Hdraw & Hstart & Htool & Hbound & Htemp) Hold Hs st'.
  assert (Hst' : st' = exec (handleMouseMove pointer) st) by reflexivity.
  clearbody st'. unfold handleMouseMove in Hst'.
  rewrite exec_get, Hc in Hst'. cbv beta iota zeta in Hst'.
  rewrite Hdraw, Hstart, Htool in Hst'.
  destruct tool; cbn in Hs; try discriminate; injection Hs as <-;
    (destruct (tempShape (drawing st)) as [t|] eqn:Ht;
     [specialize (Htemp t eq_refl) | clear Htemp];
     cbn [option_list] in Hc; try rewrite app_nil_r in Hc;
     run_editor_in Hst'; rewrite Hc in Hst'; cbn in Hst';
     try rewrite (filter_preview c t bound Hold Htemp) in Hst';
     subst st'; unfold dragging; cbn; rewrite ?Htool;
     (split; [repeat split; auto; try lia; intros t' [= <-]; cbn; lia|]);
     (split; [eexists; repeat split|]); auto).
Qed.

(** X11: during a drag with a drawing tool the canvas holds exactly one
    preview, whatever the number of pointer moves: each move takes the
    previous preview off the canvas and adds the preview for the new
    pointer position after the objects that were there before the drag;
    the stored annotation sets are not touched. *)
Theorem one_preview_while_dragging (moves : list (Point num)) (last : Point num)
    (start : Point num) (s : Shape num) (st : Editor num) (c : list (FabricObject num)) :
  canvas st = Some c ->
  canvas_allocated st ->
  isDrawing (drawing st) = true ->
  drawingStart (drawing st) = Some start ->
  tempShape (drawing st) = None ->
  preview_shape (activeTool (drawing st)) start last = Some s ->
  let st' := exec (forEach (moves ++ [last]) handleMouseMove) st in
  exists preview : FabricObject num,
    canvas st' = Some (c ++ [preview])%list /\
    tempShape (drawing st') = Some preview /\
    shape preview = s /\
    measurementLabels st' = measurementLabels st.
Proof.
  intros Hc Halloc Hdraw Hstart Htemp Hs.
  remember (activeTool (drawing st)) as tool eqn:Htool.
  remember (nextOid st) as bound eqn:Hbound.
  assert (Hold : forall o, In o c -> (oid o < bound)%nat)
    by (intros o Hin; subst bound; exact (Halloc c o Hc Hin)).
  assert (Hinit : dragging c bound tool start st).
  { unfold dragging. rewrite Htemp. cbn. rewrite app_nil_r.
    repeat split; auto; [lia | discriminate]. }
  assert (Hrun : forall s0 : Editor num,
             dragging c bound tool start s0 ->
             let s' := exec (forEach (moves ++ [last]) handleMouseMove) s0 in
             exists preview : FabricObject num,
               canvas s' = Some (c ++ [preview])%list /\
               tempShape (drawing s') = Some preview /\
               shape preview = s /\
               measurementLabels s' = measurementLabels s0).
  { clear st Hc Halloc Hdraw Hstart Htemp Htool Hbound Hinit.
    induction moves as [|p moves IH]; intros s0 Hdrag; cbn [app forEach]; cbv zeta.
    - rewrite exec_bind. cbn [forEach exec ret snd].
      destruct (handleMouseMove_step c _ tool start last s s0 Hdrag Hold Hs)
        as ((Hc' & _) & (preview & Ht & Hshape & _) & Hl & _).
      exists preview. rewrite Ht in Hc'. auto.
    - rewrite exec_bind.
      destruct (preview_shape_tool tool start last p s Hs) as (s' & Hs').
      destruct (handleMouseMove_step c _ tool start p s' s0 Hdrag Hold Hs')
        as (Hdrag' & _ & Hl & _).
      destruct (IH _ Hdrag') as (preview & Hc' & Ht & Hshape & Hl').
      exists preview. rewrite Hl', Hl. auto. }
  exact (Hrun st Hinit).
Qed.

(** X12: with the line tool or the measure tool, pointer-up commits the
    line whatever its length: there is no minimum size as for rectangles
    and circles, so a click without a move leaves a line of length zero
    with its six annotation primitives. *)
Theorem pointer_up_commits_every_line (pointer : Point num) (now : Z)
    (st : Editor num) (c : list (FabricObject num)) (start : Point num) :
  canvas st = Some c ->
  isDrawing (drawing st) = true ->
  drawingStart (drawing st) = Some start ->
  activeTool (drawing st) = tool_line \/ activeTool (drawing st) = tool_measure ->
  let st' := exec (handleMouseUp pointer now) st in
  let shapeId := "shape-" +++ integer_toString now in
  let kept := without (option_list (tempShape (drawing st))) c in
  exists (line : FabricObject num) (els : list (FabricObject num)),
    shape line = Line (px start) (py start) (px pointer) (py pointer) /\
    id line = Some shapeId /\
    canvas st' = Some (kept ++ line :: els)%list /\
    measurementLabels st' = <[shapeId := els]> (measurementLabels st) /\
    length els = 6%nat /\
    isDrawing (drawing st') = false.
Proof.
  intros Hc Hdraw Hstart Htool st' shapeId kept.
  destruct (remove_preview_run (tempShape (drawing st)) st c Hc)
    as (Hc1 & Hl1 & Hn1 & Hs1).
  fold kept in Hc1.
  assert (Hst' : st' = exec (handleMouseUp pointer now) st) by reflexivity.
  unfold handleMouseUp in Hst'.
  rewrite exec_get, Hc in Hst'. cbv beta iota zeta in Hst'.
  rewrite Hdraw, Hstart in Hst'. rewrite !exec_bind in Hst'.
  set (st1 := exec (match tempShape (drawing st) with
                    | Some t => _
                    | None => _
                    end) st) in *.
  fold shapeId in Hst'.
  match type of Hst' with
  | _ = exec _ (exec _ (exec _ ?st2)) =>
      destruct (finish_drawing_run st2) as (Hcf & Hlf & Hdf);
      rewrite <- Hst' in Hcf, Hlf, Hdf
  end.
  rewrite Hcf, Hlf, Hdf. clear Hst' Hcf Hlf Hdf.
  assert (Hcommit : forall stroke_ width_,
             exists line els,
               shape line = Line (px start) (py start) (px pointer) (py pointer) /\
               id line = Some shapeId /\
               canvas (exec (bind (new_object
                                     (Line (px start) (py start) (px pointer) (py pointer))
                                     stroke_ "" "" width_ true true)
                               (fun o => bind (canvas_add (with_id shapeId o))
                                           (fun _ => addLineMeasurement (with_id shapeId o)
                                                       shapeId))) st1)
               = Some (kept ++ line :: els)%list /\
               measurementLabels
                 (exec (bind (new_object
                                (Line (px start) (py start) (px pointer) (py pointer))
                                stroke_ "" "" width_ true true)
                          (fun o => bind (canvas_add (with_id shapeId o))
                                      (fun _ => addLineMeasurement (with_id shapeId o)
                                                  shapeId))) st1)
               = <[shapeId := els]> (measurementLabels st) /\
               length els = 6%nat).
  { intros stroke_ width_.
    destruct (commit_run (Line (px start) (py start) (px pointer) (py pointer))
                stroke_ "" width_ shapeId addLineMeasurement st1 kept Hc1)
      as (line & Hshape & Hid & _ & _ & _ & _ & Hexec).
    destruct (addLineMeasurement_run line shapeId
                (set_nextOid (S (nextOid st1))
                   (set_canvas (Some (kept ++ [line])%list) st1)))
      as (els & (Hcm & Hlm & _) & _ & Hshapes).
    exists line, els. rewrite Hexec, Hcm, Hlm. cbn.
    rewrite <- app_assoc, Hl1. repeat split; auto.
    rewrite (length_of_shapes els _ (Hshapes ltac:(discriminate))).
    unfold line_shapes. destruct (coords_of line) as [[[a b] c0] d]. reflexivity. }
  destruct Htool as [Htool|Htool]; rewrite Htool.
  - destruct (Hcommit (activeColor (drawing st)) (strokeWidthSetting (drawing st)))
      as (line & els & Hshape & Hid & Hcanvas & Hlabels & Hlen).
    exists line, els. auto 10.
  - destruct (Hcommit "#22c55e" (lit 2))
      as (line & els & Hshape & Hid & Hcanvas & Hlabels & Hlen).
    exists line, els. auto 10.
Qed.

(** X13: with the polygon or the parcel tool every click places a vertex:
    after a series of clicks the list of points is the previous one
    followed by the clicks, in order; no drag starts and the canvas and the
    stored annotation sets are not touched. *)
Theorem clicks_place_vertices (clicks : list (Point num)) (st : Editor num)
    (c : list (FabricObject num)) :
  canvas st = Some c ->
  places_vertices (activeTool (drawing st)) = true ->
  let st' := exec (forEach clicks handleMouseDown) st in
  polygonPoints (drawing st') = (polygonPoints (drawing st) ++ clicks)%list /\
  canvas st' = Some c /\
  measurementLabels st' = measurementLabels st /\
  isDrawing (drawing st') = isDrawing (drawing st) /\
  activeTool (drawing st') = activeTool (drawing st).
Proof.
  revert st. induction clicks as [|p clicks IH]; intros st Hc Htool; cbv zeta.
  - cbn. rewrite app_nil_r. auto.
  - cbn [forEach]. rewrite exec_bind.
    set (st1 := exec (handleMouseDown p) st).
    assert (H1 : canvas st1 = Some c /\
                 polygonPoints (drawing st1) = (polygonPoints (drawing st) ++ [p])%list /\
                 measurementLabels st1 = measurementLabels st /\
                 isDrawing (drawing st1) = isDrawing (drawing st) /\
                 activeTool (drawing st1) = activeTool (drawing st)).
    { unfold st1, handleMouseDown. rewrite exec_get, Hc. cbv beta iota.
      destruct (activeTool (drawing st)) eqn:Htool'; try discriminate;
        run_editor; rewrite Htool'; auto. }
    destruct H1 as (Hc1 & Hp1 & Hl1 & Hd1 & Ht1).
    destruct (IH st1 Hc1) as (Hp & Hc' & Hl & Hd & Ht); [now rewrite Ht1|].
    rewrite Hp, Hc', Hl, Hd, Ht, Hp1, Hl1, Hd1, Ht1, <- app_assoc. auto.
Qed.

(** X14: choosing a tool discards the polygon in progress: the points
    placed so far are dropped, and a double click right after it draws
    nothing. *)
Theorem tool_change_discards_polygon (tool : Tool) (now : Z) (st : Editor num) :
  let st1 := exec (handleToolSelect tool) st in
  let st2 := exec (handleDoubleClick now) st1 in
  activeTool (drawing st1) = tool /\
  polygonPoints (drawing st1) = [] /\
  currentMeasurement (drawing st1) = "" /\
  canvas st1 = canvas st /\
  measurementLabels st1 = measurementLabels st /\
  st2 = st1.
Proof.
  cbv zeta. repeat split.
  unfold exec at 1. rewrite handleDoubleClick_too_few; [reflexivity|].
  cbn. lia.
Qed.

End Gestures.

(** ** Completed polygons *)

Section CompletedPolygons.

Import EditorPage.

Context `{JSMath Q}.

Local Open Scope Q_scope.

Lemma normalized_points_return (cx cy : Q) (points : list (Point Q)) :
  Forall2 (fun v p =>
             px (transformPoint v (translation cx cy)) == px p /\
             py (transformPoint v (translation cx cy)) == py p)
    (map (fun p => {| px := js_sub (px p) cx; py := js_sub (py p) cy |}) points)
    points.
Proof.
  induction points as [|p points IH]; cbn; constructor; [|exact IH].
  cbn. change (lit 1) with 1. change (lit 0) with 0.
  change (@js_mul Q _) with Qmult. change (@js_add Q _) with Qplus.
  change (@js_sub Q _) with Qminus.
  split; ring.
Qed.

(** X15: a polygon completed by a double click has the clicked points as
    its vertices on the canvas: the vertices are stored relative to the
    centroid and the polygon is placed at the centroid, so transforming
    them back gives the points that were clicked, in order; the polygon is
    a land parcel exactly when the parcel tool drew it, and the list of
    points is emptied. *)
Theorem completed_polygon_has_clicked_vertices (now : Z) (st : Editor Q)
    (c : list (FabricObject Q)) :
  canvas st = Some c ->
  places_vertices (activeTool (drawing st)) = true ->
  (3 <= length (polygonPoints (drawing st)))%nat ->
  let st' := exec (handleDoubleClick now) st in
  exists (polygon : FabricObject Q) (vertices : list (Point Q))
         (els : list (FabricObject Q)),
    canvas st' = Some (c ++ polygon :: els)%list /\
    shape polygon = Polygon vertices /\
    Forall2 (fun v p =>
               px (transformPoint v (transformMatrix polygon)) == px p /\
               py (transformPoint v (transformMatrix polygon)) == py p)
      vertices (polygonPoints (drawing st)) /\
    isParcel polygon
    = match activeTool (drawing st) with tool_parcel => true | _ => false end /\
    length els = (6 * length (polygonPoints (drawing st)))%nat /\
    polygonPoints (drawing st') = [].
Proof.
  intros Hc Htool Hmany st'.
  assert (Hst' : st' = exec (handleDoubleClick now) st) by reflexivity.
  unfold handleDoubleClick in Hst'. rewrite exec_get, Hc in Hst'.
  cbv beta iota zeta in Hst'.
  assert (Hdraws : match activeTool (drawing st) with
                   | tool_polygon | tool_parcel => true
                   | _ => false
                   end = true) by exact Htool.
  rewrite Hdraws in Hst'. apply Nat.leb_le in Hmany. rewrite Hmany in Hst'.
  cbn [andb] in Hst'. rewrite !exec_bind in Hst'.
  set (shapeId := "parcel-" +++ integer_toString now) in *.
  set (count := lit (Z.of_nat (length (polygonPoints (drawing st))))) in *.
  set (centroidX := js_div (sum_of px (polygonPoints (drawing st))) count) in *.
  set (centroidY := js_div (sum_of py (polygonPoints (drawing st))) count) in *.
  set (vertices := map (fun p => {| px := js_sub (px p) centroidX;
                                    py := js_sub (py p) centroidY |})
                     (polygonPoints (drawing st))) in *.
  set (parcel := match activeTool (drawing st) with
                 | tool_parcel => true
                 | _ => false
                 end) in *.
  set (created := new_object (Polygon vertices) _ _ _ _ true true) in *.
  set (polygon := placed_polygon centroidX centroidY parcel
                    (with_id shapeId (eval created st))) in *.
  assert (Hpoints : points_of polygon = Some vertices) by reflexivity.
  assert (Hlen : length vertices = length (polygonPoints (drawing st)))
    by apply length_map.
  set (st1 := exec (canvas_add polygon) (exec created st)) in *.
  assert (Hc1 : canvas st1 = Some (c ++ [polygon])%list).
  { unfold st1, created. run_editor. now rewrite Hc. }
  destruct (addPolygonMeasurements_run polygon vertices shapeId st1 Hpoints)
    as (els & (Hcm & Hlm & Hdm & _) & _ & Hshapes);
    [rewrite Hlen; apply Nat.leb_le in Hmany; lia|].
  exists polygon, vertices, els.
  assert (Hcs : canvas st' = canvas (exec (addPolygonMeasurements polygon shapeId) st1))
    by (rewrite Hst'; reflexivity).
  assert (Hps : polygonPoints (drawing st') = []) by (rewrite Hst'; reflexivity).
  rewrite Hcs, Hcm, Hc1. cbn. rewrite <- app_assoc.
  repeat split; auto.
  - apply normalized_points_return.
  - rewrite (length_of_shapes els _ (Hshapes ltac:(congruence))).
    now rewrite polygon_edge_shapes_length, length_seq, Hlen.
Qed.

End CompletedPolygons.

(** ** Deleting shapes *)

Section Deleting.

Import EditorPage.

Context {num : Type} `{JSNumber num} `{JSMath num}.

Local Open Scope js_scope.

Lemma without_without (g1 g2 c : list (FabricObject num)) :
  without g2 (without g1 c) = without (g1 ++ g2) c.
Proof.
  unfold without. induction c as [|o c IH]; [reflexivity|].
  cbn. rewrite existsb_app.
  destruct (existsb (fun g => Nat.eqb (oid o) (oid g)) g1); cbn; [exact IH|].
  destruct (existsb (fun g => Nat.eqb (oid o) (oid g)) g2); cbn;
    [exact IH | f_equal; exact IH].
Qed.

(** One turn of the loop of [handleDelete]. *)
Lemma delete_one (obj : FabricObject num) (st : Editor num)
    (c : list (FabricObject num)) :
  canvas st = Some c ->
  let st' :=
    exec (bind (match truthy_id (id obj) with
                | Some key => removeMeasurements key
                | None => ret tt
                end) (fun _ => canvas_remove obj)) st in
  canvas st' = Some (without (stored_set (measurementLabels st) obj ++ [obj]) c) /\
  measurementLabels st'
  = match truthy_id (id obj) with
    | Some key => delete key (measurementLabels st)
    | None => measurementLabels st
    end /\
  drawing st' = drawing st /\ nextOid st' = nextOid st.
Proof.
  intros Hc. cbv zeta. rewrite exec_bind. unfold stored_set.
  destruct (truthy_id (id obj)) as [key|].
  - destruct (removeMeasurements_run key st c Hc) as (Hc1 & Hl1 & Hd1 & Hn1).
    set (st1 := exec (removeMeasurements key) st) in *.
    unfold canvas_remove. run_editor. rewrite Hc1, Hl1, Hd1, Hn1. cbn.
    now rewrite without_one, without_without.
  - unfold canvas_remove. run_editor. rewrite Hc. cbn.
    now rewrite without_one.
Qed.

Lemma stored_set_delete (labels : gmap string (list (FabricObject num)))
    (key : string) (obj : FabricObject num) :
  stored_set (delete key labels) obj
  = if decide (truthy_id (id obj) = Some key) then [] else stored_set labels obj.
Proof.
  unfold stored_set. destruct (truthy_id (id obj)) as [k|].
  - destruct (decide (Some k = Some key)) as [[= ->]|Hne].
    + now rewrite lookup_delete_eq.
    + rewrite lookup_delete_ne; [reflexivity | congruence].
  - now destruct (decide (None = Some key)).
Qed.

(** The loop of [handleDelete]. *)
Lemma delete_all (active : list (FabricObject num)) :
  forall (st : Editor num) (c : list (FabricObject num)),
    canvas st = Some c ->
    let st' :=
      exec (forEach active (fun obj =>
              bind (match truthy_id (id obj) with
                    | Some key => removeMeasurements key
                    | None => ret tt
                    end) (fun _ => canvas_remove obj))) st in
    exists gone : list (FabricObject num),
      canvas st' = Some (without gone c) /\
      (forall g, In g gone <->
                 In g active \/
                 exists obj, In obj active /\ In g (stored_set (measurementLabels st) obj)) /\
      (forall obj key, In obj active -> truthy_id (id obj) = Some key ->
                       measurementLabels st' !! key = None) /\
      (forall key, (forall obj, In obj active -> truthy_id (id obj) <> Some key) ->
                   measurementLabels st' !! key = measurementLabels st !! key) /\
      drawing st' = drawing st /\ nextOid st' = nextOid st.
Proof.
  induction active as [|obj rest IH]; intros st c Hc; cbv zeta.
  - exists []. cbn. rewrite without_nil.
    split; [exact Hc|]. split; [|split; [|auto]].
    + intros g. split; [intros [] | intros [[]|(obj & [] & _)]].
    + intros obj key [].
  - cbn [forEach]. rewrite exec_bind.
    destruct (delete_one obj st c Hc) as (Hc1 & Hl1 & Hd1 & Hn1).
    set (st1 := exec (bind _ (fun _ => canvas_remove obj)) st) in *.
    destruct (IH st1 _ Hc1) as (gone & Hcanvas & Hgone & Hkeys & Hother & Hd & Hn).
    set (st' := exec (forEach rest _) st1) in *.
    exists ((stored_set (measurementLabels st) obj ++ [obj]) ++ gone)%list.
    split; [now rewrite Hcanvas, without_without|].
    assert (Hsub : forall o g, In g (stored_set (measurementLabels st1) o) ->
                               In g (stored_set (measurementLabels st) o)).
    { intros o g. rewrite Hl1. destruct (truthy_id (id obj)) as [key|]; [|auto].
      rewrite stored_set_delete. destruct (decide _); [intros [] | auto]. }
    split; [|split; [|split; [|split]]].
    + intros g. rewrite !in_app_iff, Hgone. cbn. split.
      * intros [[Hin|[<-|[]]]|[Hin|(o & Ho & Hin)]].
        -- right. exists obj. auto.
        -- left. auto.
        -- left. auto.
        -- right. exists o. split; [auto | now apply Hsub].
      * intros [[<-|Hin]|(o & [<-|Ho] & Hin)].
        -- left. right. now left.
        -- right. left. exact Hin.
        -- left. left. exact Hin.
        -- destruct (decide (truthy_id (id o) = truthy_id (id obj))) as [Heq|Hne].
           ++ left. left. unfold stored_set in *. now rewrite <- Heq.
           ++ right. right. exists o. split; [exact Ho|].
              rewrite Hl1. destruct (truthy_id (id obj)) as [key|]; [|exact Hin].
              rewrite stored_set_delete. destruct (decide _); [congruence | exact Hin].
    + intros o key [<-|Ho] Hkey.
      * destruct (existsb (fun o' => bool_decide (truthy_id (id o') = Some key)) rest)
          eqn:Hex.
        -- apply existsb_exists in Hex as (o' & Ho' & Hk').
           apply bool_decide_eq_true in Hk'. exact (Hkeys o' key Ho' Hk').
        -- rewrite Hother, Hl1, Hkey; [apply lookup_delete_eq|].
           intros o' Ho' Hk'.
           assert (Hyes : existsb (fun o' => bool_decide (truthy_id (id o') = Some key))
                            rest = true).
           { apply existsb_exists. exists o'. split; [exact Ho'|].
             now apply bool_decide_eq_true. }
           congruence.
      * exact (Hkeys o key Ho Hkey).
    + intros key Hnone. rewrite Hother, Hl1.
      * destruct (truthy_id (id obj)) as [k|] eqn:Hk; [|reflexivity].
        apply lookup_delete_ne. intros ->. exact (Hnone obj (or_introl eq_refl) Hk).
      * intros o Ho. apply Hnone. now right.
    + congruence.
    + congruence.
Qed.

(** X16: [handleDelete] takes off the canvas the selected shapes and the
    annotation sets stored under their ids, and nothing else; the ids of
    the deleted shapes have no stored set afterwards, and the sets of all
    other ids are as they were. *)
Theorem handleDelete_removes_shapes_and_annotations
    (activeObjects : list (FabricObject num)) (st : Editor num)
    (c : list (FabricObject num)) :
  canvas st = Some c ->
  let st' := exec (handleDelete activeObjects) st in
  exists gone : list (FabricObject num),
    canvas st' = Some (without gone c) /\
    (forall g, In g gone <->
               In g activeObjects \/
               exists obj, In obj activeObjects /\
                           In g (stored_set (measurementLabels st) obj)) /\
    (forall obj key, In obj activeObjects -> truthy_id (id obj) = Some key ->
                     measurementLabels st' !! key = None) /\
    (forall key, (forall obj, In obj activeObjects -> truthy_id (id obj) <> Some key) ->
                 measurementLabels st' !! key = measurementLabels st !! key).
Proof.
  intros Hc st'.
  destruct (delete_all activeObjects st c Hc)
    as (gone & Hcanvas & Hgone & Hkeys & Hother & _).
  assert (Hst' : st' = exec (forEach activeObjects (fun obj =>
              bind (match truthy_id (id obj) with
                    | Some key => removeMeasurements key
                    | None => ret tt
                    end) (fun _ => canvas_remove obj))) st).
  { unfold st', handleDelete. now rewrite exec_get, Hc. }
  rewrite Hst'. exists gone. auto.
Qed.

End Deleting.

(** ** Templates *)

Section Templates.

Import EditorPage.

Context {num : Type} `{JSNumber num} `{JSMath num}.

Local Open Scope js_scope.

Lemma truthy_id_dashed (prefix rest : string) :
  truthy_id (Some (prefix +++ "-" +++ rest)) = Some (prefix +++ "-" +++ rest).
Proof. destruct prefix; reflexivity. Qed.

(** What [addTemplate] does for a template it knows. *)
Lemma addTemplate_run (templateId : string) (center : Point num) (now : Z)
    (st : Editor num) (c : list (FabricObject num)) (template : Template num) :
  canvas st = Some c ->
  List.find (fun t => String.eqb (template_id t) templateId) templates = Some template ->
  let st' := exec (addTemplate templateId center now) st in
  let shapeId := templateId +++ "-" +++ integer_toString now in
  let widthPx := metersToPixels (currentScale (drawing st)) (template_width template) in
  let heightPx := metersToPixels (currentScale (drawing st)) (template_height template) in
  exists (rect label : FabricObject num) (els : list (FabricObject num)),
    canvas st' = Some (c ++ rect :: label :: els)%list /\
    measurementLabels st' = <[shapeId := els]> (measurementLabels st) /\
    shape rect = Rect (px center - widthPx / lit 2) (py center - heightPx / lit 2)
                   widthPx heightPx /\
    id rect = Some shapeId /\ oid rect = nextOid st /\
    shape label = Text (template_label template) (px center) (py center) (lit 0) /\
    isMeasurement label = true /\ parentId label = Some shapeId /\
    oid label = S (nextOid st) /\
    map oid els = seq (S (S (nextOid st))) (length els) /\
    length els = 12%nat.
Proof.
  intros Hc Hfind st' shapeId widthPx heightPx.
  assert (Hst' : st' = exec (addTemplate templateId center now) st) by reflexivity.
  unfold addTemplate in Hst'. rewrite exec_get, Hc in Hst'.
  cbv beta iota zeta in Hst'. rewrite Hfind in Hst'.
  fold shapeId widthPx heightPx in Hst'.
  rewrite !exec_bind in Hst'.
  set (newRect := new_object (Rect _ _ widthPx heightPx) _ _ _ _ true true) in *.
  set (rect := with_id shapeId (eval newRect st)) in *.
  set (st1 := exec (canvas_add rect) (exec newRect st)) in *.
  set (newLabel := new_object (Text _ _ _ _) _ _ _ _ false false) in *.
  set (label := as_measurement shapeId (eval newLabel st1)) in *.
  set (st2 := exec (canvas_add label) (exec newLabel st1)) in *.
  assert (H2 : canvas st2 = Some (c ++ [rect; label])%list /\
               measurementLabels st2 = measurementLabels st /\
               nextOid st2 = S (S (nextOid st)) /\
               drawing st2 = drawing st).
  { unfold st2, label, newLabel, st1, rect, newRect. run_editor. rewrite Hc. cbn.
    rewrite <- app_assoc. auto. }
  destruct H2 as (Hc2 & Hl2 & Hn2 & Hd2).
  destruct (addRectMeasurements_run rect shapeId st2)
    as (els & (Hcm & Hlm & _ & _ & Hoids) & _ & Hshapes).
  rewrite <- Hst' in Hcm, Hlm.
  exists rect, label, els.
  rewrite Hcm, Hlm, Hc2, Hl2, Hoids, Hn2. cbn. rewrite <- app_assoc.
  repeat split.
  rewrite (length_of_shapes els _ (Hshapes ltac:(congruence))). reflexivity.
Qed.

(** X17: the name label of a template shape is not part of the shape's
    stored annotation set.  [addTemplate] adds the rectangle, the label and
    twelve annotation primitives and stores the twelve; deleting the
    rectangle takes the rectangle and the twelve off the canvas and leaves
    the label on it. *)
Theorem template_label_outlives_its_shape (templateId : string) (center : Point num)
    (now : Z) (st : Editor num) (c : list (FabricObject num))
    (template : Template num) :
  canvas st = Some c ->
  canvas_allocated st ->
  List.find (fun t => String.eqb (template_id t) templateId) templates = Some template ->
  let st1 := exec (addTemplate templateId center now) st in
  let shapeId := templateId +++ "-" +++ integer_toString now in
  exists (rect label : FabricObject num) (els : list (FabricObject num)),
    canvas st1 = Some (c ++ rect :: label :: els)%list /\
    measurementLabels st1 = <[shapeId := els]> (measurementLabels st) /\
    length els = 12%nat /\
    shape label = Text (template_label template) (px center) (py center) (lit 0) /\
    parentId label = Some shapeId /\
    canvas (exec (handleDelete [rect]) st1) = Some (c ++ [label])%list /\
    measurementLabels (exec (handleDelete [rect]) st1) !! shapeId = None.
Proof.
  intros Hc Halloc Hfind st1 shapeId.
  destruct (addTemplate_run templateId center now st c template Hc Hfind)
    as (rect & label & els & Hc1 & Hl1 & _ & Hid & Horect & Hlabel & _ & Hparent
        & Holabel & Hoels & Hlen).
  fold st1 shapeId in Hc1, Hl1, Hid, Hparent.
  exists rect, label, els.
  repeat split; auto.
  - assert (Hdel : exec (handleDelete [rect]) st1
                   = exec (bind (match truthy_id (id rect) with
                                 | Some key => removeMeasurements key
                                 | None => ret tt
                                 end) (fun _ => canvas_remove rect)) st1).
    { unfold handleDelete. rewrite exec_get, Hc1. cbn [forEach].
      rewrite exec_bind. reflexivity. }
    rewrite Hdel.
    destruct (delete_one rect st1 _ Hc1) as (Hcanvas & _).
    rewrite Hcanvas. f_equal.
    unfold stored_set. rewrite Hid. unfold shapeId. rewrite truthy_id_dashed.
    fold shapeId. rewrite Hl1, lookup_insert_eq. cbn [default from_option Datatypes.id].
    change (c ++ rect :: label :: els)%list with (c ++ [rect] ++ [label] ++ els)%list.
    rewrite !without_app.
    assert (Hin : forall o, In o els -> (S (S (nextOid st)) <= oid o)%nat)
      by (intros o Ho; exact (fresh_identities els _ Hoels o Ho)).
    rewrite (without_disjoint _ c), (without_covered _ [rect]),
      (without_disjoint _ [label]), (without_covered _ els); [reflexivity | | | |].
    + intros o Ho. apply in_app_iff. now left.
    + intros o g [<-|[]] Hg Heq. apply in_app_iff in Hg as [Hg|[<-|[]]].
      * specialize (Hin g Hg). lia.
      * lia.
    + intros o [<-|[]]. apply in_app_iff. right. now left.
    + intros o g Ho Hg Heq. pose proof (Halloc c o Hc Ho) as Hlt.
      apply in_app_iff in Hg as [Hg|[<-|[]]].
      * specialize (Hin g Hg). lia.
      * lia.
  - assert (Hdel : exec (handleDelete [rect]) st1
                   = exec (bind (match truthy_id (id rect) with
                                 | Some key => removeMeasurements key
                                 | None => ret tt
                                 end) (fun _ => canvas_remove rect)) st1).
    { unfold handleDelete. rewrite exec_get, Hc1. cbn [forEach].
      rewrite exec_bind. reflexivity. }
    rewrite Hdel.
    destruct (delete_one rect st1 _ Hc1) as (_ & Hlabels & _).
    rewrite Hlabels, Hid. unfold shapeId. rewrite truthy_id_dashed.
    apply lookup_delete_eq.
Qed.

End Templates.

(** ** Placing by meters *)

Section PlacingByMeters.

Import EditorPage.

Context `{JSMath Q}.

Local Open Scope Q_scope.

(** X18: a template shape is drawn to scale around the centre of the
    canvas: its rectangle is centred on the centre point and its sides,
    converted back to meters, are the template's width and height; a
    template id that is not in the list draws nothing. *)
Theorem template_is_centred_and_to_scale (templateId : string) (center : Point Q)
    (now : Z) (st : Editor Q) (c : list (FabricObject Q)) :
  canvas st = Some c ->
  ~ pixelsPerMeter (currentScale (drawing st)) == 0 ->
  let st' := exec (addTemplate templateId center now) st in
  match List.find (fun t => String.eqb (template_id t) templateId) templates with
  | None => st' = st
  | Some template =>
      exists (rect : FabricObject Q) (rest : list (FabricObject Q)) (l t w h : Q),
        canvas st' = Some (c ++ rect :: rest)%list /\
        shape rect = Rect l t w h /\
        l + w / 2 == px center /\
        t + h / 2 == py center /\
        pixelsToMeters (currentScale (drawing st)) w == template_width template /\
        pixelsToMeters (currentScale (drawing st)) h == template_height template
  end.
Proof.
  intros Hc Hscale st'.
  destruct (List.find _ templates) as [template|] eqn:Hfind.
  - destruct (addTemplate_run templateId center now st c template Hc Hfind)
      as (rect & label & els & Hc1 & _ & Hshape & _).
    exists rect, (label :: els). do 4 eexists.
    split; [exact Hc1|]. split; [exact Hshape|].
    unfold pixelsToMeters, metersToPixels.
    change (@js_mul Q _) with Qmult. change (@js_div Q _) with Qdiv.
    change (@js_sub Q _) with Qminus. change (lit 2) with 2.
    repeat split; field; exact Hscale.
  - unfold st', addTemplate. rewrite exec_get, Hc. cbv beta iota zeta.
    now rewrite Hfind.
Qed.

(** The geometry of the diameter annotation of a circle as the mouse
    draws it. *)
Lemma drawn_circle_shapes (scale : Scale Q) (circle : FabricObject Q)
    (start : Point Q) (radiusPx : Q) :
  shape circle = Circle (px start - radiusPx) (py start - radiusPx) radiusPx ->
  scaleX circle = 1 ->
  5 < radiusPx ->
  exists (x1 y1 x2 y2 diameter left top angle : Q),
    circle_shapes scale circle
    = [Line x1 y1 x2 y2;
       Text (diameter_sign +++ formatMeasurement diameter) left top angle] /\
    x1 == px start - radiusPx /\ x2 == px start + radiusPx /\
    y1 == py start /\ y2 == py start /\
    diameter == 2 * radiusPx / pixelsPerMeter scale /\
    left == px start /\ top == py start - radiusPx - 20.
Proof.
  intros Hshape Hsx Hradius.
  unfold circle_shapes, left_of, top_of, radius_of. rewrite Hshape, Hsx.
  assert (Hr : prop_or (Some radiusPx) (lit 0) = radiusPx).
  { unfold prop_or, or_else. cbn.
    destruct (Qeq_bool radiusPx 0) eqn:Hz; [|reflexivity].
    apply Qeq_bool_iff in Hz. lra. }
  assert (Hone : or_else (1 : Q) (lit 1) = 1) by reflexivity.
  assert (Hor : forall v : Q, prop_or (Some v) (lit 0) == v).
  { intros v. unfold prop_or, or_else. cbn.
    destruct (Qeq_bool v 0) eqn:Hz; [|reflexivity].
    apply Qeq_bool_iff in Hz. symmetry. exact Hz. }
  rewrite Hr, Hone.
  do 8 eexists. split; [reflexivity|].
  change (@js_mul Q _) with Qmult. change (@js_add Q _) with Qplus.
  change (@js_sub Q _) with Qminus. change (lit 20) with 20. change (lit 2) with 2.
  pose proof (Hor (px start - radiusPx)) as Hx.
  pose proof (Hor (py start - radiusPx)) as Hy.
  set (l := prop_or (Some (px start - radiusPx)) (lit 0)) in *.
  set (t := prop_or (Some (py start - radiusPx)) (lit 0)) in *.
  unfold pixelsToMeters. change (@js_div Q _) with Qdiv.
  repeat split; try (rewrite ?Hx, ?Hy; ring).
  unfold Qdiv. ring.
Qed.

(** X19: the diameter annotation of a circle drawn with the mouse runs
    through the point where the drag started: for a radius above the 5
    pixel limit the stored set is a line from [radius] left of the start
    point to [radius] right of it and, centred 20 pixels above the
    circle's top, the label of twice the radius in meters. *)
Theorem drawn_circle_diameter_through_start (circle : FabricObject Q) (key : string)
    (start : Point Q) (radiusPx : Q) (st : Editor Q) (c : list (FabricObject Q)) :
  canvas st = Some c ->
  shape circle = Circle (px start - radiusPx) (py start - radiusPx) radiusPx ->
  scaleX circle = 1 ->
  5 < radiusPx ->
  let st' := exec (addCircleMeasurements circle key) st in
  exists (line label : FabricObject Q) (x1 y1 x2 y2 diameter left top angle : Q),
    measurementLabels st' !! key = Some [line; label] /\
    canvas st' = Some (c ++ [line; label])%list /\
    shape line = Line x1 y1 x2 y2 /\
    shape label = Text (diameter_sign +++ formatMeasurement diameter) left top angle /\
    x1 == px start - radiusPx /\ x2 == px start + radiusPx /\
    y1 == py start /\ y2 == py start /\
    diameter == 2 * radiusPx / pixelsPerMeter (currentScale (drawing st)) /\
    left == px start /\ top == py start - radiusPx - 20.
Proof.
  intros Hc Hshape Hsx Hradius st'.
  destruct (addCircleMeasurements_run circle key st c Hc)
    as (els & (Hcm & Hlm & _) & _ & Hshapes).
  destruct (drawn_circle_shapes (currentScale (drawing st)) circle start radiusPx
              Hshape Hsx Hradius)
    as (x1 & y1 & x2 & y2 & diameter & left & top & angle & Hgeo & Hrest).
  rewrite Hgeo in Hshapes.
  destruct els as [|line [|label [|extra els]]]; try discriminate.
  injection Hshapes as Hline Hlabel.
  exists line, label, x1, y1, x2, y2, diameter, left, top, angle.
  fold st' in Hcm, Hlm. rewrite Hcm, Hlm, Hc, lookup_insert_eq. cbn.
  repeat split; auto; apply Hrest.
Qed.

End PlacingByMeters.

(** ** More on the canvas hook *)

Section CanvasFrame.

Import CanvasEditor.

Context {num : Type} `{JSNumber num}.

Variable snapToGrid : num -> num -> num -> num -> Point num.
Variable findAlignmentGuides : Bounds num -> list (Bounds num) -> num -> list (AlignmentGuide num).
Variable random_id : nat -> string.
Variable scale : num.

Local Open Scope js_scope.

Lemma set_position_nth (tid : nat) (l t : num) (objs : list (CanvasObject num)) (i : nat) :
  nth_error (set_position tid l t objs) i
  = option_map
      (fun o => if Nat.eqb (oid o) tid
                then {| oid := oid o; type := type o; left := l; top := t;
                        width := width o; height := height o;
                        scaleX := scaleX o; scaleY := scaleY o;
                        points := points o; id := id o; selectable := selectable o |}
                else o)
      (nth_error objs i).
Proof. unfold set_position. apply nth_error_map. Qed.

(** The objects after a tick: those before it, with the target moved. *)
Lemma object_moving_objects (e_target : option nat) (st : Hook num) :
  let st' := object_moving snapToGrid findAlignmentGuides random_id scale e_target st in
  (objects st' = objects st \/
   exists tid l t, e_target = Some tid /\ objects st' = set_position tid l t (objects st)) /\
  measurements st' = measurements st /\
  gridSettings st' = gridSettings st.
Proof.
  cbv zeta. unfold object_moving.
  destruct e_target as [tid|]; [|auto].
  destruct (find_object tid st) as [target|] eqn:Hfind; [|auto].
  destruct (snapToGrid_enabled (gridSettings st)) eqn:Hsnap;
    destruct (autoAlign (gridSettings st)) eqn:Halign; cbn -[set_position].
  - destruct (applyGuides _ _ _ _ _) as [l t]. cbn -[set_position].
    rewrite set_position_twice. split; [|auto]. right. eauto.
  - split; [|auto]. right. eauto.
  - destruct (applyGuides _ _ _ _ _) as [l t]. cbn -[set_position].
    split; [|auto]. right. eauto.
  - auto.
Qed.

(** X20: a movement tick changes nothing but the position of the object
    being moved: no object is added or removed, every other object is
    untouched, the moved object keeps its identity, size, scale factors
    and id, and the measurements and the grid settings stay; with snapping
    and alignment both switched off, or without a target, the tick changes
    nothing at all. *)
Theorem moving_tick_changes_only_the_target_position (e_target : option nat)
    (st : Hook num) :
  let st' := object_moving snapToGrid findAlignmentGuides random_id scale e_target st in
  length (objects st') = length (objects st) /\
  (forall i o, nth_error (objects st) i = Some o -> Some (oid o) <> e_target ->
               nth_error (objects st') i = Some o) /\
  (forall i o, nth_error (objects st) i = Some o ->
               exists o', nth_error (objects st') i = Some o' /\
                          oid o' = oid o /\ type o' = type o /\
                          width o' = width o /\ height o' = height o /\
                          scaleX o' = scaleX o /\ scaleY o' = scaleY o /\
                          points o' = points o /\ id o' = id o /\
                          selectable o' = selectable o) /\
  measurements st' = measurements st /\
  gridSettings st' = gridSettings st /\
  (e_target = None \/
   (snapToGrid_enabled (gridSettings st) = false /\ autoAlign (gridSettings st) = false) ->
   st' = st).
Proof.
  intros st'.
  destruct (object_moving_objects e_target st) as (Hobjs & Hm & Hg).
  fold st' in Hobjs, Hm, Hg.
  split; [|split; [|split; [|split; [exact Hm|split; [exact Hg|]]]]].
  - destruct Hobjs as [->|(tid & l & t & _ & ->)]; [reflexivity|].
    unfold set_position. apply length_map.
  - intros i o Hnth Hother.
    destruct Hobjs as [->|(tid & l & t & -> & ->)]; [exact Hnth|].
    rewrite set_position_nth, Hnth. cbn.
    destruct (Nat.eqb (oid o) tid) eqn:Heq; [|reflexivity].
    apply Nat.eqb_eq in Heq. congruence.
  - intros i o Hnth.
    destruct Hobjs as [->|(tid & l & t & _ & ->)].
    + exists o. repeat split; auto.
    + rewrite set_position_nth, Hnth. cbn.
      destruct (Nat.eqb (oid o) tid); eexists; repeat split.
  - intros [->|[Hsnap Halign]]; [reflexivity|].
    unfold st', object_moving.
    destruct e_target as [tid|]; [|reflexivity].
    destruct (find_object tid st); [|reflexivity].
    now rewrite Hsnap, Halign.
Qed.

End CanvasFrame.

Section TemplateAreas.

Import CanvasEditor.

Variable calculatePolygonArea : list (Point Q) -> Q.
Variable calculateDistance : Point Q -> Point Q -> Q.
Variable snapToGrid : Q -> Q -> Q -> Q -> Point Q.
Variable scale : Q.
Variable ShapeTemplate : Type.
Variable template_id : ShapeTemplate -> string.
Variable template_name : ShapeTemplate -> string.
Variable template_category : ShapeTemplate -> ProjectStore.ElementType.
Variable defaultWidth : ShapeTemplate -> Q.
Variable defaultHeight : ShapeTemplate -> Q.

Local Open Scope Q_scope.

(** X21: for a shape added from a template, the area recorded with the
    project element is the template's width times its height, in square
    meters, while [updateMeasurements] reports a hundredth of that for the
    rectangle it drew, and a tenth of its perimeter in meters. *)
Theorem template_area_and_reported_area (canvasWidth canvasHeight : Q)
    (tpl : ShapeTemplate) (fresh : nat) (uuid : string) (now : Z)
    (st : Hook Q) (state : ProjectStore.ProjectState Q ElementData)
    (p : ProjectStore.Project Q ElementData) :
  ~ scale == 0 ->
  ProjectStore.currentProject state = Some p ->
  let result :=
    addFromTemplate snapToGrid scale ShapeTemplate template_id template_name
      template_category defaultWidth defaultHeight
      canvasWidth canvasHeight tpl fresh uuid now st state in
  exists (rect : CanvasObject Q) (element : ProjectStore.ProjectElement Q ElementData),
    objects (fst result) = (objects st ++ [rect])%list /\
    option_map ProjectStore.elements (ProjectStore.currentProject (snd result))
    = Some (ProjectStore.elements p ++ [element])%list /\
    id rect = Some uuid /\ ProjectStore.el_id element = uuid /\
    ProjectStore.area (ProjectStore.el_measurements element)
    = Some (defaultWidth tpl * defaultHeight tpl) /\
    area (updateMeasurements calculatePolygonArea calculateDistance scale rect)
    == defaultWidth tpl * defaultHeight tpl / 100 /\
    perimeter (updateMeasurements calculatePolygonArea calculateDistance scale rect)
    == 2 * (defaultWidth tpl + defaultHeight tpl) / 10.
Proof.
  intros Hscale Hp result.
  unfold result, addFromTemplate.
  destruct (if snapToGrid_enabled (gridSettings st) then _ else _) as [left1 top1].
  cbn [fst snd]. unfold ProjectStore.addElement. rewrite Hp.
  do 2 eexists. cbn -[updateMeasurements].
  split; [reflexivity|]. split; [reflexivity|].
  split; [reflexivity|]. split; [reflexivity|]. split; [reflexivity|].
  match goal with
  | |- context [updateMeasurements _ _ _ ?r] =>
      destruct (updateMeasurements_rectangle calculatePolygonArea calculateDistance
                  scale r eq_refl Hscale) as [Harea Hperimeter];
        [cbn; discriminate | cbn; discriminate |]
  end.
  rewrite Harea, Hperimeter. cbn [width height scaleX scaleY].
  change (@BASE_PIXELS_PER_METER Q _) with 10.
  change (@js_mul Q _) with Qmult. change (lit 1) with 1.
  split; field; auto.
Qed.

(** X22: while no project is open, a rectangle or a template shape is
    drawn on the canvas all the same, but no element is recorded for it:
    the store is exactly as before. *)
Theorem shapes_without_project_are_not_recorded (canvasWidth canvasHeight : Q)
    (tpl : ShapeTemplate) (fresh : nat) (uuid : string) (now : Z)
    (st : Hook Q) (state : ProjectStore.ProjectState Q ElementData) :
  ProjectStore.currentProject state = None ->
  let drawn := addRectangle fresh uuid now st state in
  let placed :=
    addFromTemplate snapToGrid scale ShapeTemplate template_id template_name
      template_category defaultWidth defaultHeight
      canvasWidth canvasHeight tpl fresh uuid now st state in
  snd drawn = state /\ snd placed = state /\
  length (objects (fst drawn)) = S (length (objects st)) /\
  length (objects (fst placed)) = S (length (objects st)).
Proof.
  intros Hnone. cbv zeta. unfold addRectangle, addFromTemplate.
  destruct (if snapToGrid_enabled (gridSettings st) then _ else _) as [left1 top1].
  cbn [fst snd objects set_objects]. unfold ProjectStore.addElement.
  rewrite Hnone, <- Hnone, with_currentProject_same, !length_app. cbn.
  repeat split; lia.
Qed.

End TemplateAreas.

(** ** The preview of a polygon in progress *)

Section PolygonPreview.

Import EditorPage.

Context {num : Type} `{JSNumber num} `{JSMath num}.

Local Open Scope js_scope.

Lemma preview_point_appended (d : Drawing num) (prev : option (Point num))
    (point : Point num) (st : Editor num) :
  let els := eval (preview_point d prev point) st in
  appended st (exec (preview_point d prev point) st) els /\
  length els = match prev with Some _ => 3%nat | None => 1%nat end.
Proof.
  cbv zeta. unfold preview_point. destruct prev as [prevPoint|].
  - run_editor. repeat split; auto.
    + destruct (canvas st); cbn; [now rewrite <- !app_assoc | reflexivity].
    + cbn. lia.
  - run_editor. repeat split; auto.
    cbn. lia.
Qed.

Lemma preview_points_appended (d : Drawing num) (points : list (Point num)) :
  forall (prev : option (Point num)) (st : Editor num),
    let els := eval (preview_points d prev points) st in
    appended st (exec (preview_points d prev points) st) els /\
    (length els + match prev, points with
                  | None, _ :: _ => 2
                  | _, _ => 0
                  end = 3 * length points)%nat.
Proof.
  induction points as [|point rest IH]; intros prev st; cbv zeta.
  - cbn [preview_points eval exec ret fst snd].
    split; [apply appended_refl | now destruct prev].
  - cbn [preview_points]. rewrite !exec_bind, !eval_bind.
    destruct (preview_point_appended d prev point st) as (Happ1 & Hlen1).
    destruct (IH (Some point) (exec (preview_point d prev point) st)) as (Happ2 & Hlen2).
    cbn [eval exec ret fst snd].
    split; [exact (appended_trans _ _ _ _ _ Happ1 Happ2)|].
    rewrite length_app, Hlen1. cbn [length] in *. destruct prev; lia.
Qed.

Lemma without_flagged (previews : gset nat) (c : list (FabricObject num)) :
  without (List.filter (fun obj => bool_decide (oid obj ∈ previews)) c) c
  = List.filter (fun obj => negb (bool_decide (oid obj ∈ previews))) c.
Proof.
  unfold without. apply filter_ext_in. intros o Hin. f_equal.
  destruct (bool_decide (oid o ∈ previews)) eqn:Hflag.
  - apply existsb_exists. exists o. split; [|apply Nat.eqb_refl].
    apply filter_In. auto.
  - apply not_true_is_false. intros Hex.
    apply existsb_exists in Hex as (g & Hg & Heq).
    apply filter_In in Hg as [_ Hg]. apply Nat.eqb_eq in Heq.
    rewrite Heq in Hflag. congruence.
Qed.

Lemma flagged_after (previews : gset nat) (bound : nat)
    (kept new : list (FabricObject num)) :
  (forall o, In o kept -> (oid o ∉ previews) /\ (oid o < bound)%nat) ->
  map oid new = seq bound (length new) ->
  List.filter (fun o => bool_decide (oid o ∈ previews ∪ list_to_set (map oid new)))
    (kept ++ new)
  = new.
Proof.
  intros Hkept Hnew. rewrite List.filter_app.
  assert (Hnone : List.filter
                    (fun o => bool_decide (oid o ∈ previews ∪ list_to_set (map oid new)))
                    kept = []).
  { clear -Hkept Hnew. induction kept as [|o kept IH]; [reflexivity|].
    cbn. destruct (Hkept o (or_introl eq_refl)) as [Hout Hlt].
    rewrite bool_decide_eq_false_2.
    - apply IH. intros o' Hin. apply Hkept. now right.
    - rewrite elem_of_union, elem_of_list_to_set, list_elem_of_In, Hnew, in_seq.
      intros [Hin|Hin]; [contradiction | lia]. }
  assert (Hall : List.filter
                   (fun o => bool_decide (oid o ∈ previews ∪ list_to_set (map oid new)))
                   new = new).
  { clear Hnew Hnone.
    assert (Hgen : forall part, (forall o, In o part -> In o new) ->
               List.filter
                 (fun o => bool_decide (oid o ∈ previews ∪ list_to_set (map oid new)))
                 part = part).
    { induction part as [|o part IH]; intros Hsub; [reflexivity|].
      cbn. rewrite bool_decide_eq_true_2.
      - f_equal. apply IH. intros o' Hin. apply Hsub. now right.
      - rewrite elem_of_union, elem_of_list_to_set, list_elem_of_In. right.
        apply in_map. apply Hsub. now left. }
    apply Hgen. auto. }
  now rewrite Hnone, Hall.
Qed.

(** X23: the preview of a polygon in progress is redrawn from scratch
    each time: the effect takes every object marked as preview off the
    canvas, leaves the other objects as they are and, with the polygon or
    the parcel tool and [n > 0] points placed, adds [3 n - 1] new preview
    objects (a marker for each point, a segment and its label for each pair
    of consecutive points, and the line to the mouse); otherwise it adds
    none.  The preview objects on the canvas afterwards are exactly the new
    ones, so previews never pile up. *)
Theorem polygon_preview_is_redrawn (previews : gset nat) (st : Editor num)
    (c : list (FabricObject num)) :
  canvas st = Some c ->
  canvas_allocated st ->
  (forall i, i ∈ previews -> (i < nextOid st)%nat) ->
  let st' := exec (polygonPreviewEffect previews) st in
  let previews' := eval (polygonPreviewEffect previews) st in
  let n := length (polygonPoints (drawing st)) in
  exists new : list (FabricObject num),
    canvas st'
    = Some (List.filter (fun o => negb (bool_decide (oid o ∈ previews))) c ++ new)%list /\
    List.filter (fun o => bool_decide (oid o ∈ previews')) (default [] (canvas st')) = new /\
    length new
    = (if places_vertices (activeTool (drawing st)) && (0 <? n)%nat
       then 3 * n - 1 else 0)%nat /\
    measurementLabels st' = measurementLabels st /\
    polygonPoints (drawing st') = polygonPoints (drawing st).
Proof.
  intros Hc Halloc Hflags st' previews' n.
  set (kept := List.filter (fun o => negb (bool_decide (oid o ∈ previews))) c).
  assert (Hkept : forall o, In o kept -> (oid o ∉ previews) /\ (oid o < nextOid st)%nat).
  { intros o Hin. apply filter_In in Hin as [Hin Hflag].
    split; [|exact (Halloc c o Hc Hin)].
    apply negb_true_iff, bool_decide_eq_false in Hflag. exact Hflag. }
  assert (Hrun : polygonPreviewEffect previews st
                 = (let d := drawing st in
                    let st_r := set_canvas (Some kept) st in
                    if places_vertices (activeTool d) && (0 <? n)%nat then
                      bind (preview_points d None (polygonPoints d))
                        (fun drawn =>
                           match last (polygonPoints d) with
                           | Some lastPoint =>
                               bind (new_object
                                       (Line (px lastPoint) (py lastPoint)
                                          (px (mousePos d)) (py (mousePos d)))
                                       (match activeTool d with
                                        | tool_parcel => "#22c55e"
                                        | _ => activeColor d
                                        end) "" "" (lit 1) false false)
                                 (fun line =>
                                    bind (canvas_add line)
                                      (fun _ =>
                                         bind (setState
                                                 (set_currentMeasurement
                                                    (formatMeasurement
                                                       (calculateDistance (currentScale d)
                                                          (px lastPoint) (py lastPoint)
                                                          (px (mousePos d))
                                                          (py (mousePos d))))))
                                           (fun _ =>
                                              ret (previews
                                                   ∪ list_to_set
                                                       (map oid (drawn ++ [line])%list)))))
                           | None => ret (previews ∪ list_to_set (map oid drawn))
                           end) st_r
                    else (previews, st_r))).
  { unfold polygonPreviewEffect. unfold bind at 1. unfold get at 1. rewrite Hc.
    cbv beta iota zeta. unfold bind at 1. rewrite forEach_canvas_remove, Hc.
    cbn [option_map]. rewrite without_flagged. fold kept.
    unfold places_vertices. fold n.
    destruct (_ && _); reflexivity. }
  unfold st', previews', exec, eval. rewrite Hrun. cbv zeta.
  destruct (places_vertices (activeTool (drawing st)) && (0 <? n)%nat) eqn:Hactive.
  - apply andb_true_iff in Hactive as [_ Hn]. apply Nat.ltb_lt in Hn.
    set (st_r := set_canvas (Some kept) st).
    pose proof (preview_points_appended (drawing st) (polygonPoints (drawing st)) None st_r)
      as Hpoints.
    cbv zeta in Hpoints. unfold eval, exec in Hpoints. fold n in Hpoints.
    destruct (preview_points (drawing st) None (polygonPoints (drawing st)) st_r)
      as [drawn st1] eqn:Hsplit.
    cbn [fst snd] in Hpoints.
    destruct Hpoints as ((Hc1 & Hl1 & Hd1 & Hn1 & Ho1) & Hlen1).
    unfold bind. rewrite Hsplit.
    destruct (last (polygonPoints (drawing st))) as [lastPoint|] eqn:Hlast.
    + run_editor. rewrite Hc1, Hl1, Hd1, Hn1. cbn.
      eexists. split; [now rewrite <- app_assoc|].
      split; [|split; [|auto]].
      * rewrite <- app_assoc.
        apply (flagged_after previews (nextOid st) kept); [exact Hkept|].
        rewrite map_app, length_app, seq_app, Ho1. cbn. reflexivity.
      * rewrite length_app. cbn.
        destruct (polygonPoints (drawing st)); cbn in *; lia.
    + destruct (polygonPoints (drawing st)) as [|p ps] eqn:Hps; [cbn in Hn; lia|].
      exfalso. clear -Hlast.
      revert p Hlast. induction ps as [|q ps IH]; intros p; [discriminate|].
      cbn. apply IH.
  - cbn. exists []. rewrite app_nil_r.
    split; [reflexivity|]. split; [|auto].
    pose proof (flagged_after previews (nextOid st) kept [] Hkept eq_refl) as Hflag.
    cbn in Hflag. rewrite app_nil_r, union_empty_r_L in Hflag. exact Hflag.
Qed.

End PolygonPreview.

(** ** The sample parcel *)

Section SampleParcel.

Import EditorPage.

Context {num : Type} `{JSNumber num} `{JSMath num}.

Local Open Scope js_scope.

(** X24: the sample parcel is a land parcel of six vertices placed at the
    centre of the canvas; all six sides are annotated (36 primitives,
    stored under the parcel's id), and after them comes the name label,
    which is tagged with the parcel's id but is not part of the stored
    set. *)
Theorem sample_parcel_is_annotated (center : Point num) (now : Z) (st : Editor num)
    (c : list (FabricObject num)) :
  canvas st = Some c ->
  let st' := exec (createSampleParcel center now) st in
  let shapeId := "parcel-sample-" +++ integer_toString now in
  exists (polygon label : FabricObject num) (els : list (FabricObject num)),
    canvas st' = Some (c ++ polygon :: els ++ [label])%list /\
    measurementLabels st' = <[shapeId := els]> (measurementLabels st) /\
    length els = 36%nat /\
    shape polygon = Polygon sample_parcel_points /\
    transformMatrix polygon = translation (px center) (py center) /\
    id polygon = Some shapeId /\ isParcel polygon = true /\
    shape label = Text "PARCEL A-123" (px center) (py center) (lit 0) /\
    isMeasurement label = true /\ parentId label = Some shapeId /\
    ~ In (oid label) (map oid els).
Proof.
  intros Hc st' shapeId.
  assert (Hst' : st' = exec (createSampleParcel center now) st) by reflexivity.
  unfold createSampleParcel in Hst'. rewrite exec_get, Hc in Hst'.
  cbv beta iota zeta in Hst'. fold shapeId in Hst'.
  rewrite !exec_bind in Hst'.
  set (created := new_object (Polygon sample_parcel_points) _ _ _ _ true true) in *.
  set (polygon := placed_polygon (px center) (py center) true
                    (with_id shapeId (eval created st))) in *.
  set (st1 := exec (canvas_add polygon) (exec created st)) in *.
  assert (H1 : canvas st1 = Some (c ++ [polygon])%list /\
               measurementLabels st1 = measurementLabels st /\
               nextOid st1 = S (nextOid st)).
  { unfold st1, created. run_editor. now rewrite Hc. }
  destruct H1 as (Hc1 & Hl1 & Hn1).
  destruct (addPolygonMeasurements_run polygon sample_parcel_points shapeId st1 eq_refl)
    as (els & (Hcm & Hlm & _ & Hnm & Hoids) & _ & Hshapes); [cbn; lia|].
  set (st2 := exec (addPolygonMeasurements polygon shapeId) st1) in *.
  set (newLabel := new_object (Text _ _ _ _) _ _ _ _ false false) in *.
  set (label := as_measurement shapeId (eval newLabel st2)) in *.
  assert (Hlen : length els = 36%nat).
  { rewrite (length_of_shapes els _ (Hshapes ltac:(congruence))).
    now rewrite polygon_edge_shapes_length, length_seq. }
  exists polygon, label, els.
  assert (Hfinal : canvas st' = option_map (fun cv => cv ++ [label])%list (canvas st2) /\
                   measurementLabels st' = measurementLabels st2 /\
                   oid label = nextOid st2).
  { rewrite Hst'. unfold label, newLabel. run_editor. auto. }
  destruct Hfinal as (Hcf & Hlf & Hof).
  assert (Hnot : ~ In (oid label) (map oid els)).
  { rewrite Hof, Hnm, Hoids. intros Hin. apply in_seq in Hin. lia. }
  rewrite Hcf, Hlf, Hcm, Hlm, Hc1, Hl1. cbn [option_map]. rewrite <- !app_assoc.
  repeat split; auto.
Qed.

End SampleParcel.

(** ** Tools that do not draw *)

Section IdleTools.

Import EditorPage.

Context {num : Type} `{JSNumber num} `{JSMath num}.

Local Open Scope js_scope.

(** A pointer move with the select, the pan or the text tool records
    the mouse position and nothing else. *)
Lemma handleMouseMove_idle (pointer : Point num) (st : Editor num)
    (c : list (FabricObject num)) :
  canvas st = Some c ->
  tempShape (drawing st) = None ->
  idle_tool (activeTool (drawing st)) = true ->
  exec (handleMouseMove pointer) st
  = set_drawing (set_mousePos pointer (drawing st)) st.
Proof.
  intros Hc Htemp Htool. unfold handleMouseMove. rewrite exec_get, Hc.
  cbv beta iota zeta. rewrite Htemp.
  destruct (activeTool (drawing st)); try discriminate;
    destruct (isDrawing (drawing st)); try reflexivity;
    destruct (drawingStart (drawing st)); reflexivity.
Qed.

Lemma handleMouseMove_idle_all (moves : list (Point num)) :
  forall (st : Editor num) (c : list (FabricObject num)),
    canvas st = Some c ->
    tempShape (drawing st) = None ->
    idle_tool (activeTool (drawing st)) = true ->
    let st' := exec (forEach moves handleMouseMove) st in
    canvas st' = Some c /\
    measurementLabels st' = measurementLabels st /\
    nextOid st' = nextOid st /\
    tempShape (drawing st') = None /\
    activeTool (drawing st') = activeTool (drawing st) /\
    isDrawing (drawing st') = isDrawing (drawing st) /\
    drawingStart (drawing st') = drawingStart (drawing st) /\
    polygonPoints (drawing st') = polygonPoints (drawing st).
Proof.
  induction moves as [|p moves IH]; intros st c Hc Htemp Htool; cbv zeta.
  - cbn. auto 10.
  - cbn [forEach]. rewrite exec_bind, (handleMouseMove_idle p st c Hc Htemp Htool).
    destruct (IH (set_drawing (set_mousePos p (drawing st)) st) c Hc Htemp Htool)
      as (Hc' & Hl & Hn & Ht & Ha & Hd & Hs & Hp).
    auto 10.
Qed.

(** X26: the select, the pan and the text tool draw nothing: a gesture of
    pointer down, any number of moves and pointer up leaves the canvas,
    the stored annotation sets and the placed points as they were, and no
    drag is in progress afterwards.  For the text tool the press does
    start a drag, which the release ends without creating an object. *)
Theorem idle_tools_draw_nothing (p q : Point num) (moves : list (Point num)) (now : Z)
    (st : Editor num) (c : list (FabricObject num)) :
  canvas st = Some c ->
  tempShape (drawing st) = None ->
  isDrawing (drawing st) = false ->
  idle_tool (activeTool (drawing st)) = true ->
  let pressed := exec (handleMouseDown p) st in
  let st' :=
    exec (handleMouseUp q now) (exec (forEach moves handleMouseMove) pressed) in
  isDrawing (drawing pressed)
  = match activeTool (drawing st) with tool_text => true | _ => false end /\
  canvas st' = Some c /\
  measurementLabels st' = measurementLabels st /\
  nextOid st' = nextOid st /\
  polygonPoints (drawing st') = polygonPoints (drawing st) /\
  isDrawing (drawing st') = false.
Proof.
  intros Hc Htemp Hdraw Htool pressed st'.
  assert (Hpressed : canvas pressed = Some c /\
                     measurementLabels pressed = measurementLabels st /\
                     nextOid pressed = nextOid st /\
                     tempShape (drawing pressed) = None /\
                     activeTool (drawing pressed) = activeTool (drawing st) /\
                     polygonPoints (drawing pressed) = polygonPoints (drawing st) /\
                     isDrawing (drawing pressed)
                     = match activeTool (drawing st) with
                       | tool_text => true
                       | _ => false
                       end /\
                     (isDrawing (drawing pressed) = true ->
                      drawingStart (drawing pressed) = Some p)).
  { unfold pressed, handleMouseDown. rewrite exec_get, Hc. cbv beta iota.
    destruct (activeTool (drawing st)) eqn:Ht; try discriminate;
      run_editor; rewrite ?Ht, ?Hdraw; repeat split; auto; discriminate. }
  destruct Hpressed as (Hc1 & Hl1 & Hn1 & Ht1 & Ha1 & Hp1 & Hd1 & Hs1).
  destruct (handleMouseMove_idle_all moves pressed c Hc1 Ht1)
    as (Hc2 & Hl2 & Hn2 & Ht2 & Ha2 & Hd2 & Hs2 & Hp2); [now rewrite Ha1|].
  set (moved := exec (forEach moves handleMouseMove) pressed) in *.
  split; [exact Hd1|].
  assert (Hst' : st' = exec (handleMouseUp q now) moved) by reflexivity.
  clearbody st'.
  unfold handleMouseUp in Hst'. rewrite exec_get, Hc2 in Hst'.
  cbv beta iota zeta in Hst'. rewrite Ht2, Ha2, Ha1, Hd2, Hd1 in Hst'.
  destruct (activeTool (drawing st)) eqn:Ht; try discriminate.
  - cbn in Hst'. subst st'. rewrite Hc2, Hl2, Hn2, Hp2, Hd2, Hd1. auto 10.
  - rewrite ?Hs2, (Hs1 Hd1) in Hst'. clearbody moved.
    run_editor_in Hst'. subst st'. cbn. rewrite Hc2, Hl2, Hn2, Hp2. auto 10.
  - cbn in Hst'. subst st'. rewrite Hc2, Hl2, Hn2, Hp2, Hd2, Hd1. auto 10.
Qed.

End IdleTools.

(** ** A whole drag with the rectangle tool *)

Section RectangleDrag.

Import EditorPage.

Context {num : Type} `{JSNumber num} `{JSMath num}.

Local Open Scope js_scope.

(** Pointer moves keep a drag as it is, with one preview at most. *)
Lemma drag_moves (c : list (FabricObject num)) (bound : nat) (tool : Tool)
    (start witness_point : Point num) (s : Shape num) (moves : list (Point num)) :
  (forall o, In o c -> (oid o < bound)%nat) ->
  preview_shape tool start witness_point = Some s ->
  forall st : Editor num,
    dragging c bound tool start st ->
    let st' := exec (forEach moves handleMouseMove) st in
    dragging c bound tool start st' /\
    measurementLabels st' = measurementLabels st.
Proof.
  intros Hold Hs. induction moves as [|p moves IH]; intros st Hdrag; cbv zeta.
  - cbn. auto.
  - cbn [forEach]. rewrite exec_bind.
    destruct (preview_shape_tool tool start witness_point p s Hs) as (s' & Hs').
    destruct (handleMouseMove_step c bound tool start p s' st Hdrag Hold Hs')
      as (Hdrag' & _ & Hl & _).
    destruct (IH _ Hdrag') as (Hdrag'' & Hl').
    split; [exact Hdrag''|]. now rewrite Hl', Hl.
Qed.

Lemma without_preview (c : list (FabricObject num)) (bound : nat)
    (temp : option (FabricObject num)) :
  (forall o, In o c -> (oid o < bound)%nat) ->
  (forall t, temp = Some t -> (bound <= oid t)%nat) ->
  without (option_list temp) (c ++ option_list temp) = c.
Proof.
  intros Hold Hnew. destruct temp as [t|]; cbn [option_list].
  - rewrite without_app, without_self, app_nil_r. apply without_disjoint.
    intros o g Ho [<-|[]] Heq. specialize (Hold o Ho). specialize (Hnew t eq_refl). lia.
  - rewrite app_nil_r. apply without_nil.
Qed.

(** The three state resets that end [handleMouseUp] keep the preview
    slot. *)
Lemma finish_drawing_keeps (st : Editor num) :
  let st' :=
    exec (setState (set_currentMeasurement ""))
      (exec (setState (set_drawingStart None))
         (exec (setState (set_isDrawing false)) st)) in
  canvas st' = canvas st /\
  measurementLabels st' = measurementLabels st /\
  tempShape (drawing st') = tempShape (drawing st) /\
  isDrawing (drawing st') = false.
Proof. cbv zeta. run_editor. auto. Qed.

(** X27: a whole drag with the rectangle tool that ends more than 5
    pixels from its start in width and in height adds exactly one
    rectangle, spanned by the press point and the release point, and its
    twelve annotation primitives, after the objects that were on the
    canvas before; whatever previews the moves drew are gone, and no drag
    is in progress afterwards. *)
Theorem rectangle_drag_commits_one_rectangle (p q : Point num)
    (moves : list (Point num)) (now : Z) (st : Editor num)
    (c : list (FabricObject num)) :
  canvas st = Some c ->
  canvas_allocated st ->
  activeTool (drawing st) = tool_rectangle ->
  tempShape (drawing st) = None ->
  (Math_abs (px q - px p) >? lit 5) && (Math_abs (py q - py p) >? lit 5) = true ->
  let st' :=
    exec (handleMouseUp q now)
      (exec (forEach moves handleMouseMove) (exec (handleMouseDown p) st)) in
  let shapeId := "shape-" +++ integer_toString now in
  exists (rect : FabricObject num) (els : list (FabricObject num)),
    canvas st' = Some (c ++ rect :: els)%list /\
    shape rect
    = Rect (Math_min (px p) (px q)) (Math_min (py p) (py q))
        (Math_abs (px q - px p)) (Math_abs (py q - py p)) /\
    id rect = Some shapeId /\ selectable rect = true /\
    measurementLabels st' = <[shapeId := els]> (measurementLabels st) /\
    length els = 12%nat /\
    tempShape (drawing st') = None /\
    isDrawing (drawing st') = false.
Proof.
  intros Hc Halloc Htool Htemp Hlarge st' shapeId.
  assert (Hold : forall o, In o c -> (oid o < nextOid st)%nat)
    by (intros o Hin; exact (Halloc c o Hc Hin)).
  set (pressed := exec (handleMouseDown p) st).
  assert (Hpressed : dragging c (nextOid st) tool_rectangle p pressed /\
                     measurementLabels pressed = measurementLabels st).
  { unfold pressed, handleMouseDown. rewrite exec_get, Hc. cbv beta iota.
    rewrite Htool. run_editor. unfold dragging. cbn.
    rewrite Htemp, Hc, Htool. cbn. rewrite app_nil_r.
    repeat split; auto. discriminate. }
  destruct Hpressed as (Hdrag0 & Hl0).
  destruct (drag_moves c (nextOid st) tool_rectangle p q _ moves Hold eq_refl
              pressed Hdrag0) as (Hdrag & Hl1).
  set (moved := exec (forEach moves handleMouseMove) pressed) in *.
  assert (Hst' : st' = exec (handleMouseUp q now) moved) by reflexivity.
  clearbody st' moved pressed.
  destruct Hdrag as (Hcm & Hdm & Hsm & Htm & Hbm & Hpm).
  destruct (remove_preview_run (tempShape (drawing moved)) moved _ Hcm)
    as (Hc1 & Hl2 & Hn1 & Hs1).
  rewrite (without_preview c (nextOid st) _ Hold Hpm) in Hc1.
  unfold handleMouseUp in Hst'.
  rewrite exec_get, Hcm in Hst'. cbv beta iota zeta in Hst'.
  rewrite Hdm, Hsm, Htm in Hst'. rewrite !exec_bind in Hst'. rewrite Hlarge in Hst'.
  set (st1 := exec (match tempShape (drawing moved) with
                    | Some t => _
                    | None => _
                    end) moved) in *.
  fold shapeId in Hst'.
  assert (Htemp1 : tempShape (drawing st1) = None).
  { unfold st1. destruct (tempShape (drawing moved)) eqn:Ht; [reflexivity | exact Ht]. }
  clearbody st1.
  destruct (commit_run
              (Rect (Math_min (px p) (px q)) (Math_min (py p) (py q))
                 (Math_abs (px q - px p)) (Math_abs (py q - py p)))
              (activeColor (drawing moved)) "transparent"
              (strokeWidthSetting (drawing moved)) shapeId addRectMeasurements
              st1 c Hc1)
    as (rect & Hshape & Hid & _ & _ & _ & Hsel & Hexec).
  destruct (addRectMeasurements_run rect shapeId
              (set_nextOid (S (nextOid st1))
                 (set_canvas (Some (c ++ [rect])%list) st1)))
    as (els & (Hca & Hla & Hda & _) & _ & Hshapes).
  rewrite Hexec in Hst'.
  set (st2 := exec (addRectMeasurements rect shapeId) _) in *.
  clearbody st2.
  destruct (finish_drawing_keeps st2) as (Hcf & Hlf & Htf & Hdf).
  rewrite <- Hst' in Hcf, Hlf, Htf, Hdf.
  exists rect, els.
  assert (Hlen : length els = 12%nat).
  { rewrite (length_of_shapes els _ (Hshapes ltac:(discriminate))). reflexivity. }
  rewrite Hcf, Hlf, Htf, Hdf, Hca, Hla, Hda. cbn.
  rewrite <- app_assoc, Hl2, Hl1, Hl0, Htemp1.
  repeat split; auto.
Qed.

End RectangleDrag.

(** ** Instances of the properties above *)

(** X1, a witness: the store as it starts has no project. *)
Lemma project_actions_need_a_project_witness :
  ProjectStore.addElement (sample_element "e1" tt) 1700000000000
    ProjectStore.initialState
  = ProjectStore.initialState.
Proof.
  exact (proj1 (proj2 (project_actions_need_a_project ProjectStore.initialState
                         no_project_updates (sample_element "e1" tt) "e1"
                         (rename_element "Annex") None "photo.png" 1700000000000
                         eq_refl))).
Defined.

(** X2, a witness: the element e2 is added to the sample store, which has
    e1, and removed again. *)
Lemma removeElement_undoes_addElement_witness :
  option_map ProjectStore.elements
    (ProjectStore.currentProject
       (ProjectStore.removeElement "e2" 1700000000003
          (ProjectStore.addElement (sample_element "e2" tt) 1700000000002 sample_store)))
  = Some [sample_element "e1" tt].
Proof.
  refine (proj1 (proj2 (removeElement_undoes_addElement sample_store _
                          (sample_element "e2" tt) 1700000000002 1700000000003
                          eq_refl)) _).
  intros el [<-|[]]. discriminate.
Defined.

(** X3, a witness: renaming the element e1 of the sample store, and
    renaming an element it does not have. *)
Lemma updateElement_touches_matching_ids_witness :
  exists p',
    ProjectStore.currentProject
      (ProjectStore.updateElement "e7" (rename_element "Annex") 1700000000002 sample_store)
    = Some p' /\
    ProjectStore.elements p' = [sample_element "e1" tt].
Proof.
  destruct (updateElement_touches_matching_ids sample_store _ "e7"
              (rename_element "Annex") 1700000000002 eq_refl)
    as (p' & Hcurrent & _ & _ & _ & Hsame & _).
  exists p'. split; [exact Hcurrent|].
  apply Hsame. intros el [<-|[]]. discriminate.
Defined.

(** X5, a witness: 99.9 cm. *)
Lemma formatMeasurement_just_below_one_meter_witness :
  EditorPage.formatMeasurement (999 # 1000)%Q = "100 cm".
Proof.
  apply formatMeasurement_just_below_one_meter; [discriminate | reflexivity].
Defined.

(** X6, a witness: one step up from 100 percent. *)
Lemma handleZoom_stays_in_range_witness :
  (EditorPage.handleZoom 100 25 == 125)%Q.
Proof.
  apply (proj2 (proj2 (handleZoom_stays_in_range 100 25))).
  split; discriminate.
Defined.

(** X7, a witness: the rectangle shape-1 on the empty canvas. *)
Lemma annotation_set_sizes_witness :
  exists els,
    measured initial_editor
      (EditorPage.exec (EditorPage.addRectMeasurements (H0 := Q_math) sample_rect "shape-1")
         initial_editor) "shape-1" els /\
    length els = 12%nat.
Proof.
  exact (proj1 (annotation_set_sizes (H0 := Q_math) "shape-1" initial_editor []
                  eq_refl) sample_rect).
Defined.

(** X8, a witness: the rectangle shape-1 before the canvas exists. *)
Lemma annotation_sets_without_canvas_witness :
  EditorPage.measurementLabels
    (EditorPage.exec (EditorPage.addRectMeasurements (H0 := Q_math) sample_rect "shape-1")
       no_canvas_editor) !! "shape-1"
  = Some [].
Proof.
  rewrite (proj1 (annotation_sets_without_canvas (H0 := Q_math) "shape-1"
                    no_canvas_editor eq_refl) sample_rect).
  reflexivity.
Defined.

(** X9, a witness: nothing is stored for shape-1 on the empty canvas. *)
Lemma removeMeasurements_idempotent_witness :
  EditorPage.exec (EditorPage.removeMeasurements "shape-1") initial_editor
  = initial_editor.
Proof.
  apply (proj1 (removeMeasurements_idempotent "shape-1" initial_editor)).
  reflexivity.
Defined.

(** X10, a witness: the rectangle shape-1 is updated twice on the empty
    canvas. *)
Lemma annotations_do_not_accumulate_witness :
  let st1 :=
    EditorPage.exec (EditorPage.updateObjectMeasurements (H0 := Q_math) sample_rect)
      initial_editor in
  let st2 :=
    EditorPage.exec (EditorPage.updateObjectMeasurements (H0 := Q_math) sample_rect) st1 in
  option_map (map EditorPage.shape) (EditorPage.canvas st2)
  = option_map (map EditorPage.shape) (EditorPage.canvas st1).
Proof.
  refine (proj1 (annotations_do_not_accumulate (H0 := Q_math) sample_rect "shape-1"
                   initial_editor [] eq_refl eq_refl _)).
  intros c o [= <-] [].
Defined.

(** X11, a witness: a rectangle is dragged from (100, 100) over (150, 120)
    to (300, 250). *)
Lemma one_preview_while_dragging_witness :
  exists preview,
    EditorPage.canvas
      (EditorPage.exec
         (EditorPage.forEach
            [ {| EditorPage.px := 150%Q; EditorPage.py := 120%Q |};
              {| EditorPage.px := 300%Q; EditorPage.py := 250%Q |} ]
            (EditorPage.handleMouseMove (H0 := Q_math)))
         drawing_rectangle)
    = Some [preview] /\
    EditorPage.shape preview = EditorPage.Rect 100%Q 100%Q 200%Q 150%Q.
Proof.
  destruct (one_preview_while_dragging (H0 := Q_math)
              [ {| EditorPage.px := 150%Q; EditorPage.py := 120%Q |} ]
              {| EditorPage.px := 300%Q; EditorPage.py := 250%Q |}
              {| EditorPage.px := 100%Q; EditorPage.py := 100%Q |}
              (EditorPage.Rect 100%Q 100%Q 200%Q 150%Q)
              drawing_rectangle [] eq_refl)
    as (preview & Hcanvas & _ & Hshape & _).
  - intros c o [= <-] [].
  - reflexivity.
  - reflexivity.
  - reflexivity.
  - reflexivity.
  - exists preview. split; [exact Hcanvas | exact Hshape].
Defined.

(** X12, a witness: a click with the line tool at (100, 100), without a
    move. *)
Lemma pointer_up_commits_every_line_witness :
  exists line els,
    EditorPage.shape line = EditorPage.Line 100%Q 100%Q 100%Q 100%Q /\
    EditorPage.canvas
      (EditorPage.exec
         (EditorPage.handleMouseUp (H0 := Q_math)
            {| EditorPage.px := 100%Q; EditorPage.py := 100%Q |} 1700000000000)
         drawing_line)
    = Some (line :: els) /\
    length els = 6%nat.
Proof.
  destruct (pointer_up_commits_every_line (H0 := Q_math)
              {| EditorPage.px := 100%Q; EditorPage.py := 100%Q |} 1700000000000
              drawing_line []
              {| EditorPage.px := 100%Q; EditorPage.py := 100%Q |}
              eq_refl eq_refl eq_refl (or_introl eq_refl))
    as (line & els & Hshape & _ & Hcanvas & _ & Hlen & _).
  exists line, els. repeat split; assumption.
Defined.

(** X13, a witness: three clicks with the polygon tool. *)
Lemma clicks_place_vertices_witness :
  let clicks :=
    [ {| EditorPage.px := 0%Q; EditorPage.py := 0%Q |};
      {| EditorPage.px := 10%Q; EditorPage.py := 0%Q |};
      {| EditorPage.px := 10%Q; EditorPage.py := 10%Q |} ] in
  EditorPage.polygonPoints
    (EditorPage.drawing
       (EditorPage.exec
          (EditorPage.forEach clicks EditorPage.handleMouseDown)
          (placing_polygon [])))
  = clicks.
Proof.
  exact (proj1 (clicks_place_vertices _ (placing_polygon []) []
                  eq_refl eq_refl)).
Defined.

(** X15, a witness: a double click after the points (0, 0), (10, 0) and
    (10, 10). *)
Lemma completed_polygon_has_clicked_vertices_witness :
  exists polygon els,
    EditorPage.canvas
      (EditorPage.exec (EditorPage.handleDoubleClick (H0 := Q_math) 1700000000000)
         (placing_polygon
            [ {| EditorPage.px := 0%Q; EditorPage.py := 0%Q |};
              {| EditorPage.px := 10%Q; EditorPage.py := 0%Q |};
              {| EditorPage.px := 10%Q; EditorPage.py := 10%Q |} ]))
    = Some (polygon :: els) /\
    length els = 18%nat.
Proof.
  destruct (completed_polygon_has_clicked_vertices (H := Q_math) 1700000000000
              (placing_polygon
                 [ {| EditorPage.px := 0%Q; EditorPage.py := 0%Q |};
                   {| EditorPage.px := 10%Q; EditorPage.py := 0%Q |};
                   {| EditorPage.px := 10%Q; EditorPage.py := 10%Q |} ])
              [] eq_refl eq_refl)
    as (polygon & vertices & els & Hcanvas & _ & _ & _ & Hlen & _); [cbn; lia|].
  exists polygon, els. split; [exact Hcanvas | exact Hlen].
Defined.

(** X16, a witness: the rectangle shape-1 is deleted; its stored
    annotation set goes with it. *)
Lemma handleDelete_removes_shapes_and_annotations_witness :
  EditorPage.measurementLabels
    (EditorPage.exec (EditorPage.handleDelete [sample_rect]) annotated_editor)
    !! "shape-1"
  = None.
Proof.
  destruct (handleDelete_removes_shapes_and_annotations [sample_rect]
              annotated_editor [sample_rect; sample_label] eq_refl)
    as (gone & _ & _ & Hkeys & _).
  apply (Hkeys sample_rect); [now left | reflexivity].
Defined.

(** X17, a witness: the house template on the empty canvas. *)
Lemma template_label_outlives_its_shape_witness :
  exists rect label els,
    EditorPage.canvas
      (EditorPage.exec
         (EditorPage.addTemplate (H0 := Q_math) "house"
            {| EditorPage.px := 700%Q; EditorPage.py := 450%Q |} 1700000000000)
         initial_editor)
    = Some (rect :: label :: els) /\
    EditorPage.canvas
      (EditorPage.exec (EditorPage.handleDelete [rect])
         (EditorPage.exec
            (EditorPage.addTemplate (H0 := Q_math) "house"
               {| EditorPage.px := 700%Q; EditorPage.py := 450%Q |} 1700000000000)
            initial_editor))
    = Some [label].
Proof.
  destruct (template_label_outlives_its_shape (H0 := Q_math) "house"
              {| EditorPage.px := 700%Q; EditorPage.py := 450%Q |} 1700000000000
              initial_editor []
              {| EditorPage.template_id := "house"; EditorPage.template_label := "House";
                 EditorPage.template_color := "#3b82f6";
                 EditorPage.template_width := 12%Q; EditorPage.template_height := 8%Q |}
              eq_refl)
    as (rect & label & els & Hcanvas & _ & _ & _ & _ & Hdeleted & _).
  - intros c o [= <-] [].
  - reflexivity.
  - exists rect, label, els. split; [exact Hcanvas | exact Hdeleted].
Defined.

(** X18, a witness: the house template, 12 m by 8 m, at 10 pixels per
    meter around (700, 450). *)
Lemma template_is_centred_and_to_scale_witness :
  exists rect rest l t w h,
    EditorPage.canvas
      (EditorPage.exec
         (EditorPage.addTemplate (H0 := Q_math) "house"
            {| EditorPage.px := 700%Q; EditorPage.py := 450%Q |} 1700000000000)
         initial_editor)
    = Some (rect :: rest) /\
    EditorPage.shape rect = EditorPage.Rect l t w h /\
    (l + w / 2 == 700)%Q /\ (t + h / 2 == 450)%Q.
Proof.
  pose proof (template_is_centred_and_to_scale (H := Q_math) "house"
                {| EditorPage.px := 700%Q; EditorPage.py := 450%Q |} 1700000000000
                initial_editor [] eq_refl) as Hplaced.
  destruct Hplaced as (rect & rest & l & t & w & h & Hcanvas & Hshape & Hx & Hy & _).
  - discriminate.
  - exists rect, rest, l, t, w, h. repeat split; assumption.
Defined.

(** X19, a witness: the circle of radius 50 drawn from (100, 100). *)
Lemma drawn_circle_diameter_through_start_witness :
  exists line label,
    EditorPage.measurementLabels
      (EditorPage.exec
         (EditorPage.addCircleMeasurements sample_circle "shape-2")
         initial_editor) !! "shape-2"
    = Some [line; label].
Proof.
  destruct (drawn_circle_diameter_through_start sample_circle "shape-2"
              {| EditorPage.px := 100%Q; EditorPage.py := 100%Q |} 50%Q
              initial_editor [] eq_refl eq_refl eq_refl eq_refl)
    as (line & label & x1 & y1 & x2 & y2 & diameter & left & top & angle & Hset & _).
  exists line, label. exact Hset.
Defined.

(** X20, a witness: while the second of the two rectangles is moved, the
    first stays as it is. *)
Lemma moving_tick_changes_only_the_target_position_witness :
  nth_error
    (CanvasEditor.objects
       (CanvasEditor.object_moving snapToGrid_model findAlignmentGuides_model
          (fun _ => "0.5") 1%Q (Some 1%nat) two_rectangles)) 0
  = Some (canvas_rect 0 100%Q 100%Q 200%Q 150%Q).
Proof.
  apply (proj1 (proj2 (moving_tick_changes_only_the_target_position
                         snapToGrid_model findAlignmentGuides_model (fun _ => "0.5")
                         1%Q (Some 1%nat) two_rectangles))).
  - reflexivity.
  - discriminate.
Defined.

(** X21, a witness: a template of 12 m by 8 m at scale 1, in a project
    without elements. *)
Lemma template_area_and_reported_area_witness :
  let result :=
    CanvasEditor.addFromTemplate snapToGrid_model 1%Q unit
      (fun _ => "house") (fun _ => "House") (fun _ => ProjectStore.building)
      (fun _ => 12%Q) (fun _ => 8%Q) 1200%Q 800%Q tt 0%nat "u1" 1700000000001
      two_rectangles project_store in
  exists (rect : CanvasEditor.CanvasObject Q)
         (element : ProjectStore.ProjectElement Q CanvasEditor.ElementData),
    CanvasEditor.objects (fst result)
    = (CanvasEditor.objects two_rectangles ++ [rect])%list /\
    ProjectStore.area (ProjectStore.el_measurements element) = Some (12 * 8)%Q /\
    (CanvasEditor.area
       (CanvasEditor.updateMeasurements (fun _ => 0%Q) (fun _ _ => 0%Q) 1%Q rect)
     == 12 * 8 / 100)%Q.
Proof.
  destruct (template_area_and_reported_area (fun _ => 0%Q) (fun _ _ => 0%Q)
              snapToGrid_model 1%Q unit
              (fun _ => "house") (fun _ => "House") (fun _ => ProjectStore.building)
              (fun _ => 12%Q) (fun _ => 8%Q) 1200%Q 800%Q tt 0%nat "u1" 1700000000001
              two_rectangles project_store _ ltac:(discriminate) eq_refl)
    as (rect & element & Hobjects & _ & _ & _ & Harea & Hreported & _).
  exists rect, element. repeat split; assumption.
Defined.

(** X22, a witness: a rectangle is added while the store has no project. *)
Lemma shapes_without_project_are_not_recorded_witness :
  snd (CanvasEditor.addRectangle 2%nat "u1" 1700000000001 two_rectangles
         ProjectStore.initialState)
  = ProjectStore.initialState.
Proof.
  exact (proj1 (shapes_without_project_are_not_recorded snapToGrid_model 1%Q unit
                  (fun _ => "house") (fun _ => "House") (fun _ => ProjectStore.building)
                  (fun _ => 12%Q) (fun _ => 8%Q) 1200%Q 800%Q tt 2%nat "u1"
                  1700000000001 two_rectangles ProjectStore.initialState eq_refl)).
Defined.

(** X23, a witness: two points are placed and nothing is marked as
    preview yet; five preview objects are drawn. *)
Lemma polygon_preview_is_redrawn_witness :
  option_map (@length _)
    (EditorPage.canvas
       (EditorPage.exec (EditorPage.polygonPreviewEffect (H0 := Q_math) ∅)
          (placing_polygon
             [ {| EditorPage.px := 0%Q; EditorPage.py := 0%Q |};
               {| EditorPage.px := 10%Q; EditorPage.py := 0%Q |} ])))
  = Some 5%nat.
Proof.
  destruct (polygon_preview_is_redrawn (H0 := Q_math) ∅
              (placing_polygon
                 [ {| EditorPage.px := 0%Q; EditorPage.py := 0%Q |};
                   {| EditorPage.px := 10%Q; EditorPage.py := 0%Q |} ])
              [] eq_refl)
    as (new & Hcanvas & _ & Hlen & _).
  - intros c o [= <-] [].
  - intros i Hin. now apply not_elem_of_empty in Hin.
  - rewrite Hcanvas. cbn. now rewrite Hlen.
Defined.

(** X24, a witness: the sample parcel on the empty canvas. *)
Lemma sample_parcel_is_annotated_witness :
  exists polygon label els,
    EditorPage.canvas
      (EditorPage.exec
         (EditorPage.createSampleParcel (H0 := Q_math)
            {| EditorPage.px := 700%Q; EditorPage.py := 450%Q |} 1700000000000)
         initial_editor)
    = Some (polygon :: els ++ [label])%list /\
    length els = 36%nat.
Proof.
  destruct (sample_parcel_is_annotated (H0 := Q_math)
              {| EditorPage.px := 700%Q; EditorPage.py := 450%Q |} 1700000000000
              initial_editor [] eq_refl)
    as (polygon & label & els & Hcanvas & _ & Hlen & _).
  exists polygon, label, els. split; [exact Hcanvas | exact Hlen].
Defined.

(** X25, a witness: a drag of 3 by 2 pixels with the rectangle tool. *)
Lemma small_rectangle_drag_leaves_canvas_witness :
  EditorPage.canvas
    (EditorPage.exec
       (EditorPage.handleMouseUp (H0 := Q_math)
          {| EditorPage.px := 103%Q; EditorPage.py := 102%Q |} 1700000000000)
       (EditorPage.exec
          (EditorPage.handleMouseMove (H0 := Q_math)
             {| EditorPage.px := 103%Q; EditorPage.py := 102%Q |})
          (EditorPage.exec
             (EditorPage.handleMouseDown
                {| EditorPage.px := 100%Q; EditorPage.py := 100%Q |})
             (with_tool EditorPage.tool_rectangle initial_editor))))
  = Some [].
Proof.
  refine (proj1 (small_rectangle_drag_leaves_canvas (H0 := Q_math)
                   {| EditorPage.px := 100%Q; EditorPage.py := 100%Q |}
                   {| EditorPage.px := 103%Q; EditorPage.py := 102%Q |}
                   1700000000000 (with_tool EditorPage.tool_rectangle initial_editor) []
                   eq_refl _ eq_refl eq_refl eq_refl)).
  intros o [].
Defined.

(** X26, a witness: a press, two moves and a release with the text tool on
    the empty canvas. *)
Lemma idle_tools_draw_nothing_witness :
  EditorPage.canvas
    (EditorPage.exec
       (EditorPage.handleMouseUp (H0 := Q_math)
          {| EditorPage.px := 300%Q; EditorPage.py := 250%Q |} 1700000000000)
       (EditorPage.exec
          (EditorPage.forEach
             [ {| EditorPage.px := 150%Q; EditorPage.py := 120%Q |};
               {| EditorPage.px := 300%Q; EditorPage.py := 250%Q |} ]
             (EditorPage.handleMouseMove (H0 := Q_math)))
          (EditorPage.exec
             (EditorPage.handleMouseDown
                {| EditorPage.px := 100%Q; EditorPage.py := 100%Q |})
             (with_tool EditorPage.tool_text initial_editor))))
  = Some [].
Proof.
  exact (proj1 (proj2 (idle_tools_draw_nothing (H0 := Q_math)
                         {| EditorPage.px := 100%Q; EditorPage.py := 100%Q |}
                         {| EditorPage.px := 300%Q; EditorPage.py := 250%Q |}
                         [ {| EditorPage.px := 150%Q; EditorPage.py := 120%Q |};
                           {| EditorPage.px := 300%Q; EditorPage.py := 250%Q |} ]
                         1700000000000 (with_tool EditorPage.tool_text initial_editor) []
                         eq_refl eq_refl eq_refl eq_refl))).
Defined.

(** X27, a witness: a drag from (100, 100) over (150, 120) to (300, 250). *)
Lemma rectangle_drag_commits_one_rectangle_witness :
  exists rect els,
    EditorPage.canvas
      (EditorPage.exec
         (EditorPage.handleMouseUp (H0 := Q_math)
            {| EditorPage.px := 300%Q; EditorPage.py := 250%Q |} 1700000000000)
         (EditorPage.exec
            (EditorPage.forEach
               [ {| EditorPage.px := 150%Q; EditorPage.py := 120%Q |} ]
               (EditorPage.handleMouseMove (H0 := Q_math)))
            (EditorPage.exec
               (EditorPage.handleMouseDown
                  {| EditorPage.px := 100%Q; EditorPage.py := 100%Q |})
               (with_tool EditorPage.tool_rectangle initial_editor))))
    = Some (rect :: els) /\
    EditorPage.shape rect = EditorPage.Rect 100%Q 100%Q 200%Q 150%Q /\
    length els = 12%nat.
Proof.
  destruct (rectangle_drag_commits_one_rectangle (H0 := Q_math)
              {| EditorPage.px := 100%Q; EditorPage.py := 100%Q |}
              {| EditorPage.px := 300%Q; EditorPage.py := 250%Q |}
              [ {| EditorPage.px := 150%Q; EditorPage.py := 120%Q |} ]
              1700000000000 (with_tool EditorPage.tool_rectangle initial_editor) []
              eq_refl)
    as (rect & els & Hcanvas & Hshape & _ & _ & _ & Hlen & _).
  - intros c o [= <-] [].
  - reflexivity.
  - reflexivity.
  - reflexivity.
  - exists rect, els. repeat split; assumption.
Defined.
